(** * Vibe-Builder: access control, team membership and generation quota

    A shallow embedding of the row-level-security policies of the
    [20241201000002_enhanced_security_schema] migration and of the edge
    functions [manage-projects], the template marketplace,
    [team-management] and [generate-scaffold].

    Tables are lists of rows, in insertion order.  A nullable column is an
    [option]; SQL predicates are evaluated in three-valued logic; HTTP
    responses are a status code with a payload.  Edge functions run with
    the service-role key, so the policies do not filter what they read:
    the policies are modelled on their own, as predicates over a row. *)

From Stdlib Require Import ZArith NArith List String Ascii Bool Lia Arith.
From Stdlib Require Import DecimalString DecimalNat FinFun.
From Stdlib Require Import Permutation Sorted.
Import ListNotations.

Set Implicit Arguments.

(* ================================================================= *)
(** ** SQL three-valued logic *)

Module Sql.

Inductive tvl : Type := TTrue | TFalse | TNull.

Definition and3 (a b : tvl) : tvl :=
  match a, b with
  | TFalse, _ | _, TFalse => TFalse
  | TTrue, TTrue => TTrue
  | _, _ => TNull
  end.

Definition or3 (a b : tvl) : tvl :=
  match a, b with
  | TTrue, _ | _, TTrue => TTrue
  | TFalse, TFalse => TFalse
  | _, _ => TNull
  end.

Definition of_bool (b : bool) : tvl := if b then TTrue else TFalse.

(** [x = y] on nullable operands: NULL as soon as one side is NULL. *)
Definition eq3 {A : Type} (eqb : A -> A -> bool) (x y : option A) : tvl :=
  match x, y with
  | Some a, Some b => of_bool (eqb a b)
  | _, _ => TNull
  end.

Definition is_null {A : Type} (x : option A) : tvl :=
  match x with None => TTrue | Some _ => TFalse end.

Definition is_not_null {A : Type} (x : option A) : tvl :=
  match x with None => TFalse | Some _ => TTrue end.

(** A [WHERE], [USING] or [WITH CHECK] clause keeps a row only when it
    evaluates to TRUE. *)
Definition holds (v : tvl) : bool :=
  match v with TTrue => true | _ => false end.

(** [EXISTS (SELECT 1 FROM rows r WHERE cond r)] is never NULL. *)
Definition exists_ {R : Type} (rows : list R) (cond : R -> tvl) : tvl :=
  of_bool (existsb (fun r => holds (cond r)) rows).

(** [x IN (v1, ..., vn)] for a non-null list of literals. *)
Definition in3 {A : Type} (eqb : A -> A -> bool) (x : option A) (vs : list A) : tvl :=
  match x with
  | None => TNull
  | Some a => of_bool (existsb (eqb a) vs)
  end.

End Sql.

(* ================================================================= *)
(** ** Enumerated column types *)

(** Identifiers are UUIDs: 128-bit numbers. *)
Definition uuid : Type := N.

(** Timestamps ([TIMESTAMPTZ], [Date.now()]) in milliseconds. *)
Definition timestamp : Type := Z.

(** JSON values ([JSONB] columns, parsed responses). *)
#[local] Set Warnings "-register-all".
Inductive json : Type :=
| J_null
| J_bool (b : bool)
| J_num (n : Z)
| J_str (s : string)
| J_arr (items : list json)
| J_obj (fields : list (string * json)).
#[local] Set Warnings "register-all".

(** [subscription_tier] of the initial schema ('free', 'pro', 'team',
    'enterprise') together with [subscription_tier_enhanced]. *)
Inductive subscription_tier : Type :=
| Tier_free_trial | Tier_free | Tier_pro | Tier_team
| Tier_pro_monthly | Tier_pro_yearly | Tier_team_monthly | Tier_team_yearly
| Tier_enterprise | Tier_enterprise_trial | Tier_legacy
| Tier_suspended | Tier_churned.

(** [team_members.role]. *)
Inductive member_role : Type :=
| Role_owner | Role_admin | Role_member | Role_guest.

(** [team_members.status] and [project_collaborators.status]. *)
Inductive member_status : Type :=
| Status_pending | Status_active | Status_suspended | Status_removed.

(** [project_collaborators.role]. *)
Inductive collaborator_role : Type :=
| Collab_owner | Collab_editor | Collab_viewer | Collab_commenter.

(** [projects.visibility]. *)
Inductive project_visibility : Type :=
| PVis_private | PVis_team | PVis_public.

(** [project_status_enhanced]. *)
Inductive project_status : Type :=
| PS_draft | PS_configuring | PS_generating | PS_generated | PS_failed
| PS_reviewing | PS_approved | PS_exporting | PS_exported | PS_deploying
| PS_deployed | PS_archived | PS_deleted.

(** [template_visibility]. *)
Inductive template_visibility : Type :=
| Vis_public | Vis_premium | Vis_team | Vis_private
| Vis_unlisted | Vis_deprecated | Vis_under_review.

(** [tech_stack]. *)
Inductive tech_stack : Type :=
| react_typescript | react_javascript | nextjs | vue_typescript
| vue_javascript | angular | svelte | nodejs_express | nodejs_fastify
| supabase | firebase | python_fastapi | python_django | go_gin | rust_actix.

(** [auth_method]. *)
Inductive auth_method : Type :=
| email_password | oauth_google | oauth_github | oauth_discord
| magic_link | custom_jwt.

Scheme Equality for subscription_tier.
Scheme Equality for member_role.
Scheme Equality for member_status.
Scheme Equality for collaborator_role.
Scheme Equality for project_visibility.
Scheme Equality for template_visibility.

(* ================================================================= *)
(** ** Rows and the store *)

(** [public.users]: the columns the edge functions read or write. *)
Record users_row : Type := {
  u_id : uuid;
  u_email : string;
  u_subscription_tier : option subscription_tier;
  u_is_active : bool;
  u_current_team_id : option uuid;
  u_is_team_owner : bool;
  u_monthly_generations : Z;
  u_projects_generated : Z
}.

(** [public.teams]. *)
Record teams_row : Type := {
  t_id : uuid;
  t_name : string;
  t_slug : string;
  t_description : option string;
  t_subscription_tier : subscription_tier;
  t_member_limit : Z;
  t_is_active : bool;
  t_created_by : option uuid
}.

(** [public.team_members].  The handlers store and read [user_id] as
    nullable (an invitation to an address with no account).  [role] is
    a nullable column: its CHECK admits the four labels and NULL. *)
Record team_members_row : Type := {
  tm_id : uuid;
  tm_team_id : uuid;
  tm_user_id : option uuid;
  tm_role : option member_role;
  tm_status : member_status;
  tm_invitation_token : option string;
  tm_invited_by : option uuid;
  tm_accepted_at : option timestamp
}.

(** [public.projects]. *)
Record projects_row : Type := {
  p_id : uuid;
  p_user_id : uuid;
  p_team_id : option uuid;
  p_template_id : option uuid;
  p_name : string;
  p_description : string;
  p_status : project_status;
  p_visibility : project_visibility;
  p_is_public : bool;
  p_frontend_stack : tech_stack;
  p_backend_stack : option tech_stack;
  p_auth_method : option auth_method;
  p_file_structure : option json;
  p_database_schema : option json;
  p_api_endpoints : option json;
  p_deployment_config : option json;
  p_original_prompt : option string;
  p_ai_model_used : option string;
  p_generation_time_ms : option Z;
  p_created_at : timestamp;
  p_deleted_at : option timestamp
}.

(** [public.project_collaborators]. *)
Record project_collaborators_row : Type := {
  pc_id : uuid;
  pc_project_id : uuid;
  pc_user_id : uuid;
  pc_role : collaborator_role;
  pc_status : member_status
}.

(** [public.templates]. *)
Record templates_row : Type := {
  tpl_id : uuid;
  tpl_name : string;
  tpl_created_by : option uuid;
  tpl_team_id : option uuid;
  tpl_visibility : template_visibility;
  tpl_is_approved : bool;
  tpl_view_count : Z;
  tpl_file_structure : json;
  tpl_deleted_at : option timestamp
}.

(** [public.activity_logs] (the JSON [details] are left out). *)
Record activity_logs_row : Type := {
  al_user_id : option uuid;
  al_team_id : option uuid;
  al_action : string;
  al_resource_type : string;
  al_resource_id : option uuid
}.

(** [public.usage_analytics]. *)
Record usage_analytics_row : Type := {
  ua_user_id : option uuid;
  ua_event_type : string;
  ua_project_id : option uuid
}.

(** The database.  [next_uuid] stands for [uuid_generate_v4()]: each
    insert that lets the database choose the key takes the next value. *)
Record Store : Type := {
  users : list users_row;
  teams : list teams_row;
  team_members : list team_members_row;
  projects : list projects_row;
  project_collaborators : list project_collaborators_row;
  templates : list templates_row;
  activity_logs : list activity_logs_row;
  usage_analytics : list usage_analytics_row;
  next_uuid : uuid
}.

Definition empty_store : Store :=
  {| users := []; teams := []; team_members := []; projects := [];
     project_collaborators := []; templates := []; activity_logs := [];
     usage_analytics := []; next_uuid := 0%N |}.

(* ================================================================= *)
(** ** Row-level-security policies (enhanced security migration) *)

Module Policies.
Import Sql.

Definition paid_tiers : list subscription_tier :=
  [Tier_pro_monthly; Tier_pro_yearly; Tier_team_monthly; Tier_team_yearly;
   Tier_enterprise].

(** Policy [projects_select_access].  Inside the collaborator subquery
    the unqualified column [id] of [pc.project_id = id] is resolved in
    the innermost scope, which is [project_collaborators pc]: it is
    [pc.id], not the [id] of the project under test. *)
Definition projects_select_access
    (db : Store) (auth_uid : option uuid) (p : projects_row) : tvl :=
  and3 (is_null (p_deleted_at p))
    (or3 (eq3 N.eqb (Some (p_user_id p)) auth_uid)
    (or3 (and3 (is_not_null (p_team_id p))
               (exists_ (team_members db) (fun tm =>
                  and3 (eq3 N.eqb (Some (tm_team_id tm)) (p_team_id p))
                 (and3 (eq3 N.eqb (tm_user_id tm) auth_uid)
                       (of_bool (member_status_beq (tm_status tm) Status_active))))))
    (or3 (exists_ (project_collaborators db) (fun pc =>
                  and3 (of_bool (N.eqb (pc_project_id pc) (pc_id pc)))
                 (and3 (eq3 N.eqb (Some (pc_user_id pc)) auth_uid)
                       (of_bool (member_status_beq (pc_status pc) Status_active)))))
         (and3 (of_bool (project_visibility_beq (p_visibility p) PVis_public))
               (of_bool (Bool.eqb (p_is_public p) true)))))).

(** Policy [templates_select_access]. *)
Definition templates_select_access
    (db : Store) (auth_uid : option uuid) (t : templates_row) : tvl :=
  and3 (is_null (tpl_deleted_at t))
    (or3 (of_bool (template_visibility_beq (tpl_visibility t) Vis_public))
    (or3 (and3 (of_bool (template_visibility_beq (tpl_visibility t) Vis_premium))
               (exists_ (users db) (fun u =>
                  and3 (eq3 N.eqb (Some (u_id u)) auth_uid)
                 (and3 (in3 subscription_tier_beq (u_subscription_tier u) paid_tiers)
                       (of_bool (Bool.eqb (u_is_active u) true))))))
    (or3 (and3 (of_bool (template_visibility_beq (tpl_visibility t) Vis_team))
         (and3 (is_not_null (tpl_team_id t))
               (exists_ (team_members db) (fun tm =>
                  and3 (eq3 N.eqb (Some (tm_team_id tm)) (tpl_team_id t))
                 (and3 (eq3 N.eqb (tm_user_id tm) auth_uid)
                       (of_bool (member_status_beq (tm_status tm) Status_active)))))))
    (or3 (and3 (of_bool (template_visibility_beq (tpl_visibility t) Vis_private))
               (eq3 N.eqb (tpl_created_by t) auth_uid))
         (of_bool (template_visibility_beq (tpl_visibility t) Vis_unlisted)))))).


(** Policy [projects_modify_authorized] (FOR UPDATE).  Its collaborator
    subquery has the same unqualified [id] as the select policy. *)
Definition projects_modify_authorized
    (db : Store) (auth_uid : option uuid) (p : projects_row) : tvl :=
  and3 (is_null (p_deleted_at p))
    (or3 (eq3 N.eqb (Some (p_user_id p)) auth_uid)
    (or3 (and3 (is_not_null (p_team_id p))
               (exists_ (team_members db) (fun tm =>
                  and3 (eq3 N.eqb (Some (tm_team_id tm)) (p_team_id p))
                 (and3 (eq3 N.eqb (tm_user_id tm) auth_uid)
                 (and3 (in3 member_role_beq (tm_role tm) [Role_owner; Role_admin])
                       (of_bool (member_status_beq (tm_status tm) Status_active)))))))
         (exists_ (project_collaborators db) (fun pc =>
                  and3 (of_bool (N.eqb (pc_project_id pc) (pc_id pc)))
                 (and3 (eq3 N.eqb (Some (pc_user_id pc)) auth_uid)
                 (and3 (in3 collaborator_role_beq (Some (pc_role pc))
                            [Collab_owner; Collab_editor])
                       (of_bool (member_status_beq (pc_status pc) Status_active)))))))).

(** Policy [projects_insert_authenticated] (WITH CHECK on the new row). *)
Definition projects_insert_authenticated
    (db : Store) (auth_uid : option uuid) (p : projects_row) : tvl :=
  and3 (eq3 N.eqb auth_uid (Some (p_user_id p)))
       (or3 (is_null (p_team_id p))
            (exists_ (team_members db) (fun tm =>
               and3 (eq3 N.eqb (Some (tm_team_id tm)) (p_team_id p))
              (and3 (eq3 N.eqb (tm_user_id tm) auth_uid)
                    (of_bool (member_status_beq (tm_status tm) Status_active)))))).

(** Policy [teams_select_member_or_public].  In the membership subquery
    the unqualified [id] of [tm.team_id = id] is the [id] of
    [team_members tm], the innermost table that has such a column. *)
Definition teams_select_member_or_public
    (db : Store) (auth_uid : option uuid) (t : teams_row) : tvl :=
  and3 (of_bool (Bool.eqb (t_is_active t) true))
       (or3 (exists_ (team_members db) (fun tm =>
               and3 (of_bool (N.eqb (tm_team_id tm) (tm_id tm)))
              (and3 (eq3 N.eqb (tm_user_id tm) auth_uid)
                    (of_bool (member_status_beq (tm_status tm) Status_active)))))
            (and3 (in3 subscription_tier_beq (Some (t_subscription_tier t))
                       [Tier_team_monthly; Tier_team_yearly])
                  (of_bool (Bool.eqb (t_is_active t) true)))).

(** Policy [team_members_select_same_team]. *)
Definition team_members_select_same_team
    (db : Store) (auth_uid : option uuid) (r : team_members_row) : tvl :=
  or3 (eq3 N.eqb (tm_user_id r) auth_uid)
      (exists_ (team_members db) (fun tm =>
         and3 (of_bool (N.eqb (tm_team_id tm) (tm_team_id r)))
        (and3 (eq3 N.eqb (tm_user_id tm) auth_uid)
              (of_bool (member_status_beq (tm_status tm) Status_active))))).

(** Policy [team_members_manage_by_admin] (FOR ALL). *)
Definition team_members_manage_by_admin
    (db : Store) (auth_uid : option uuid) (r : team_members_row) : tvl :=
  or3 (exists_ (team_members db) (fun tm =>
         and3 (of_bool (N.eqb (tm_team_id tm) (tm_team_id r)))
        (and3 (eq3 N.eqb (tm_user_id tm) auth_uid)
        (and3 (in3 member_role_beq (tm_role tm) [Role_owner; Role_admin])
              (of_bool (member_status_beq (tm_status tm) Status_active))))))
      (and3 (eq3 N.eqb (tm_user_id r) auth_uid)
            (of_bool (member_status_beq (tm_status r) Status_pending))).

End Policies.

(* ================================================================= *)
(** ** The query layer (supabase-js over PostgREST) *)

(** What [await query] yields: [{ data, error }]. *)
Record query_result (A : Type) : Type := {
  data : option A;
  error : bool
}.

(** [.single()]: the row when the query selects exactly one row;
    otherwise [data] is null and [error] is set. *)
Definition single {A : Type} (rows : list A) : query_result A :=
  match rows with
  | [r] => {| data := Some r; error := false |}
  | _ => {| data := None; error := true |}
  end.

(** [x === y] between a nullable column and a string that is present. *)
Definition opt_uuid_is (x : option uuid) (y : uuid) : bool :=
  match x with Some a => N.eqb a y | None => false end.

Definition opt_string_is (x : option string) (y : string) : bool :=
  match x with Some a => String.eqb a y | None => false end.

(** [row.role === 'label']; a null role equals no label. *)
Definition role_is (x : option member_role) (y : member_role) : bool :=
  match x with Some a => member_role_beq a y | None => false end.

(** [max_rows = 1000] of the API configuration: a read returns at most
    that many rows. *)
Definition max_rows : nat := 1000.

Definition limit_rows {A : Type} (rows : list A) : list A := firstn max_rows rows.

Arguments limit_rows : simpl never.

(** [.order('created_at', { ascending: false })]. *)
Fixpoint insert_desc (p : projects_row) (sorted : list projects_row) : list projects_row :=
  match sorted with
  | [] => [p]
  | q :: rest =>
      if (p_created_at q <=? p_created_at p)%Z then p :: q :: rest
      else q :: insert_desc p rest
  end.

Definition order_created_at_desc (rows : list projects_row) : list projects_row :=
  fold_right insert_desc [] rows.

(* ================================================================= *)
(** ** HTTP responses *)

Record GeneratedScaffold : Type := {
  projectStructure : json;
  databaseSchema : json;
  apiEndpoints : json;
  environmentVariables : json;
  dependencies : json;
  deploymentConfig : json;
  securityRecommendations : json
}.

Inductive payload : Type :=
| Body_error (msg : string)
| Body_upgrade_required (msg : string)
| Body_quota (msg : string) (limit current : Z)
| Body_message (msg : string)
| Body_projects (rows : list projects_row)
| Body_project (row : projects_row)
| Body_template (row : templates_row)
| Body_team (row : teams_row)
| Body_member (row : team_members_row)
| Body_invitation (row : team_members_row) (invite_token : string)
| Body_joined (team : teams_row)
| Body_scaffold (project : projects_row) (scaffold : GeneratedScaffold)
                (generationTime : Z).

Record Response : Type := {
  status : Z;
  body : payload
}.

(** A [new Response(...)] without a status is a 200. *)
Definition ok (b : payload) : Response := {| status := 200; body := b |}.

Definition fail (code : Z) (msg : string) : Response :=
  {| status := code; body := Body_error msg |}.

(** The answer of a read-only handler: [{ success: true, data }], or an
    error with its status. *)
Inductive answer (A : Type) : Type :=
| Answer_ok (value : A)
| Answer_error (code : Z) (msg : string).

Arguments Answer_error {A} code msg.

Definition answer_status {A : Type} (a : answer A) : Z :=
  match a with
  | Answer_ok _ => 200
  | Answer_error code _ => code
  end.

(* ================================================================= *)
(** ** Store updates *)

Definition set_users (s : Store) (v : list users_row) : Store :=
  {| users := v; teams := teams s; team_members := team_members s;
     projects := projects s; project_collaborators := project_collaborators s;
     templates := templates s; activity_logs := activity_logs s;
     usage_analytics := usage_analytics s; next_uuid := next_uuid s |}.

Definition set_team_members (s : Store) (v : list team_members_row) : Store :=
  {| users := users s; teams := teams s; team_members := v;
     projects := projects s; project_collaborators := project_collaborators s;
     templates := templates s; activity_logs := activity_logs s;
     usage_analytics := usage_analytics s; next_uuid := next_uuid s |}.

Definition set_templates (s : Store) (v : list templates_row) : Store :=
  {| users := users s; teams := teams s; team_members := team_members s;
     projects := projects s; project_collaborators := project_collaborators s;
     templates := v; activity_logs := activity_logs s;
     usage_analytics := usage_analytics s; next_uuid := next_uuid s |}.

(** [.from('activity_logs').insert(row)]. *)
Definition log_activity (s : Store) (row : activity_logs_row) : Store :=
  {| users := users s; teams := teams s; team_members := team_members s;
     projects := projects s; project_collaborators := project_collaborators s;
     templates := templates s; activity_logs := activity_logs s ++ [row];
     usage_analytics := usage_analytics s; next_uuid := next_uuid s |}.

(** [.from('usage_analytics').insert(row)]. *)
Definition log_usage (s : Store) (row : usage_analytics_row) : Store :=
  {| users := users s; teams := teams s; team_members := team_members s;
     projects := projects s; project_collaborators := project_collaborators s;
     templates := templates s; activity_logs := activity_logs s;
     usage_analytics := usage_analytics s ++ [row]; next_uuid := next_uuid s |}.

(** Trigger [validate_team_ownership] (BEFORE UPDATE ON users): a row
    whose [current_team_id] is set must belong to an active member of
    that team, or the update raises. *)
Definition validate_team_ownership (s : Store) (new : users_row) : bool :=
  match u_current_team_id new with
  | None => true
  | Some tid =>
      existsb (fun tm => N.eqb (tm_team_id tm) tid
                         && opt_uuid_is (tm_user_id tm) (u_id new)
                         && member_status_beq (tm_status tm) Status_active)
              (team_members s)
  end.

(** [.from('users').update(patch).eq('id', uid)]: the statement fails as
    a whole when the trigger rejects an updated row; no caller looks at
    the error. *)
Definition users_update (s : Store) (uid : uuid) (patch : users_row -> users_row) : Store :=
  let hit := filter (fun u => N.eqb (u_id u) uid) (users s) in
  if forallb (fun u => validate_team_ownership s (patch u)) hit
  then set_users s (map (fun u => if N.eqb (u_id u) uid then patch u else u) (users s))
  else s.

(* ================================================================= *)
(** ** Edge function [manage-projects] *)

Module ManageProjects.

(** [handleGetProjects]: the caller's projects, newest first, up to
    [max_rows] of them; with a project id, that single project.  A
    failing query is thrown and answered by the [catch] with a 500. *)
Definition handleGetProjects
    (s : Store) (userId : uuid) (projectId : option uuid) : Response :=
  let query :=
    order_created_at_desc
      (filter (fun p => N.eqb (p_user_id p) userId) (projects s)) in
  match projectId with
  | Some pid =>
      let r := single (filter (fun p => N.eqb (p_id p) pid) query) in
      if error r then fail 500 "Failed to fetch projects"
      else match data r with
           | Some row => ok (Body_project row)
           | None => fail 500 "Failed to fetch projects"
           end
  | None => ok (Body_projects (limit_rows query))
  end.

(** [.from('projects').delete().eq('id', projectId)]: the rows are
    removed, and with them the collaborator rows that reference them
    ([ON DELETE CASCADE]). *)
Definition projects_delete (s : Store) (projectId : uuid) : Store :=
  {| users := users s; teams := teams s; team_members := team_members s;
     projects := filter (fun p => negb (N.eqb (p_id p) projectId)) (projects s);
     project_collaborators :=
       filter (fun pc => negb (N.eqb (pc_project_id pc) projectId))
              (project_collaborators s);
     templates := templates s; activity_logs := activity_logs s;
     usage_analytics := usage_analytics s; next_uuid := next_uuid s |}.

(** [handleDeleteProject]. *)
Definition handleDeleteProject
    (s : Store) (userId projectId : uuid) : Response * Store :=
  let existingProject :=
    data (single (filter (fun p => N.eqb (p_id p) projectId) (projects s))) in
  match existingProject with
  | None => (fail 404 "Project not found or access denied", s)
  | Some row =>
      if negb (N.eqb (p_user_id row) userId)
      then (fail 404 "Project not found or access denied", s)
      else (ok (Body_message "Project deleted successfully"),
            projects_delete s projectId)
  end.


Section Update.

(** The [updateData] of a PUT is the request's JSON, passed to the
    database as it is.  [projects_update] stands for
    [.from('projects').update(updateData).eq('id', projectId).select().single()]:
    the updated row and the store after the statement, or [None] when
    the statement or [.single()] reports an error. *)
Variable UpdateData : Type.
Variable projects_update : Store -> uuid -> UpdateData -> option (projects_row * Store).

(** [handleUpdateProject]. *)
Definition handleUpdateProject
    (s : Store) (userId projectId : uuid) (updateData : UpdateData) : Response * Store :=
  let existingProject :=
    data (single (filter (fun p => N.eqb (p_id p) projectId) (projects s))) in
  match existingProject with
  | None => (fail 404 "Project not found or access denied", s)
  | Some row =>
      if negb (N.eqb (p_user_id row) userId)
      then (fail 404 "Project not found or access denied", s)
      else
        match projects_update s projectId updateData with
        | None => (fail 500 "Failed to update project", s)
        | Some (updated, s1) => (ok (Body_project updated), s1)
        end
  end.

End Update.

End ManageProjects.

(* ================================================================= *)
(** ** Edge function: template marketplace *)

Module TemplateMarketplace.

Definition paid_tiers : list subscription_tier :=
  [Tier_pro_monthly; Tier_pro_yearly; Tier_team_monthly; Tier_team_yearly;
   Tier_enterprise].

(** What a handler finds in [template.created_by]: null or the
    creator's id when the property holds the column; the embedded
    [users] row when the select aliases that embedding as [created_by],
    as the select of [handleGetTemplate] does. *)
Inductive created_by_value : Type :=
| Created_by_null
| Created_by_id (id : uuid)
| Created_by_user (row : users_row).

(** [created_by === user.id]: strict equality with a string holds for
    that string only, not for null and not for an object. *)
Definition strict_equal_id (v : created_by_value) (uid : uuid) : bool :=
  match v with
  | Created_by_id id => N.eqb id uid
  | _ => false
  end.

(** [checkTemplateAccess].  [template] gives the columns of the
    template object and [created_by] its property of that name; [user]
    is the authenticated user's id, or [None] for an anonymous
    request. *)
Definition checkTemplateAccess
    (s : Store) (template : templates_row) (created_by : created_by_value)
    (user : option uuid) : bool :=
  if template_visibility_beq (tpl_visibility template) Vis_public
     || template_visibility_beq (tpl_visibility template) Vis_unlisted
  then true
  else
    match user with
    | None => false
    | Some uid =>
        if strict_equal_id created_by uid then true
        else if template_visibility_beq (tpl_visibility template) Vis_premium
        then
          match data (single (filter (fun u => N.eqb (u_id u) uid) (users s))) with
          | Some userData =>
              match u_subscription_tier userData with
              | Some tier => existsb (subscription_tier_beq tier) paid_tiers
              | None => false
              end
          | None => false
          end
        else
          match tpl_visibility template, tpl_team_id template with
          | Vis_team, Some team_id =>
              match data (single (filter
                      (fun tm => N.eqb (tm_team_id tm) team_id
                                 && opt_uuid_is (tm_user_id tm) uid)
                      (team_members s))) with
              | Some membership => member_status_beq (tm_status membership) Status_active
              | None => false
              end
          | _, _ => false
          end
    end.

(** [.update({ view_count: n }).eq('id', templateId)]. *)
Definition set_view_count (s : Store) (templateId : uuid) (n : Z) : Store :=
  set_templates s
    (map (fun t =>
            if N.eqb (tpl_id t) templateId
            then {| tpl_id := tpl_id t; tpl_name := tpl_name t;
                    tpl_created_by := tpl_created_by t;
                    tpl_team_id := tpl_team_id t;
                    tpl_visibility := tpl_visibility t;
                    tpl_is_approved := tpl_is_approved t;
                    tpl_view_count := n;
                    tpl_file_structure := tpl_file_structure t;
                    tpl_deleted_at := tpl_deleted_at t |}
            else t)
         (templates s)).

(** The lookup of [handleGetTemplate]:
    [.eq('id', templateId).eq('deleted_at', null).single()].  The second
    filter is sent as [deleted_at=eq.null], the comparison of a
    timestamptz column with the text 'null'; the database rejects the
    statement whatever the table holds, and the query resolves with an
    error. *)
Definition template_lookup (s : Store) (templateId : uuid) : query_result templates_row :=
  {| data := None; error := true |}.

(** The [created_by] of a template selected with
    [created_by:users!templates_created_by_fkey(...)]. *)
Definition embedded_creator (s : Store) (template : templates_row) : created_by_value :=
  match tpl_created_by template with
  | Some uid =>
      match find (fun u => N.eqb (u_id u) uid) (users s) with
      | Some u => Created_by_user u
      | None => Created_by_null
      end
  | None => Created_by_null
  end.

(** [handleGetTemplate] from the result [r] of its lookup on. *)
Definition handleGetTemplate_with
    (s : Store) (templateId : uuid) (user : option uuid)
    (r : query_result templates_row) : Response * Store :=
  if error r then (fail 500 "Failed to fetch template", s)
  else
    match data r with
    | None => (fail 404 "Template not found", s)
    | Some template =>
        if negb (checkTemplateAccess s template (embedded_creator s template) user)
        then (fail 403 "Access denied", s)
        else
          let s1 := set_view_count s templateId (tpl_view_count template + 1) in
          let s2 :=
            match user with
            | Some uid =>
                log_activity s1
                  {| al_user_id := Some uid; al_team_id := None;
                     al_action := "template_viewed";
                     al_resource_type := "template";
                     al_resource_id := Some templateId |}
            | None => s1
            end in
          (ok (Body_template template), s2)
    end.

(** [handleGetTemplate]. *)
Definition handleGetTemplate
    (s : Store) (templateId : uuid) (user : option uuid) : Response * Store :=
  handleGetTemplate_with s templateId user (template_lookup s templateId).

(** [checkTeamAdminAccess]; [teamId] is the template's nullable
    [team_id]. *)
Definition checkTeamAdminAccess (s : Store) (teamId : option uuid) (userId : uuid) : bool :=
  match teamId with
  | None => false
  | Some tid =>
      match data (single (filter (fun tm => N.eqb (tm_team_id tm) tid
                                            && opt_uuid_is (tm_user_id tm) userId)
                                 (team_members s))) with
      | Some membership =>
          member_status_beq (tm_status membership) Status_active
          && existsb (role_is (tm_role membership)) [Role_owner; Role_admin]
      | None => false
      end
  end.

Section Update.

(** As for projects, the [updateData] of a PUT is passed to the
    database as it is; [templates_update] stands for
    [.from('templates').update(updateData).eq('id', templateId).select().single()]. *)
Variable UpdateData : Type.
Variable templates_update : Store -> uuid -> UpdateData -> option (templates_row * Store).

(** [handleUpdateTemplate]. *)
Definition handleUpdateTemplate
    (s : Store) (userId templateId : uuid) (updateData : UpdateData) : Response * Store :=
  match data (single (filter (fun t => N.eqb (tpl_id t) templateId) (templates s))) with
  | None => (fail 404 "Template not found", s)
  | Some template =>
      let hasPermission :=
        opt_uuid_is (tpl_created_by template) userId
        || checkTeamAdminAccess s (tpl_team_id template) userId in
      if negb hasPermission then (fail 403 "Permission denied", s)
      else
        match templates_update s templateId updateData with
        | None => (fail 500 "Failed to update template", s)
        | Some (updatedTemplate, s1) => (ok (Body_template updatedTemplate), s1)
        end
  end.

End Update.

Definition set_deleted_at (now : timestamp) (t : templates_row) : templates_row :=
  {| tpl_id := tpl_id t; tpl_name := tpl_name t;
     tpl_created_by := tpl_created_by t; tpl_team_id := tpl_team_id t;
     tpl_visibility := tpl_visibility t; tpl_is_approved := tpl_is_approved t;
     tpl_view_count := tpl_view_count t;
     tpl_file_structure := tpl_file_structure t;
     tpl_deleted_at := Some now |}.

(** [handleDeleteTemplate]; [now] is [new Date()].  The statement
    updates the rows with this id that the caller created; it also
    writes [deleted_by], which references [users]: when a row is hit and
    the caller has no [users] row the statement fails.  A statement that
    hits no row is no error. *)
Definition handleDeleteTemplate
    (s : Store) (userId templateId : uuid) (now : timestamp) : Response * Store :=
  let hit := fun t => N.eqb (tpl_id t) templateId
                      && opt_uuid_is (tpl_created_by t) userId in
  if existsb hit (templates s)
     && negb (existsb (fun u => N.eqb (u_id u) userId) (users s))
  then (fail 500 "Failed to delete template", s)
  else (ok (Body_message "Template deleted successfully"),
        set_templates s (map (fun t => if hit t then set_deleted_at now t else t)
                             (templates s))).

End TemplateMarketplace.

(* ================================================================= *)
(** ** JavaScript string helpers

    Strings are byte strings; the helpers agree with JavaScript on
    ASCII text. *)

Module Js.

Definition code (c : ascii) : nat := nat_of_ascii c.

Definition between (lo hi : nat) (c : ascii) : bool :=
  (lo <=? code c) && (code c <=? hi).

Definition is_upper (c : ascii) : bool := between 65 90 c.
Definition is_lower (c : ascii) : bool := between 97 122 c.
Definition is_digit (c : ascii) : bool := between 48 57 c.

(** The class [\s]. *)
Definition is_space (c : ascii) : bool := (code c =? 32) || between 9 13 c.

Definition lower_char (c : ascii) : ascii :=
  if is_upper c then ascii_of_nat (code c + 32) else c.

Definition chars (s : string) : list ascii := list_ascii_of_string s.
Definition text (cs : list ascii) : string := string_of_list_ascii cs.

Definition toLowerCase (s : string) : string := text (map lower_char (chars s)).

Fixpoint drop_spaces (cs : list ascii) : list ascii :=
  match cs with
  | c :: rest => if is_space c then drop_spaces rest else cs
  | [] => []
  end.

Definition trim (s : string) : string :=
  text (rev (drop_spaces (rev (drop_spaces (chars s))))).

(** [.replace(/[^a-z0-9]+/g, '-')]: [in_run] tells that the hyphen of
    the current run has been written. *)
Fixpoint hyphenate (in_run : bool) (cs : list ascii) : list ascii :=
  match cs with
  | [] => []
  | c :: rest =>
      if is_lower c || is_digit c then c :: hyphenate false rest
      else if in_run then hyphenate true rest
      else "-"%char :: hyphenate true rest
  end.

(** [.replace(/(^-|-$)/g, '')]. *)
Definition strip_edge_hyphens (cs : list ascii) : list ascii :=
  let cs1 :=
    match cs with
    | c :: rest => if Ascii.eqb c "-" then rest else cs
    | [] => []
    end in
  match rev cs1 with
  | c :: rest => if Ascii.eqb c "-" then rev rest else cs1
  | [] => cs1
  end.

Definition slugify (name : string) : string :=
  text (strip_edge_hyphens (hyphenate false (chars (toLowerCase name)))).

(** [`${n}`] for a counter. *)
Definition decimal (n : nat) : string := NilEmpty.string_of_uint (Nat.to_uint n).

(** A string is falsy exactly when it is empty. *)
Definition truthy (s : string) : bool := negb (String.eqb s "").

(** [/^[^\s@]+@[^\s@]+\.[^\s@]+$/.test(email)]: no white space, a single
    [@] with text before it, and after it a dot that is neither the
    first nor the last character. *)
Fixpoint split_at (c : ascii) (cs : list ascii) : option (list ascii * list ascii) :=
  match cs with
  | [] => None
  | d :: rest =>
      if Ascii.eqb d c then Some ([], rest)
      else match split_at c rest with
           | Some (l, r) => Some (d :: l, r)
           | None => None
           end
  end.

Definition inner_dot (domain : list ascii) : bool :=
  match domain with
  | [] => false
  | _ :: rest => existsb (fun c => Ascii.eqb c ".") (removelast rest)
  end.

Definition emailRegex_test (email : string) : bool :=
  let cs := chars email in
  forallb (fun c => negb (is_space c)) cs
  && match split_at "@" cs with
     | Some (loc, domain) =>
         negb (Nat.eqb (List.length loc) 0)
         && forallb (fun c => negb (Ascii.eqb c "@")) domain
         && inner_dot domain
     | None => false
     end.

End Js.

(* ================================================================= *)
(** ** Edge function [team-management] *)

Module TeamManagement.

(** [interface TeamCreateRequest]; a missing [name] is the empty string. *)
Record TeamCreateRequest : Type := {
  tc_name : string;
  tc_slug : option string;
  tc_description : option string;
  tc_subscription_tier : option string
}.

(** [interface TeamInviteRequest].  The interface is erased at run
    time: [role] is whatever JSON value the body carries, or absent. *)
Record TeamInviteRequest : Type := {
  ti_email : string;
  ti_role : option json;
  ti_message : option string
}.

(** The labels that [CHECK (role IN ('owner', 'admin', 'member',
    'guest'))] admits. *)
Definition role_of_string (label : string) : option member_role :=
  if String.eqb label "owner" then Some Role_owner
  else if String.eqb label "admin" then Some Role_admin
  else if String.eqb label "member" then Some Role_member
  else if String.eqb label "guest" then Some Role_guest
  else None.

(** The [role] column of an inserted row whose [role] is taken from the
    request: the default 'member' when the body has no role, NULL for a
    JSON null, the label for one of the four labels; [None] when the
    CHECK rejects the value (any other string, and the text of a
    number, boolean, array or object). *)
Definition role_column (role : option json) : option (option member_role) :=
  match role with
  | None => Some (Some Role_member)
  | Some J_null => Some None
  | Some (J_str label) => option_map Some (role_of_string label)
  | Some _ => None
  end.

Definition team_tiers : list subscription_tier :=
  [Tier_pro_monthly; Tier_pro_yearly; Tier_team_monthly; Tier_team_yearly;
   Tier_enterprise].

(** The labels of [subscription_tier_enhanced]. *)
Definition tier_of_string (label : string) : option subscription_tier :=
  if String.eqb label "free_trial" then Some Tier_free_trial
  else if String.eqb label "free" then Some Tier_free
  else if String.eqb label "pro_monthly" then Some Tier_pro_monthly
  else if String.eqb label "pro_yearly" then Some Tier_pro_yearly
  else if String.eqb label "team_monthly" then Some Tier_team_monthly
  else if String.eqb label "team_yearly" then Some Tier_team_yearly
  else if String.eqb label "enterprise" then Some Tier_enterprise
  else if String.eqb label "enterprise_trial" then Some Tier_enterprise_trial
  else if String.eqb label "legacy" then Some Tier_legacy
  else if String.eqb label "suspended" then Some Tier_suspended
  else if String.eqb label "churned" then Some Tier_churned
  else None.

(** [CONSTRAINT valid_slug CHECK (slug ~* '^[a-z0-9-]+$')]. *)
Definition valid_slug (slug : string) : bool :=
  Js.truthy slug
  && forallb (fun c => Js.is_lower c || Js.is_upper c || Js.is_digit c
                       || Ascii.eqb c "-")
             (Js.chars slug).

Definition user_exists (s : Store) (uid : uuid) : bool :=
  existsb (fun u => N.eqb (u_id u) uid) (users s).

Definition team_exists (s : Store) (tid : uuid) : bool :=
  existsb (fun t => N.eqb (t_id t) tid) (teams s).

(** [.from('teams').insert(...).select().single()]: [None] when a
    constraint of the table rejects the row (the slug check, the unique
    slug, the tier label, the reference to the creator). *)
Definition teams_insert
    (s : Store) (name slug : string) (description : option string)
    (tier_label : string) (created_by : uuid) : option (teams_row * Store) :=
  match tier_of_string tier_label with
  | None => None
  | Some tier =>
      if valid_slug slug
         && negb (existsb (fun t => String.eqb (t_slug t) slug) (teams s))
         && user_exists s created_by
      then
        let row := {| t_id := next_uuid s; t_name := name; t_slug := slug;
                      t_description := description;
                      t_subscription_tier := tier;
                      t_member_limit := 5; t_is_active := true;
                      t_created_by := Some created_by |} in
        Some (row,
              {| users := users s; teams := teams s ++ [row];
                 team_members := team_members s; projects := projects s;
                 project_collaborators := project_collaborators s;
                 templates := templates s; activity_logs := activity_logs s;
                 usage_analytics := usage_analytics s;
                 next_uuid := N.succ (next_uuid s) |})
      else None
  end.

(** [.from('team_members').insert(...)]: [None] when the table rejects
    the row: [user_id] is NOT NULL and references a user, [team_id]
    references a team, [(team_id, user_id)] and [invitation_token] are
    unique. *)
Definition team_members_insert
    (s : Store) (team_id : uuid) (user_id : option uuid) (role : option member_role)
    (st : member_status) (token : option string) (invited_by : option uuid)
    (accepted_at : option timestamp) : option (team_members_row * Store) :=
  match user_id with
  | None => None
  | Some uid =>
      if team_exists s team_id
         && user_exists s uid
         && negb (existsb (fun tm => N.eqb (tm_team_id tm) team_id
                                     && opt_uuid_is (tm_user_id tm) uid)
                          (team_members s))
         && match token with
            | Some tok =>
                negb (existsb (fun tm => opt_string_is (tm_invitation_token tm) tok)
                              (team_members s))
            | None => true
            end
         && match invited_by with
            | Some inviter => user_exists s inviter
            | None => true
            end
      then
        let row := {| tm_id := next_uuid s; tm_team_id := team_id;
                      tm_user_id := Some uid; tm_role := role;
                      tm_status := st; tm_invitation_token := token;
                      tm_invited_by := invited_by;
                      tm_accepted_at := accepted_at |} in
        Some (row,
              {| users := users s; teams := teams s;
                 team_members := team_members s ++ [row];
                 projects := projects s;
                 project_collaborators := project_collaborators s;
                 templates := templates s; activity_logs := activity_logs s;
                 usage_analytics := usage_analytics s;
                 next_uuid := N.succ (next_uuid s) |})
      else None
  end.

(** The membership of [userId] in [teamId], as every handler reads it. *)
Definition membership_of (s : Store) (teamId userId : uuid) : option team_members_row :=
  data (single (filter (fun tm => N.eqb (tm_team_id tm) teamId
                                  && opt_uuid_is (tm_user_id tm) userId)
                       (team_members s))).

Definition is_team_admin (m : option team_members_row) : bool :=
  match m with
  | Some row =>
      member_status_beq (tm_status row) Status_active
      && (role_is (tm_role row) Role_owner
          || role_is (tm_role row) Role_admin)
  | None => false
  end.

(** The [while (slugExists)] loop of [handleCreateTeam]: the first
    candidate among [slug], [slug-1], [slug-2], ... for which the lookup
    returns no team.  [fuel] bounds the number of lookups. *)
Definition testSlug (slug : string) (counter : nat) : string :=
  if 0 <? counter then (slug ++ "-" ++ Js.decimal counter)%string else slug.

Fixpoint slug_loop (fuel : nat) (s : Store) (slug : string) (counter : nat)
  : option string :=
  match fuel with
  | O => None
  | S fuel' =>
      match data (single (filter (fun t => String.eqb (t_slug t) (testSlug slug counter))
                                 (teams s))) with
      | None => Some (testSlug slug counter)
      | Some _ => slug_loop fuel' s slug (S counter)
      end
  end.

Definition set_current_team (tid : uuid) (owner : bool) (u : users_row) : users_row :=
  {| u_id := u_id u; u_email := u_email u;
     u_subscription_tier := u_subscription_tier u;
     u_is_active := u_is_active u;
     u_current_team_id := Some tid;
     u_is_team_owner := owner;
     u_monthly_generations := u_monthly_generations u;
     u_projects_generated := u_projects_generated u |}.

(** [handleCreateTeam].  The slug loop is run with one lookup more than
    there are teams, which always finds a free candidate. *)
Definition handleCreateTeam
    (s : Store) (userId : uuid) (teamData : TeamCreateRequest)
    (userTier : option subscription_tier) (now : timestamp) : Response * Store :=
  if negb (match userTier with
           | Some tier => existsb (subscription_tier_beq tier) team_tiers
           | None => false
           end)
  then ({| status := 403;
           body := Body_upgrade_required
                     "Team features require a Pro or Team subscription" |}, s)
  else if negb (Js.truthy (tc_name teamData))
          || (String.length (Js.trim (tc_name teamData)) <? 2)
  then (fail 400 "Team name must be at least 2 characters", s)
  else
    let slug0 :=
      match tc_slug teamData with
      | Some given => if Js.truthy given then given else Js.slugify (tc_name teamData)
      | None => Js.slugify (tc_name teamData)
      end in
    match slug_loop (S (List.length (teams s))) s slug0 0 with
    | None => (fail 500 "Failed to create team", s)
    | Some slug =>
        let description :=
          match tc_description teamData with
          | Some d => if Js.truthy (Js.trim d) then Some (Js.trim d) else None
          | None => None
          end in
        let tier_label :=
          match tc_subscription_tier teamData with
          | Some label => if Js.truthy label then label else "team_monthly"%string
          | None => "team_monthly"%string
          end in
        match teams_insert s (Js.trim (tc_name teamData)) slug description
                           tier_label userId with
        | None => (fail 500 "Failed to create team", s)
        | Some (team, s1) =>
            match team_members_insert s1 (t_id team) (Some userId) (Some Role_owner)
                                      Status_active None None (Some now) with
            | None => (fail 500 "Failed to create team", s1)
            | Some (_, s2) =>
                let s3 := users_update s2 userId (set_current_team (t_id team) true) in
                let s4 := log_activity s3
                            {| al_user_id := Some userId;
                               al_team_id := Some (t_id team);
                               al_action := "team_created";
                               al_resource_type := "team";
                               al_resource_id := Some (t_id team) |} in
                (ok (Body_team team), s4)
            end
        end
    end.

(** [handleInviteMember]; [inviteToken] is the [crypto.randomUUID()]
    drawn for this invitation. *)
Definition handleInviteMember
    (s : Store) (userId teamId : uuid) (inviteData : TeamInviteRequest)
    (inviteToken : string) : Response * Store :=
  if negb (is_team_admin (membership_of s teamId userId))
  then (fail 403 "Permission denied", s)
  else if negb (Js.emailRegex_test (ti_email inviteData))
  then (fail 400 "Invalid email address", s)
  else
    let existingUser :=
      data (single (filter (fun u => String.eqb (u_email u) (ti_email inviteData))
                           (users s))) in
    let existingMember :=
      match existingUser with
      | Some u => membership_of s teamId (u_id u)
      | None => None
      end in
    match existingMember with
    | Some m =>
        (fail 400 (if member_status_beq (tm_status m) Status_active
                   then "User is already a team member"
                   else "User has a pending invitation"), s)
    | None =>
        match role_column (ti_role inviteData) with
        | None => (fail 500 "Failed to send invitation", s)
        | Some role =>
            match team_members_insert s teamId (option_map u_id existingUser) role
                                      Status_pending (Some inviteToken)
                                      (Some userId) None with
            | None => (fail 500 "Failed to send invitation", s)
            | Some (invitation, s1) =>
                let s2 := log_activity s1
                            {| al_user_id := Some userId; al_team_id := Some teamId;
                               al_action := "member_invited";
                               al_resource_type := "team_member";
                               al_resource_id := None |} in
                (ok (Body_invitation invitation inviteToken), s2)
            end
        end
    end.

(** The invitation selected by [handleAcceptInvitation]: the pending
    row that carries the token. *)
Definition find_invitation (s : Store) (inviteToken : string)
  : query_result team_members_row :=
  single (filter (fun tm => opt_string_is (tm_invitation_token tm) inviteToken
                            && member_status_beq (tm_status tm) Status_pending)
                 (team_members s)).

(** The embedded [team:teams(...)] of the invitation. *)
Definition team_of (s : Store) (tid : uuid) : option teams_row :=
  find (fun t => N.eqb (t_id t) tid) (teams s).

(** The embedded [current_members:team_members(count)]: the number of
    [team_members] rows that reference the team, whatever their status. *)
Definition current_members (s : Store) (tid : uuid) : Z :=
  Z.of_nat (List.length (filter (fun tm => N.eqb (tm_team_id tm) tid)
                                (team_members s))).

Definition accept_row (userId : uuid) (now : timestamp) (r : team_members_row)
  : team_members_row :=
  {| tm_id := tm_id r; tm_team_id := tm_team_id r;
     tm_user_id := Some userId; tm_role := tm_role r;
     tm_status := Status_active; tm_invitation_token := None;
     tm_invited_by := tm_invited_by r; tm_accepted_at := Some now |}.

(** What the table checks when the invitation row is updated: the user
    exists and has no other row in the team. *)
Definition accept_allowed (s : Store) (invitation : team_members_row) (userId : uuid) : bool :=
  user_exists s userId
  && forallb (fun tm => N.eqb (tm_id tm) (tm_id invitation)
                        || negb (N.eqb (tm_team_id tm) (tm_team_id invitation)
                                 && opt_uuid_is (tm_user_id tm) userId))
             (team_members s).

(** [handleAcceptInvitation]. *)
Definition handleAcceptInvitation
    (s : Store) (userId : uuid) (inviteToken : string) (now : timestamp)
  : Response * Store :=
  let r := find_invitation s inviteToken in
  match data r with
  | None => (fail 404 "Invalid or expired invitation", s)
  | Some invitation =>
      if error r then (fail 404 "Invalid or expired invitation", s)
      else
        if match tm_user_id invitation with
           | Some target => negb (N.eqb target userId)
           | None => false
           end
        then (fail 403 "This invitation is not for your account", s)
        else
        match team_of s (tm_team_id invitation) with
        | None => (fail 500 "Failed to accept invitation", s)
        | Some team =>
            if (t_member_limit team <=? current_members s (tm_team_id invitation))%Z
            then (fail 400 "Team has reached member limit", s)
            else if negb (accept_allowed s invitation userId)
            then (fail 500 "Failed to accept invitation", s)
            else
              let s1 := set_team_members s
                          (map (fun tm => if N.eqb (tm_id tm) (tm_id invitation)
                                          then accept_row userId now tm else tm)
                               (team_members s)) in
              let userData :=
                data (single (filter (fun u => N.eqb (u_id u) userId) (users s1))) in
              let s2 :=
                match userData with
                | Some u =>
                    match u_current_team_id u with
                    | Some _ => s1
                    | None => users_update s1 userId
                                (fun row => set_current_team (tm_team_id invitation)
                                                             (u_is_team_owner row) row)
                    end
                | None => users_update s1 userId
                            (fun row => set_current_team (tm_team_id invitation)
                                                         (u_is_team_owner row) row)
                end in
              let s3 := log_activity s2
                          {| al_user_id := Some userId;
                             al_team_id := Some (tm_team_id invitation);
                             al_action := "invitation_accepted";
                             al_resource_type := "team_member";
                             al_resource_id := None |} in
              ({| status := 200; body := Body_joined team |}, s3)
        end
  end.

Section Serve.

(** The [updateData] of a member update is the request's JSON, passed
    to the database as it is.  [team_members_update] stands for
    [.from('team_members').update(updateData).eq('id', memberId).select().single()]:
    the updated row and the store after the statement, or [None] when
    the statement or [.single()] reports an error. *)
Variable UpdateData : Type.
Variable team_members_update :
  Store -> uuid -> UpdateData -> option (team_members_row * Store).

(** [handleUpdateMember]. *)
Definition handleUpdateMember
    (s : Store) (userId teamId memberId : uuid) (updateData : UpdateData)
  : Response * Store :=
  match membership_of s teamId userId with
  | None => (fail 403 "Permission denied", s)
  | Some adminMembership =>
      if negb (is_team_admin (Some adminMembership))
      then (fail 403 "Permission denied", s)
      else
        let targetMember :=
          data (single (filter (fun tm => N.eqb (tm_id tm) memberId
                                          && N.eqb (tm_team_id tm) teamId)
                               (team_members s))) in
        match targetMember with
        | None => (fail 404 "Member not found", s)
        | Some target =>
            if role_is (tm_role target) Role_owner
               && negb (role_is (tm_role adminMembership) Role_owner)
            then (fail 403 "Only team owners can modify owner permissions", s)
            else
              match team_members_update s memberId updateData with
              | None => (fail 500 "Failed to update member", s)
              | Some (updatedMember, s1) => (ok (Body_member updatedMember), s1)
              end
        end
  end.

(** The state-changing routes of the module's [serve]. *)
Inductive route : Type :=
| POST_create (teamData : TeamCreateRequest)
| POST_invite (teamId : uuid) (inviteData : TeamInviteRequest) (inviteToken : string)
| POST_accept_invite (inviteToken : string)
| PUT_member (teamId memberId : uuid) (updateData : UpdateData)
| DELETE_member (teamId memberId : uuid).

(** A request: its [Authorization] header ([None] when absent, otherwise
    the user that [supabase.auth.getUser] resolves from the bearer token,
    if any), the route, and the time it is served. *)
Record Request : Type := {
  authorization : option (option uuid);
  req_route : route;
  req_now : timestamp
}.

(** [serve].  The module calls [handleRemoveMember] for a DELETE with a
    team and a member id but defines no such function: the call throws
    and the [catch] answers 500. *)
Definition serve (s : Store) (req : Request) : Response * Store :=
  match authorization req with
  | None => (fail 401 "Authentication required", s)
  | Some None => (fail 401 "Invalid authentication", s)
  | Some (Some uid) =>
      let userData := data (single (filter (fun u => N.eqb (u_id u) uid) (users s))) in
      match userData with
      | None => (fail 403 "Account suspended", s)
      | Some u =>
          if negb (u_is_active u) then (fail 403 "Account suspended", s)
          else
            match req_route req with
            | POST_create teamData =>
                handleCreateTeam s uid teamData (u_subscription_tier u) (req_now req)
            | POST_invite teamId inviteData inviteToken =>
                handleInviteMember s uid teamId inviteData inviteToken
            | POST_accept_invite inviteToken =>
                if negb (Js.truthy inviteToken)
                then (fail 400 "Invite token required", s)
                else handleAcceptInvitation s uid inviteToken (req_now req)
            | PUT_member teamId memberId updateData =>
                handleUpdateMember s uid teamId memberId updateData
            | DELETE_member _ _ => (fail 500 "Internal server error", s)
            end
      end
  end.

(** Serving a list of requests one after the other. *)
Fixpoint serve_all (s : Store) (reqs : list Request) : Store :=
  match reqs with
  | [] => s
  | req :: rest => serve_all (snd (serve s req)) rest
  end.

End Serve.

Arguments POST_create {UpdateData} teamData.
Arguments POST_invite {UpdateData} teamId inviteData inviteToken.
Arguments POST_accept_invite {UpdateData} inviteToken.
Arguments DELETE_member {UpdateData} teamId memberId.

(** The number of rows of team [tid] with role owner and status active. *)
Definition active_owners (s : Store) (tid : uuid) : nat :=
  List.length (filter (fun tm => N.eqb (tm_team_id tm) tid
                                 && role_is (tm_role tm) Role_owner
                                 && member_status_beq (tm_status tm) Status_active)
                      (team_members s)).

(** The number of rows of team [tid] with status active. *)
Definition active_members (s : Store) (tid : uuid) : Z :=
  Z.of_nat (List.length (filter (fun tm => N.eqb (tm_team_id tm) tid
                                           && member_status_beq (tm_status tm) Status_active)
                                (team_members s))).


(** [handleGetInvitation]: the pending row that carries the token, with
    its embedded team. *)
Definition handleGetInvitation (s : Store) (inviteToken : string)
  : answer (team_members_row * option teams_row) :=
  let r := find_invitation s inviteToken in
  match data r with
  | None => Answer_error 404 "Invalid or expired invitation"
  | Some invitation =>
      if error r then Answer_error 404 "Invalid or expired invitation"
      else Answer_ok (invitation, team_of s (tm_team_id invitation))
  end.

End TeamManagement.

(* ================================================================= *)
(** ** Edge function [generate-scaffold] *)

Module GenerateScaffold.

(** [interface GenerateScaffoldRequest]; an absent optional field is
    [None], an absent string the empty string. *)
Record GenerateScaffoldRequest : Type := {
  appIdea : string;
  frontendStack : string;
  backendStack : option string;
  authType : option string;
  templateId : option uuid
}.

Definition tech_stack_of_string (label : string) : option tech_stack :=
  if String.eqb label "react_typescript" then Some react_typescript
  else if String.eqb label "react_javascript" then Some react_javascript
  else if String.eqb label "nextjs" then Some nextjs
  else if String.eqb label "vue_typescript" then Some vue_typescript
  else if String.eqb label "vue_javascript" then Some vue_javascript
  else if String.eqb label "angular" then Some angular
  else if String.eqb label "svelte" then Some svelte
  else if String.eqb label "nodejs_express" then Some nodejs_express
  else if String.eqb label "nodejs_fastify" then Some nodejs_fastify
  else if String.eqb label "supabase" then Some supabase
  else if String.eqb label "firebase" then Some firebase
  else if String.eqb label "python_fastapi" then Some python_fastapi
  else if String.eqb label "python_django" then Some python_django
  else if String.eqb label "go_gin" then Some go_gin
  else if String.eqb label "rust_actix" then Some rust_actix
  else None.

Definition auth_method_of_string (label : string) : option auth_method :=
  if String.eqb label "email_password" then Some email_password
  else if String.eqb label "oauth_google" then Some oauth_google
  else if String.eqb label "oauth_github" then Some oauth_github
  else if String.eqb label "oauth_discord" then Some oauth_discord
  else if String.eqb label "magic_link" then Some magic_link
  else if String.eqb label "custom_jwt" then Some custom_jwt
  else None.

(** The table [limits] of [serve]; a tier without an entry reads as
    [undefined]. *)
Definition limits (tier : option subscription_tier) : option Z :=
  match tier with
  | Some Tier_free => Some 3%Z
  | Some Tier_pro => Some 50%Z
  | Some Tier_team => Some 100%Z
  | Some Tier_enterprise => Some (-1)%Z
  | _ => None
  end.

(** [userLimit !== -1 && userData.monthly_generations >= userLimit];
    a comparison with [undefined] is false. *)
Definition limit_reached (userLimit : option Z) (monthly_generations : Z) : bool :=
  match userLimit with
  | Some l => negb (l =? -1)%Z && (l <=? monthly_generations)%Z
  | None => false
  end.

(** [generateProjectName]. *)
Fixpoint split_spaces (cur : list ascii) (cs : list ascii) : list (list ascii) :=
  match cs with
  | [] => [rev cur]
  | c :: rest =>
      if Ascii.eqb c " " then rev cur :: split_spaces [] rest
      else split_spaces (c :: cur) rest
  end.

Definition join_hyphen (words : list (list ascii)) : list ascii :=
  match words with
  | [] => []
  | w :: rest => w ++ flat_map (fun v => "-"%char :: v) rest
  end.

Definition generateProjectName (idea : string) : string :=
  let kept := filter (fun c => Js.is_lower c || Js.is_digit c || Js.is_space c)
                     (Js.chars (Js.toLowerCase idea)) in
  let words := firstn 3 (filter (fun w => 3 <? List.length w) (split_spaces [] kept)) in
  if Js.truthy (Js.text (join_hyphen words)) then Js.text (join_hyphen words)
  else "my-app"%string.

Definition strs (l : list string) : json := J_arr (map J_str l).

Definition is_supabase (backend : option string) : bool :=
  match backend with Some b => String.eqb b "supabase" | None => false end.

Definition generateDefaultStructure (frontend : string) (backend : option string) : json :=
  J_obj ([("src"%string, J_obj [("components"%string, strs ["ui"; "layout"; "forms"]%string);
                                ("pages"%string, strs ["Home.tsx"; "About.tsx"]%string);
                                ("hooks"%string, strs ["useAuth.ts"; "useApi.ts"]%string);
                                ("lib"%string, strs ["utils.ts"; "constants.ts"]%string);
                                ("types"%string, strs ["index.ts"]%string)]);
          ("public"%string, strs ["favicon.ico"; "manifest.json"]%string);
          ("docs"%string, strs ["README.md"; "DEPLOYMENT.md"]%string)]
         ++ if is_supabase backend
            then [("supabase"%string,
                   J_obj [("migrations"%string, strs ["001_initial.sql"]%string);
                          ("functions"%string, strs ["api-handler"]%string)])]
            else []).

Definition generateDefaultEnvVars (frontend : string) (backend : option string) : json :=
  J_obj ([("NODE_ENV"%string, J_str "development");
          ("VITE_APP_NAME"%string, J_str "My App")]
         ++ if is_supabase backend
            then [("VITE_SUPABASE_URL"%string, J_str "your_supabase_url");
                  ("VITE_SUPABASE_ANON_KEY"%string, J_str "your_supabase_anon_key")]
            else []).

Definition includes (s sub : string) : bool :=
  match String.index 0 sub s with Some _ => true | None => false end.

Definition generateDefaultDependencies (frontend : string) (backend : option string) : json :=
  J_obj ([("react"%string, J_str "^18.2.0");
          ("react-dom"%string, J_str "^18.2.0");
          ("typescript"%string, J_str "^5.0.0")]
         ++ (if includes frontend "nextjs" then [("next"%string, J_str "^14.0.0")] else [])
         ++ (if is_supabase backend
             then [("@supabase/supabase-js"%string, J_str "^2.38.0")] else [])).

Definition generateDefaultDeployment (frontend : string) : json :=
  J_obj [("platform"%string, J_str "vercel");
         ("buildCommand"%string, J_str "npm run build");
         ("outputDirectory"%string, J_str "dist");
         ("nodeVersion"%string, J_str "18.x")].

Definition generateDefaultSecurity : json :=
  strs ["Enable Row Level Security (RLS) on all database tables";
        "Use environment variables for all secrets and API keys";
        "Implement proper input validation and sanitization";
        "Add CORS headers and CSP policies";
        "Use HTTPS in production";
        "Implement rate limiting on API endpoints";
        "Regular security audits and dependency updates"]%string.

(** What a request can change: the database, and the requests sent to
    the external generator (their prompts, oldest first). *)
Record World : Type := {
  db : Store;
  openai_calls : list string
}.

(** An inbound request: its [Authorization] header ([None] when absent,
    otherwise the user that [supabase.auth.getUser] resolves from the
    bearer token, if any), the body ([None] when [req.json()] throws),
    and the two readings of [Date.now()] around the generation. *)
Record Request : Type := {
  authorization : option (option uuid);
  req_body : option GenerateScaffoldRequest;
  startTime : timestamp;
  endTime : timestamp
}.

Definition property (v : json) (key : string) : option json :=
  match v with
  | J_obj fields => option_map snd (find (fun kv => String.eqb (fst kv) key) fields)
  | _ => None
  end.

Definition js_truthy (v : json) : bool :=
  match v with
  | J_null => false
  | J_bool b => b
  | J_num n => negb (n =? 0)%Z
  | J_str s => Js.truthy s
  | J_arr _ | J_obj _ => true
  end.

(** [scaffold.key || fallback]. *)
Definition or_default (parsed : json) (key : string) (fallback : json) : json :=
  match property parsed key with
  | Some v => if js_truthy v then v else fallback
  | None => fallback
  end.

(** [.from('projects').insert(...).select().single()] as [serve] fills
    the row: [None] when the table rejects it (unknown stack or auth
    labels, a template or user that does not exist, a negative
    generation time).  After the insert the trigger
    [project_activity_trigger] writes a 'project_created' row to
    [activity_logs]. *)
Definition projects_insert
    (s : Store) (user_id : uuid) (body : GenerateScaffoldRequest)
    (scaffold : GeneratedScaffold) (generationTime : Z) (now : timestamp)
  : option (projects_row * Store) :=
  match tech_stack_of_string (frontendStack body) with
  | None => None
  | Some frontend =>
      let backend := match backendStack body with
                     | Some b => option_map Some (tech_stack_of_string b)
                     | None => Some None
                     end in
      let auth := match authType body with
                  | Some a => option_map Some (auth_method_of_string a)
                  | None => Some None
                  end in
      match backend, auth with
      | Some backend_stack, Some auth_method =>
          if existsb (fun u => N.eqb (u_id u) user_id) (users s)
             && match templateId body with
                | Some tid => existsb (fun t => N.eqb (tpl_id t) tid) (templates s)
                | None => true
                end
             && (0 <=? generationTime)%Z
          then
            let row :=
              {| p_id := next_uuid s; p_user_id := user_id; p_team_id := None;
                 p_template_id := templateId body;
                 p_name := generateProjectName (appIdea body);
                 p_description := appIdea body;
                 p_status := PS_generated; p_visibility := PVis_private;
                 p_is_public := false;
                 p_frontend_stack := frontend;
                 p_backend_stack := backend_stack;
                 p_auth_method := auth_method;
                 p_file_structure := Some (projectStructure scaffold);
                 p_database_schema := Some (databaseSchema scaffold);
                 p_api_endpoints := Some (apiEndpoints scaffold);
                 p_deployment_config := Some (deploymentConfig scaffold);
                 p_original_prompt := Some (appIdea body);
                 p_ai_model_used := Some "gpt-4-turbo"%string;
                 p_generation_time_ms := Some generationTime;
                 p_created_at := now; p_deleted_at := None |} in
            Some (row,
                  {| users := users s; teams := teams s;
                     team_members := team_members s;
                     projects := projects s ++ [row];
                     project_collaborators := project_collaborators s;
                     templates := templates s;
                     activity_logs :=
                       activity_logs s
                       ++ [{| al_user_id := Some user_id; al_team_id := None;
                              al_action := "project_created"%string;
                              al_resource_type := "project"%string;
                              al_resource_id := Some (next_uuid s) |}];
                     usage_analytics := usage_analytics s;
                     next_uuid := N.succ (next_uuid s) |})
          else None
      | _, _ => None
      end
  end.

(** The counters are INTEGER columns under the check
    [valid_usage_counts]: the database rejects a value below 0 or above
    2147483647. *)
Definition counter_ok (v : Z) : bool := (0 <=? v)%Z && (v <=? 2147483647)%Z.

(** The counters [serve] writes after a generation. *)
Definition set_generations (monthly generated : Z) (u : users_row) : users_row :=
  {| u_id := u_id u; u_email := u_email u;
     u_subscription_tier := u_subscription_tier u;
     u_is_active := u_is_active u;
     u_current_team_id := u_current_team_id u;
     u_is_team_owner := u_is_team_owner u;
     u_monthly_generations := monthly;
     u_projects_generated := generated |}.

(** What [serve] knows after its first read of the store. *)
Inductive loaded : Type :=
| Answered (r : Response)
| Loaded (uid : uuid) (userData : users_row).

(** A request in flight: not started, suspended between the read of
    the user's row and the rest of the handler, or answered. *)
Inductive job : Type :=
| Waiting (req : Request)
| Reading (req : Request) (uid : uuid) (userData : users_row)
| Replied (r : Response).




Section Serve.

(** The environment of the function: the configured API key, the
    prompt template, the external chat-completion service (it yields
    the content of the first choice, or [None] when the call fails,
    is not ok or carries no such content) and [JSON.parse] ([None]
    when it throws). *)
Variable openAIApiKey : option string.
Variable build_prompt : GenerateScaffoldRequest -> option templates_row -> string.
Variable openai_chat_completions : string -> option string.
Variable JSON_parse : string -> option json.

Definition default_scaffold (params : GenerateScaffoldRequest) : GeneratedScaffold :=
  {| projectStructure := generateDefaultStructure (frontendStack params) (backendStack params);
     databaseSchema := J_arr [];
     apiEndpoints := J_arr [];
     environmentVariables := generateDefaultEnvVars (frontendStack params) (backendStack params);
     dependencies := generateDefaultDependencies (frontendStack params) (backendStack params);
     deploymentConfig := generateDefaultDeployment (frontendStack params);
     securityRecommendations := generateDefaultSecurity |}.

(** The [try]/[catch] around [JSON.parse]: a parse error, or a parsed
    [null] (reading a property of it throws), gives the defaults. *)
Definition scaffold_of_response
    (params : GenerateScaffoldRequest) (aiResponse : string) : GeneratedScaffold :=
  match JSON_parse aiResponse with
  | None | Some J_null => default_scaffold params
  | Some parsed =>
      let d := default_scaffold params in
      {| projectStructure := or_default parsed "projectStructure" (projectStructure d);
         databaseSchema := or_default parsed "databaseSchema" (databaseSchema d);
         apiEndpoints := or_default parsed "apiEndpoints" (apiEndpoints d);
         environmentVariables :=
           or_default parsed "environmentVariables" (environmentVariables d);
         dependencies := or_default parsed "dependencies" (dependencies d);
         deploymentConfig := or_default parsed "deploymentConfig" (deploymentConfig d);
         securityRecommendations :=
           or_default parsed "securityRecommendations" (securityRecommendations d) |}
  end.

(** [generateScaffoldWithAI]: [None] when it throws. *)
Definition generateScaffoldWithAI
    (w : World) (params : GenerateScaffoldRequest) : option GeneratedScaffold * World :=
  let baseTemplate :=
    match templateId params with
    | Some tid => data (single (filter (fun t => N.eqb (tpl_id t) tid) (templates (db w))))
    | None => None
    end in
  let prompt := build_prompt params baseTemplate in
  match openAIApiKey with
  | None => (None, w)
  | Some key =>
      if negb (Js.truthy key) then (None, w)
      else
        let w1 := {| db := db w; openai_calls := openai_calls w ++ [prompt] |} in
        match openai_chat_completions prompt with
        | None => (None, w1)
        | Some aiResponse => (Some (scaffold_of_response params aiResponse), w1)
        end
  end.

(** [serve], up to and including the read of the user's row.  Without
    the header, [authHeader.replace] throws and the [catch] answers. *)
Definition load_user (w : World) (req : Request) : loaded :=
  match authorization req with
  | None => Answered (fail 500 "Internal server error")
  | Some None => Answered (fail 401 "Unauthorized")
  | Some (Some uid) =>
      match data (single (filter (fun u => N.eqb (u_id u) uid) (users (db w)))) with
      | None => Answered (fail 404 "User not found")
      | Some userData => Loaded uid userData
      end
  end.

(** [serve] after the quota check.  The update of the counters is not
    checked: when the database rejects it (a counter out of range, or
    the trigger [validate_team_ownership]) the counters stay as they
    were and the request is answered 200 all the same. *)
Definition generate (w : World) (req : Request) (uid : uuid) (userData : users_row)
  : Response * World :=
  match req_body req with
  | None => (fail 500 "Internal server error", w)
  | Some body =>
      if negb (Js.truthy (appIdea body)) || negb (Js.truthy (frontendStack body))
      then (fail 400 "Missing required fields: appIdea, frontendStack", w)
      else
        match generateScaffoldWithAI w body with
        | (None, w1) => (fail 500 "Internal server error", w1)
        | (Some scaffold, w1) =>
            let generationTime := (endTime req - startTime req)%Z in
            match projects_insert (db w1) uid body scaffold generationTime
                                  (endTime req) with
            | None => (fail 500 "Failed to save project", w1)
            | Some (project, s1) =>
                let s2 :=
                  if counter_ok (u_monthly_generations userData + 1)
                     && counter_ok (u_projects_generated userData + 1)
                  then users_update s1 uid
                         (set_generations (u_monthly_generations userData + 1)
                                          (u_projects_generated userData + 1))
                  else s1 in
                let s3 := log_usage s2
                            {| ua_user_id := Some uid;
                               ua_event_type := "scaffold_generated";
                               ua_project_id := Some (p_id project) |} in
                (ok (Body_scaffold project scaffold generationTime),
                 {| db := s3; openai_calls := openai_calls w1 |})
            end
        end
  end.

(** [serve] from the quota check on, with the row read earlier. *)
Definition finish (w : World) (req : Request) (uid : uuid) (userData : users_row)
  : Response * World :=
  let userLimit := limits (u_subscription_tier userData) in
  match userLimit with
  | Some limit =>
      if limit_reached userLimit (u_monthly_generations userData)
      then ({| status := 429;
               body := Body_quota "Monthly generation limit reached" limit
                                  (u_monthly_generations userData) |}, w)
      else generate w req uid userData
  | None => generate w req uid userData
  end.

(** [serve]. *)
Definition serve (w : World) (req : Request) : Response * World :=
  match load_user w req with
  | Answered r => (r, w)
  | Loaded uid userData => finish w req uid userData
  end.

(** Requests served one after the other. *)
Fixpoint serve_all (w : World) (reqs : list Request) : list Response * World :=
  match reqs with
  | [] => ([], w)
  | req :: rest =>
      let (r, w1) := serve w req in
      let (rs, w2) := serve_all w1 rest in
      (r :: rs, w2)
  end.

(** One scheduling step: a waiting request runs up to the end of its
    read of the user's row; a request that has read it runs to its
    answer. *)
Definition step (w : World) (j : job) : job * World :=
  match j with
  | Waiting req =>
      match load_user w req with
      | Answered r => (Replied r, w)
      | Loaded uid userData => (Reading req uid userData, w)
      end
  | Reading req uid userData =>
      let (r, w1) := finish w req uid userData in (Replied r, w1)
  | Replied r => (Replied r, w)
  end.


End Serve.

End GenerateScaffold.

(* ================================================================= *)
(** ** Scenarios *)

Module Scenario.

Local Open Scope string_scope.

Definition alice : uuid := 1%N.
Definition bob : uuid := 2%N.

Definition user (id : uuid) (email : string) (tier : subscription_tier)
    (monthly : Z) : users_row :=
  {| u_id := id; u_email := email; u_subscription_tier := Some tier;
     u_is_active := true; u_current_team_id := None; u_is_team_owner := false;
     u_monthly_generations := monthly; u_projects_generated := monthly |}.

Definition project (id owner : uuid) (created : timestamp) : projects_row :=
  {| p_id := id; p_user_id := owner; p_team_id := None; p_template_id := None;
     p_name := "todo"; p_description := "a todo list";
     p_status := PS_generated; p_visibility := PVis_private;
     p_is_public := false; p_frontend_stack := react_typescript;
     p_backend_stack := None; p_auth_method := None;
     p_file_structure := None; p_database_schema := None;
     p_api_endpoints := None; p_deployment_config := None;
     p_original_prompt := None; p_ai_model_used := None;
     p_generation_time_ms := None; p_created_at := created;
     p_deleted_at := None |}.

Definition template (id creator : uuid) (vis : template_visibility)
    (approved : bool) : templates_row :=
  {| tpl_id := id; tpl_name := "starter"; tpl_created_by := Some creator;
     tpl_team_id := None; tpl_visibility := vis; tpl_is_approved := approved;
     tpl_view_count := 0%Z; tpl_file_structure := J_obj [];
     tpl_deleted_at := None |}.

Definition two_users : list users_row :=
  [user alice "alice@x.com" Tier_pro_monthly 0%Z; user bob "bob@x.com" Tier_free 0%Z].

(** Alice owns project 10; Bob is an active collaborator on it. *)
Definition bob_collaborates : project_collaborators_row :=
  {| pc_id := 20%N; pc_project_id := 10%N; pc_user_id := bob;
     pc_role := Collab_editor; pc_status := Status_active |}.

Definition shared_project : Store :=
  {| users := two_users; teams := []; team_members := [];
     projects := [project 10%N alice 100%Z; project 11%N bob 200%Z;
                  project 12%N alice 300%Z];
     project_collaborators := [bob_collaborates];
     templates := []; activity_logs := []; usage_analytics := [];
     next_uuid := 50%N |}.

(** Alice's template 30: public, not yet approved. *)
Definition unapproved_public : Store :=
  {| users := two_users; teams := []; team_members := []; projects := [];
     project_collaborators := [];
     templates := [template 30%N alice Vis_public false];
     activity_logs := []; usage_analytics := []; next_uuid := 50%N |}.

(** Alice's template 31: private and approved. *)
Definition private_template : Store :=
  {| users := two_users; teams := []; team_members := []; projects := [];
     project_collaborators := [];
     templates := [template 31%N alice Vis_private true];
     activity_logs := []; usage_analytics := []; next_uuid := 50%N |}.

End Scenario.

(** The projects a response carries. *)
Definition returned_projects (r : Response) : list projects_row :=
  match body r with
  | Body_projects rows => rows
  | Body_project row => [row]
  | _ => []
  end.

(** [a] is an active member of team [t]. *)
Definition active_team_member (db : Store) (t a : uuid) : Prop :=
  exists tm, In tm (team_members db) /\ tm_team_id tm = t
             /\ tm_user_id tm = Some a /\ tm_status tm = Status_active.

(** [a] is an active collaborator on project [pid]. *)
Definition active_collaborator (db : Store) (pid a : uuid) : Prop :=
  exists pc, In pc (project_collaborators db) /\ pc_project_id pc = pid
             /\ pc_user_id pc = a /\ pc_status pc = Status_active.

(** What the policy's collaborator subquery tests: [a] has an active
    collaborator row whose [project_id] equals that row's own [id]. *)
Definition self_referencing_collaborator (db : Store) (a : uuid) : Prop :=
  exists pc, In pc (project_collaborators db) /\ pc_project_id pc = pc_id pc
             /\ pc_user_id pc = a /\ pc_status pc = Status_active.

Module TeamScenario.

Import TeamManagement.
Local Open Scope string_scope.

Definition carol : uuid := 3%N.

Definition acme : teams_row :=
  {| t_id := 40%N; t_name := "Acme"; t_slug := "acme"; t_description := None;
     t_subscription_tier := Tier_team_monthly; t_member_limit := 5%Z;
     t_is_active := true; t_created_by := Some Scenario.alice |}.

Definition acme_owner : team_members_row :=
  {| tm_id := 41%N; tm_team_id := 40%N; tm_user_id := Some Scenario.alice;
     tm_role := Some Role_owner; tm_status := Status_active;
     tm_invitation_token := None; tm_invited_by := None;
     tm_accepted_at := Some 1000%Z |}.

Definition bob_invited : team_members_row :=
  {| tm_id := 42%N; tm_team_id := 40%N; tm_user_id := Some Scenario.bob;
     tm_role := Some Role_member; tm_status := Status_pending;
     tm_invitation_token := Some "tok-bob"; tm_invited_by := Some Scenario.alice;
     tm_accepted_at := None |}.

(** Team Acme, owned by Alice, with a pending invitation for Bob. *)
Definition acme_invited : Store :=
  {| users := Scenario.two_users; teams := [acme];
     team_members := [acme_owner; bob_invited];
     projects := []; project_collaborators := []; templates := [];
     activity_logs := []; usage_analytics := []; next_uuid := 50%N |}.

(** Team Acme with room for two rows only. *)
Definition acme_small : Store :=
  {| users := Scenario.two_users;
     teams := [{| t_id := 40%N; t_name := "Acme"; t_slug := "acme";
                  t_description := None;
                  t_subscription_tier := Tier_team_monthly; t_member_limit := 2%Z;
                  t_is_active := true; t_created_by := Some Scenario.alice |}];
     team_members := [acme_owner; bob_invited];
     projects := []; project_collaborators := []; templates := [];
     activity_logs := []; usage_analytics := []; next_uuid := 50%N |}.

(** Team Acme with Alice as owner and Bob as an active admin. *)
Definition acme_with_admin : Store :=
  {| users := Scenario.two_users; teams := [acme];
     team_members :=
       [acme_owner;
        {| tm_id := 42%N; tm_team_id := 40%N; tm_user_id := Some Scenario.bob;
           tm_role := Some Role_admin; tm_status := Status_active;
           tm_invitation_token := None; tm_invited_by := Some Scenario.alice;
           tm_accepted_at := Some 1200%Z |}];
     projects := []; project_collaborators := []; templates := [];
     activity_logs := []; usage_analytics := []; next_uuid := 50%N |}.

(** The member update of the body [{ role }] with one of the four
    labels: the rows with that id get the role, and the statement
    returns the row when there is exactly one. *)
Definition set_role (role : member_role) (r : team_members_row) : team_members_row :=
  {| tm_id := tm_id r; tm_team_id := tm_team_id r; tm_user_id := tm_user_id r;
     tm_role := Some role; tm_status := tm_status r;
     tm_invitation_token := tm_invitation_token r;
     tm_invited_by := tm_invited_by r; tm_accepted_at := tm_accepted_at r |}.

Definition update_role (s : Store) (memberId : uuid) (role : member_role)
  : option (team_members_row * Store) :=
  match filter (fun tm => N.eqb (tm_id tm) memberId) (team_members s) with
  | [row] =>
      Some (set_role role row,
            set_team_members s
              (map (fun tm => if N.eqb (tm_id tm) memberId then set_role role tm else tm)
                   (team_members s)))
  | _ => None
  end.

(** Only users: no team yet. *)
Definition no_team : Store :=
  {| users := Scenario.two_users; teams := []; team_members := [];
     projects := []; project_collaborators := []; templates := [];
     activity_logs := []; usage_analytics := []; next_uuid := 50%N |}.

End TeamScenario.

Module GenScenario.

Import GenerateScaffold.
Local Open Scope string_scope.

(** An environment in which the generator is configured and answers. *)
Definition api_key : option string := Some "sk-test".
Definition prompt_of (params : GenerateScaffoldRequest) (base : option templates_row)
  : string := appIdea params.
Definition generator (prompt : string) : option string := Some "not json".
Definition parse (text : string) : option json := None.

Definition todo_app : GenerateScaffoldRequest :=
  {| appIdea := "a todo list for small teams";
     frontendStack := "react_typescript";
     backendStack := Some "supabase"; authType := None; templateId := None |}.

Definition request_of (uid : uuid) : Request :=
  {| authorization := Some (Some uid); req_body := Some todo_app;
     startTime := 5000%Z; endTime := 5900%Z |}.

Definition world_with (monthly : Z) : World :=
  {| db := {| users := [Scenario.user Scenario.bob "bob@x.com" Tier_free monthly];
              teams := []; team_members := []; projects := [];
              project_collaborators := []; templates := [];
              activity_logs := []; usage_analytics := []; next_uuid := 50%N |};
     openai_calls := [] |}.

(** Bob with one generation left on the free tier, whose current team
    is Acme although his membership of it is suspended. *)
Definition world_with_suspended_member : World :=
  {| db := {| users := [{| u_id := Scenario.bob; u_email := "bob@x.com";
                           u_subscription_tier := Some Tier_free;
                           u_is_active := true;
                           u_current_team_id := Some 40%N;
                           u_is_team_owner := false;
                           u_monthly_generations := 2%Z;
                           u_projects_generated := 2%Z |}];
              teams := [TeamScenario.acme];
              team_members :=
                [{| tm_id := 42%N; tm_team_id := 40%N; tm_user_id := Some Scenario.bob;
                    tm_role := Some Role_member; tm_status := Status_suspended;
                    tm_invitation_token := None; tm_invited_by := None;
                    tm_accepted_at := Some 1200%Z |}];
              projects := []; project_collaborators := []; templates := [];
              activity_logs := []; usage_analytics := []; next_uuid := 50%N |};
     openai_calls := [] |}.

End GenScenario.



(** A store in which team ids come from [next_uuid], every membership
    row references a stored team, every row with role owner is active,
    and every team has exactly one active owner row. *)
Definition store_ok (s : Store) : bool :=
  forallb (fun t => N.ltb (t_id t) (next_uuid s)) (teams s)
  && forallb (fun tm => TeamManagement.team_exists s (tm_team_id tm)) (team_members s)
  && forallb (fun tm => negb (role_is (tm_role tm) Role_owner)
                        || member_status_beq (tm_status tm) Status_active)
             (team_members s)
  && forallb (fun t => Nat.eqb (TeamManagement.active_owners s (t_id t)) 1) (teams s).

(** Every request but a member update and an invitation whose [role]
    is 'owner'. *)
Definition no_owner_grant {UpdateData : Type}
    (req : TeamManagement.Request UpdateData) : bool :=
  match TeamManagement.req_route req with
  | TeamManagement.PUT_member _ _ _ => false
  | TeamManagement.POST_invite _ inviteData _ =>
      match TeamManagement.role_column (TeamManagement.ti_role inviteData) with
      | Some (Some Role_owner) => false
      | _ => true
      end
  | _ => true
  end.

Module OwnerScenario.

Import TeamManagement.
Local Open Scope string_scope.

Definition create_acme : Request member_role :=
  {| authorization := Some (Some Scenario.alice);
     req_route := POST_create {| tc_name := "Acme"; tc_slug := None;
                                 tc_description := None;
                                 tc_subscription_tier := None |};
     req_now := 1000%Z |}.

Definition invite_bob : Request member_role :=
  {| authorization := Some (Some Scenario.alice);
     req_route := POST_invite 50%N {| ti_email := "bob@x.com";
                                      ti_role := Some (J_str "member");
                                      ti_message := None |} "tok-bob";
     req_now := 1100%Z |}.

(** The same invitation with the role 'owner'. *)
Definition invite_bob_as_owner : Request member_role :=
  {| authorization := Some (Some Scenario.alice);
     req_route := POST_invite 50%N {| ti_email := "bob@x.com";
                                      ti_role := Some (J_str "owner");
                                      ti_message := None |} "tok-bob";
     req_now := 1100%Z |}.

Definition bob_accepts : Request member_role :=
  {| authorization := Some (Some Scenario.bob);
     req_route := POST_accept_invite "tok-bob";
     req_now := 1200%Z |}.

(** Alice, the owner, sets the role of her own membership row (51) to
    member. *)
Definition alice_steps_down : Request member_role :=
  {| authorization := Some (Some Scenario.alice);
     req_route := PUT_member 50%N 51%N Role_member;
     req_now := 1300%Z |}.

(** Alice sets the role of Bob's membership row (52) to owner. *)
Definition alice_promotes_bob : Request member_role :=
  {| authorization := Some (Some Scenario.alice);
     req_route := PUT_member 50%N 52%N Role_owner;
     req_now := 1300%Z |}.

End OwnerScenario.

(** [store_ok], clause by clause. *)
Record team_invariant (s : Store) : Prop := {
  inv_ids : forall t, In t (teams s) -> (t_id t < next_uuid s)%N;
  inv_team : forall tm, In tm (team_members s) ->
                        exists t, In t (teams s) /\ t_id t = tm_team_id tm;
  inv_owner_active : forall tm, In tm (team_members s) ->
                                tm_role tm = Some Role_owner -> tm_status tm = Status_active;
  inv_one_owner : forall t, In t (teams s) ->
                            TeamManagement.active_owners s (t_id t) = 1%nat
}.

(** The four ways in which a request other than a member update leaves
    the teams and their members: untouched; a new team with its owner; a
    new pending row that is not an owner; rows turned active. *)
Inductive team_effect (s s' : Store) : Prop :=
| Effect_none :
    teams s' = teams s -> team_members s' = team_members s ->
    next_uuid s' = next_uuid s -> team_effect s s'
| Effect_created (team : teams_row) (owner : team_members_row) :
    t_id team = next_uuid s -> tm_team_id owner = next_uuid s ->
    tm_role owner = Some Role_owner -> tm_status owner = Status_active ->
    teams s' = teams s ++ [team] -> team_members s' = team_members s ++ [owner] ->
    next_uuid s' = N.succ (N.succ (next_uuid s)) -> team_effect s s'
| Effect_invited (row : team_members_row) :
    tm_role row <> Some Role_owner ->
    (exists t, In t (teams s) /\ t_id t = tm_team_id row) ->
    teams s' = teams s -> team_members s' = team_members s ++ [row] ->
    next_uuid s' = N.succ (next_uuid s) -> team_effect s s'
| Effect_accepted (f : team_members_row -> team_members_row) :
    (forall r, tm_team_id (f r) = tm_team_id r /\ tm_role (f r) = tm_role r
               /\ (f r = r \/ tm_status (f r) = Status_active)) ->
    teams s' = teams s -> team_members s' = map f (team_members s) ->
    next_uuid s' = next_uuid s -> team_effect s s'.


Module UpdateScenario.

(** The update of a project by the body [{ name }]. *)
Definition set_name (name : string) (p : projects_row) : projects_row :=
  {| p_id := p_id p; p_user_id := p_user_id p; p_team_id := p_team_id p;
     p_template_id := p_template_id p; p_name := name;
     p_description := p_description p; p_status := p_status p;
     p_visibility := p_visibility p; p_is_public := p_is_public p;
     p_frontend_stack := p_frontend_stack p;
     p_backend_stack := p_backend_stack p; p_auth_method := p_auth_method p;
     p_file_structure := p_file_structure p;
     p_database_schema := p_database_schema p;
     p_api_endpoints := p_api_endpoints p;
     p_deployment_config := p_deployment_config p;
     p_original_prompt := p_original_prompt p;
     p_ai_model_used := p_ai_model_used p;
     p_generation_time_ms := p_generation_time_ms p;
     p_created_at := p_created_at p; p_deleted_at := p_deleted_at p |}.

Definition rename_project (s : Store) (projectId : uuid) (name : string)
  : option (projects_row * Store) :=
  match filter (fun p => N.eqb (p_id p) projectId) (projects s) with
  | [row] =>
      Some (set_name name row,
            {| users := users s; teams := teams s; team_members := team_members s;
               projects := map (fun p => if N.eqb (p_id p) projectId
                                         then set_name name p else p) (projects s);
               project_collaborators := project_collaborators s;
               templates := templates s; activity_logs := activity_logs s;
               usage_analytics := usage_analytics s; next_uuid := next_uuid s |})
  | _ => None
  end.

(** The update of a template by the body [{ name }]. *)
Definition rename_template (s : Store) (templateId : uuid) (name : string)
  : option (templates_row * Store) :=
  let set_name := fun t =>
    {| tpl_id := tpl_id t; tpl_name := name; tpl_created_by := tpl_created_by t;
       tpl_team_id := tpl_team_id t; tpl_visibility := tpl_visibility t;
       tpl_is_approved := tpl_is_approved t; tpl_view_count := tpl_view_count t;
       tpl_file_structure := tpl_file_structure t;
       tpl_deleted_at := tpl_deleted_at t |} in
  match filter (fun t => N.eqb (tpl_id t) templateId) (templates s) with
  | [row] =>
      Some (set_name row,
            set_templates s (map (fun t => if N.eqb (tpl_id t) templateId
                                           then set_name t else t) (templates s)))
  | _ => None
  end.

End UpdateScenario.


(** [users.id] is the primary key: a lookup by id selects at most one
    row. *)
Definition users_pkey (s : Store) : Prop :=
  forall uid,
    (List.length (filter (fun u => N.eqb (u_id u) uid) (users s)) <= 1)%nat.

(** [UNIQUE(team_id, user_id)] on [team_members]: a lookup by team and
    user selects at most one row. *)
Definition team_members_unique (s : Store) : Prop :=
  forall team uid,
    (List.length (filter (fun tm => N.eqb (tm_team_id tm) team
                                    && opt_uuid_is (tm_user_id tm) uid)
                         (team_members s)) <= 1)%nat.


Module TemplateScenario.

Local Open Scope string_scope.

(** Alice's template 32, shared with team Acme. *)
Definition acme_template : templates_row :=
  {| tpl_id := 32%N; tpl_name := "acme starter";
     tpl_created_by := Some Scenario.alice; tpl_team_id := Some 40%N;
     tpl_visibility := Vis_team; tpl_is_approved := true;
     tpl_view_count := 7%Z; tpl_file_structure := J_obj [];
     tpl_deleted_at := None |}.

(** Team Acme (Alice owner, Bob active admin) with its template. *)
Definition acme_with_template : Store :=
  set_templates TeamScenario.acme_with_admin [acme_template].

End TemplateScenario.


(** [UNIQUE] on [teams.slug]: a lookup by slug selects at most one row. *)
Definition teams_slug_unique (s : Store) : Prop :=
  forall slug,
    (List.length (filter (fun t => String.eqb (t_slug t) slug) (teams s)) <= 1)%nat.


Module InviteScenario.

Local Open Scope string_scope.

(** Team Acme (Alice owner, Bob active admin), and Carol, who has an
    account and no team. *)
Definition acme_and_carol : Store :=
  set_users TeamScenario.acme_with_admin
    (Scenario.two_users ++ [Scenario.user TeamScenario.carol "carol@x.com" Tier_free 0%Z]).

Definition invite_carol : TeamManagement.TeamInviteRequest :=
  {| TeamManagement.ti_email := "carol@x.com";
     TeamManagement.ti_role := Some (J_str "guest");
     TeamManagement.ti_message := None |}.

End InviteScenario.

(* ================================================================= *)
(** * Properties *)

(** ** Three-valued logic *)

Lemma holds_and3 (a b : Sql.tvl) :
  Sql.holds (Sql.and3 a b) = Sql.holds a && Sql.holds b.
Proof. destruct a, b; reflexivity. Qed.

Lemma holds_or3 (a b : Sql.tvl) :
  Sql.holds (Sql.or3 a b) = Sql.holds a || Sql.holds b.
Proof. destruct a, b; reflexivity. Qed.

Lemma holds_of_bool (b : bool) : Sql.holds (Sql.of_bool b) = b.
Proof. destruct b; reflexivity. Qed.

Lemma holds_exists (R : Type) (rows : list R) (cond : R -> Sql.tvl) :
  Sql.holds (Sql.exists_ rows cond) = existsb (fun r => Sql.holds (cond r)) rows.
Proof. unfold Sql.exists_. apply holds_of_bool. Qed.

Lemma holds_eq3_uuid (x y : option uuid) :
  Sql.holds (Sql.eq3 N.eqb x y) = true <-> exists a, x = Some a /\ y = Some a.
Proof.
  destruct x as [a|], y as [b|]; simpl; try (split; [discriminate | intros [c [H1 H2]]; discriminate]).
  rewrite holds_of_bool, N.eqb_eq. split.
  - intros ->. exists b. split; reflexivity.
  - intros [c [H1 H2]]. congruence.
Qed.

Lemma holds_is_null (A : Type) (x : option A) :
  Sql.holds (Sql.is_null x) = true <-> x = None.
Proof. destruct x; simpl; split; congruence. Qed.

Lemma member_status_beq_eq (a b : member_status) :
  member_status_beq a b = true <-> a = b.
Proof. destruct a, b; simpl; split; congruence. Qed.

Lemma member_role_beq_eq (a b : member_role) :
  member_role_beq a b = true <-> a = b.
Proof. destruct a, b; simpl; split; congruence. Qed.

Lemma project_visibility_beq_eq (a b : project_visibility) :
  project_visibility_beq a b = true <-> a = b.
Proof. destruct a, b; simpl; split; congruence. Qed.

Lemma template_visibility_beq_eq (a b : template_visibility) :
  template_visibility_beq a b = true <-> a = b.
Proof. destruct a, b; simpl; split; congruence. Qed.

(** ** The project select policy *)

(** The policy [projects_select_access] admits a row exactly when the
    project is not soft-deleted and the actor is its owner, or an active
    member of its team, or holds a self-referencing collaborator row, or
    the project is public with [is_public] set. *)
Lemma projects_select_access_spec (db : Store) (auth_uid : option uuid) (p : projects_row) :
  Sql.holds (Policies.projects_select_access db auth_uid p) = true <->
  p_deleted_at p = None /\
  (auth_uid = Some (p_user_id p)
   \/ (exists a t, auth_uid = Some a /\ p_team_id p = Some t /\ active_team_member db t a)
   \/ (exists a, auth_uid = Some a /\ self_referencing_collaborator db a)
   \/ (p_visibility p = PVis_public /\ p_is_public p = true)).
Proof.
  unfold Policies.projects_select_access.
  rewrite holds_and3, andb_true_iff, holds_is_null.
  apply and_iff_compat_l.
  rewrite !holds_or3, !orb_true_iff.
  rewrite holds_eq3_uuid.
  rewrite !holds_and3, !andb_true_iff, !holds_exists, !existsb_exists, !holds_of_bool.
  rewrite project_visibility_beq_eq, Bool.eqb_true_iff.
  split.
  - intros [[a [Ha Hb]] | [[Ht [tm [Hin Htm]]] | [[pc [Hin Hpc]] | Hpub]]].
    + left. congruence.
    + right; left.
      rewrite !holds_and3, !andb_true_iff, !holds_of_bool in Htm.
      destruct Htm as [Hteam [Huser Hst]].
      apply holds_eq3_uuid in Hteam. destruct Hteam as [t [Ht1 Ht2]].
      apply holds_eq3_uuid in Huser. destruct Huser as [a [Ha1 Ha2]].
      apply member_status_beq_eq in Hst.
      exists a, t. repeat split; try assumption.
      exists tm. repeat split; try assumption. congruence.
    + right; right; left.
      rewrite !holds_and3, !andb_true_iff, !holds_of_bool in Hpc.
      destruct Hpc as [Hself [Huser Hst]].
      apply N.eqb_eq in Hself.
      apply holds_eq3_uuid in Huser. destruct Huser as [a [Ha1 Ha2]].
      apply member_status_beq_eq in Hst.
      exists a. split; [assumption|]. exists pc. repeat split; try assumption. congruence.
    + right; right; right. assumption.
  - intros [Hown | [[a [t [Ha [Ht [tm [Hin [H1 [H2 H3]]]]]]]] | [[a [Ha [pc [Hin [H1 [H2 H3]]]]]] | Hpub]]].
    + left. exists (p_user_id p). split; [reflexivity | assumption].
    + right; left. split.
      * rewrite Ht. reflexivity.
      * exists tm. split; [assumption|].
        rewrite !holds_and3, !andb_true_iff, !holds_of_bool.
        repeat split.
        -- apply holds_eq3_uuid. exists t. split; congruence.
        -- apply holds_eq3_uuid. exists a. split; congruence.
        -- apply member_status_beq_eq; assumption.
    + right; right; left. exists pc. split; [assumption|].
      rewrite !holds_and3, !andb_true_iff, !holds_of_bool.
      repeat split.
      * apply N.eqb_eq; assumption.
      * apply holds_eq3_uuid. exists a. split; congruence.
      * apply member_status_beq_eq; assumption.
    + right; right; right. assumption.
Qed.

(** C1 (failing input).  Bob is an active collaborator on Alice's live
    private project 10, yet the policy [projects_select_access] does not
    admit the row for him: its subquery compares [pc.project_id] with the
    collaborator row's own [id]. *)
Theorem projects_select_access_rejects_collaborator :
  let p := Scenario.project 10%N Scenario.alice 100%Z in
  In p (projects Scenario.shared_project)
  /\ p_deleted_at p = None
  /\ active_collaborator Scenario.shared_project (p_id p) Scenario.bob
  /\ Sql.holds (Policies.projects_select_access Scenario.shared_project
                  (Some Scenario.bob) p) = false.
Proof.
  cbv zeta. split; [simpl; auto|]. split; [reflexivity|]. split.
  - exists Scenario.bob_collaborates. simpl. auto.
  - vm_compute. reflexivity.
Qed.

(** ** Templates: who is given a template *)

Lemma opt_uuid_is_true (x : option uuid) (y : uuid) :
  opt_uuid_is x y = true <-> x = Some y.
Proof.
  destruct x as [a|]; simpl; [rewrite N.eqb_eq|]; split; congruence.
Qed.

(** Whoever [checkTemplateAccess] lets through meets the visibility rule
    or finds their own id in [created_by]. *)
Lemma checkTemplateAccess_rule
    (s : Store) (t : templates_row) (created_by : TemplateMarketplace.created_by_value)
    (user : option uuid) :
  TemplateMarketplace.checkTemplateAccess s t created_by user = true ->
  tpl_visibility t = Vis_public \/ tpl_visibility t = Vis_unlisted
  \/ exists uid, user = Some uid /\
       (created_by = TemplateMarketplace.Created_by_id uid
        \/ (tpl_visibility t = Vis_premium
            /\ exists u tier, In u (users s) /\ u_id u = uid
                 /\ u_subscription_tier u = Some tier
                 /\ In tier TemplateMarketplace.paid_tiers)
        \/ (tpl_visibility t = Vis_team
            /\ exists team, tpl_team_id t = Some team /\ active_team_member s team uid)).
Proof.
  unfold TemplateMarketplace.checkTemplateAccess.
  destruct (template_visibility_beq (tpl_visibility t) Vis_public) eqn:Hpub.
  { intros _. left. apply template_visibility_beq_eq; assumption. }
  destruct (template_visibility_beq (tpl_visibility t) Vis_unlisted) eqn:Hunl.
  { intros _. right; left. apply template_visibility_beq_eq; assumption. }
  simpl. destruct user as [uid|]; [|discriminate].
  intros H. right; right. exists uid. split; [reflexivity|].
  destruct (TemplateMarketplace.strict_equal_id created_by uid) eqn:Hc.
  { left. destruct created_by as [|id|row]; simpl in Hc; try discriminate.
    apply N.eqb_eq in Hc. congruence. }
  destruct (template_visibility_beq (tpl_visibility t) Vis_premium) eqn:Hprem.
  - right; left. split; [apply template_visibility_beq_eq; assumption|].
    destruct (filter (fun u => (u_id u =? uid)%N) (users s)) as [|u [|u' rest]] eqn:Hf;
      simpl in H; try discriminate.
    destruct (u_subscription_tier u) as [tier|] eqn:Htier; [|discriminate].
    assert (Hin : In u (filter (fun u => (u_id u =? uid)%N) (users s)))
      by (rewrite Hf; left; reflexivity).
    apply filter_In in Hin. destruct Hin as [Hin Hid]. apply N.eqb_eq in Hid.
    exists u, tier. repeat split; try assumption.
    destruct tier; simpl in H; try discriminate;
      unfold TemplateMarketplace.paid_tiers; simpl; auto 10.
  - right; right.
    destruct (tpl_visibility t) eqn:Hvis; try discriminate.
    destruct (tpl_team_id t) as [team|] eqn:Hteam; [|discriminate].
    split; [reflexivity|]. exists team. split; [reflexivity|].
    destruct (filter (fun tm => (tm_team_id tm =? team)%N && opt_uuid_is (tm_user_id tm) uid)
                     (team_members s)) as [|m [|m' rest]] eqn:Hf;
      simpl in H; try discriminate.
    assert (Hin : In m (filter (fun tm => (tm_team_id tm =? team)%N
                                          && opt_uuid_is (tm_user_id tm) uid)
                               (team_members s)))
      by (rewrite Hf; left; reflexivity).
    apply filter_In in Hin. destruct Hin as [Hin Hm].
    apply andb_true_iff in Hm. destruct Hm as [Hm1 Hm2].
    apply N.eqb_eq in Hm1. apply opt_uuid_is_true in Hm2.
    apply member_status_beq_eq in H.
    exists m. repeat split; assumption.
Qed.

(** C2 (failing input).  Alice's public template 30 is not approved;
    for Bob, who did not create it, the policy [templates_select_access]
    admits the row, and [checkTemplateAccess] lets him through whatever
    the template's [created_by] holds. *)
Theorem unapproved_template_is_admitted :
  let t := Scenario.template 30%N Scenario.alice Vis_public false in
  tpl_is_approved t = false
  /\ tpl_created_by t <> Some Scenario.bob
  /\ Sql.holds (Policies.templates_select_access Scenario.unapproved_public
                  (Some Scenario.bob) t) = true
  /\ (forall created_by,
        TemplateMarketplace.checkTemplateAccess Scenario.unapproved_public t created_by
          (Some Scenario.bob) = true).
Proof.
  cbv zeta. split; [reflexivity|]. split.
  - simpl. unfold Scenario.alice, Scenario.bob. congruence.
  - split; [reflexivity|]. intros created_by. reflexivity.
Qed.

(** [handleGetTemplate] never answers 404: the error of its lookup is
    thrown and answered from the [catch]. *)
Lemma handleGetTemplate_never_not_found (s : Store) (templateId : uuid) (user : option uuid) :
  status (fst (TemplateMarketplace.handleGetTemplate s templateId user)) <> 404%Z.
Proof.
  unfold TemplateMarketplace.handleGetTemplate, TemplateMarketplace.handleGetTemplate_with.
  simpl. discriminate.
Qed.

(** No object and no null is strictly equal to a caller's id. *)
Lemma embedded_creator_is_no_id (s : Store) (t : templates_row) (uid : uuid) :
  TemplateMarketplace.strict_equal_id (TemplateMarketplace.embedded_creator s t) uid = false.
Proof.
  unfold TemplateMarketplace.embedded_creator.
  destruct (tpl_created_by t) as [c|]; [|reflexivity].
  destruct (find (fun u => N.eqb (u_id u) c) (users s)); reflexivity.
Qed.




(** ** Projects: listing and deleting *)

Lemma In_firstn (A : Type) (n : nat) (l : list A) (x : A) :
  In x (firstn n l) -> In x l.
Proof.
  revert l. induction n as [|n IH]; intros [|y l]; simpl; try tauto.
  intros [H | H]; [left; exact H | right; apply IH; exact H].
Qed.

Lemma In_limit_rows (A : Type) (l : list A) (x : A) : In x (limit_rows l) -> In x l.
Proof. apply In_firstn. Qed.

Lemma In_insert_desc (p x : projects_row) (l : list projects_row) :
  In x (insert_desc p l) <-> x = p \/ In x l.
Proof.
  induction l as [|q rest IH]; simpl.
  - intuition congruence.
  - destruct (p_created_at q <=? p_created_at p)%Z; simpl.
    + intuition congruence.
    + rewrite IH. intuition congruence.
Qed.

Lemma In_order_created_at_desc (x : projects_row) (l : list projects_row) :
  In x (order_created_at_desc l) <-> In x l.
Proof.
  unfold order_created_at_desc.
  induction l as [|p rest IH]; simpl.
  - reflexivity.
  - rewrite In_insert_desc, IH. intuition congruence.
Qed.

Lemma handleGetProjects_returns
    (s : Store) (actor : uuid) (projectId : option uuid) (p : projects_row) :
  In p (returned_projects (ManageProjects.handleGetProjects s actor projectId)) ->
  p_user_id p = actor /\ In p (projects s)
  /\ (forall pid, projectId = Some pid -> p_id p = pid).
Proof.
  unfold ManageProjects.handleGetProjects.
  set (own := order_created_at_desc _).
  assert (Hown : forall x, In x own -> p_user_id x = actor /\ In x (projects s)).
  { intros x Hx. subst own. rewrite In_order_created_at_desc in Hx.
    apply filter_In in Hx. destruct Hx as [Hin Hid].
    apply N.eqb_eq in Hid. split; assumption. }
  destruct projectId as [pid|].
  - destruct (filter (fun q => (p_id q =? pid)%N) own) as [|row [|row' rest]] eqn:Hf;
      simpl; try contradiction.
    intros [<- | []].
    assert (Hin : In row (filter (fun q => (p_id q =? pid)%N) own))
      by (rewrite Hf; left; reflexivity).
    apply filter_In in Hin. destruct Hin as [Hin Hid]. apply N.eqb_eq in Hid.
    destruct (Hown row Hin) as [H1 H2].
    repeat split; try assumption. intros pid' Hp. congruence.
  - simpl. intros Hin. apply In_limit_rows in Hin. destruct (Hown p Hin) as [H1 H2].
    repeat split; try assumption. discriminate.
Qed.

(** C10.  Every project that [handleGetProjects] returns is a stored
    project whose [user_id] is the caller's id (and, when an id was asked
    for, that has this id): a project owned by someone else is never in
    the answer, whatever team, collaboration or visibility would allow. *)
Theorem handleGetProjects_only_own
    (s : Store) (actor : uuid) (projectId : option uuid) (p : projects_row) :
  In p (returned_projects (ManageProjects.handleGetProjects s actor projectId)) ->
  p_user_id p = actor /\ In p (projects s)
  /\ (forall pid, projectId = Some pid -> p_id p = pid)
  /\ (forall q, p_user_id q <> actor ->
                ~ In q (returned_projects
                          (ManageProjects.handleGetProjects s actor projectId))).
Proof.
  intros Hin. destruct (handleGetProjects_returns s actor projectId p Hin) as [H1 [H2 H3]].
  repeat split; try assumption.
  intros q Hq Hqin. apply handleGetProjects_returns in Hqin. tauto.
Qed.

Lemma handleGetProjects_only_own_witness :
  p_user_id (Scenario.project 12%N Scenario.alice 300%Z) = Scenario.alice
  /\ In (Scenario.project 12%N Scenario.alice 300%Z) (projects Scenario.shared_project)
  /\ (forall pid, @None uuid = Some pid ->
                  p_id (Scenario.project 12%N Scenario.alice 300%Z) = pid)
  /\ (forall q, p_user_id q <> Scenario.alice ->
                ~ In q (returned_projects
                          (ManageProjects.handleGetProjects Scenario.shared_project
                             Scenario.alice None))).
Proof.
  apply (@handleGetProjects_only_own Scenario.shared_project Scenario.alice None).
  simpl. auto.
Defined.

(** After a successful [handleDeleteProject] no row with the project's
    id is left, so a request for it by id is answered from the [catch]
    for every caller, and no listing contains it. *)
Lemma handleDeleteProject_removes
    (s : Store) (userId projectId : uuid) (r : Response) (s' : Store) :
  ManageProjects.handleDeleteProject s userId projectId = (r, s') ->
  status r = 200%Z ->
  (forall p, In p (projects s') -> p_id p <> projectId)
  /\ (forall actor, ManageProjects.handleGetProjects s' actor (Some projectId)
                    = fail 500 "Failed to fetch projects")
  /\ (forall actor p,
        In p (returned_projects (ManageProjects.handleGetProjects s' actor None)) ->
        p_id p <> projectId).
Proof.
  unfold ManageProjects.handleDeleteProject.
  destruct (data (single _)) as [row|]; [|intros [= <- <-]; discriminate].
  destruct (negb _); [intros [= <- <-]; discriminate|].
  intros [= <- <-] _.
  assert (Hgone : forall p, In p (projects (ManageProjects.projects_delete s projectId)) ->
                            p_id p <> projectId).
  { intros p Hin. simpl in Hin. apply filter_In in Hin. destruct Hin as [_ Hne].
    apply negb_true_iff, N.eqb_neq in Hne. assumption. }
  split; [exact Hgone|]. split.
  - intros actor. unfold ManageProjects.handleGetProjects.
    destruct (filter (fun p => (p_id p =? projectId)%N) _) as [|q rest] eqn:Hf.
    + reflexivity.
    + exfalso.
      assert (Hin : In q (q :: rest)) by (left; reflexivity).
      rewrite <- Hf in Hin. apply filter_In in Hin. destruct Hin as [Hin Hid].
      rewrite In_order_created_at_desc in Hin. apply filter_In in Hin.
      destruct Hin as [Hin _]. apply N.eqb_eq in Hid. apply (Hgone q Hin Hid).
  - intros actor p Hin. apply handleGetProjects_returns in Hin.
    destruct Hin as [_ [Hin _]]. apply Hgone; assumption.
Qed.

(** C7 (failing input).  Alice deletes her project 10, on which Bob
    collaborates.  The row is removed from the table (no row is left to
    carry [deleted_at]), and a later request for project 10 by id is
    answered 500, not 404, for Bob and for Alice. *)
Theorem delete_project_removes_the_row :
  let result := ManageProjects.handleDeleteProject Scenario.shared_project
                  Scenario.alice 10%N in
  fst result = ok (Body_message "Project deleted successfully")
  /\ projects (snd result)
     = [Scenario.project 11%N Scenario.bob 200%Z;
        Scenario.project 12%N Scenario.alice 300%Z]
  /\ ManageProjects.handleGetProjects (snd result) Scenario.bob (Some 10%N)
     = fail 500 "Failed to fetch projects"
  /\ ManageProjects.handleGetProjects (snd result) Scenario.alice (Some 10%N)
     = fail 500 "Failed to fetch projects"
  /\ returned_projects (ManageProjects.handleGetProjects (snd result) Scenario.alice None)
     = [Scenario.project 12%N Scenario.alice 300%Z].
Proof. cbv zeta. repeat split; reflexivity. Qed.

(** ** Accepting an invitation *)

Lemma team_members_users_update (s : Store) (uid : uuid) (patch : users_row -> users_row) :
  team_members (users_update s uid patch) = team_members s
  /\ teams (users_update s uid patch) = teams s
  /\ next_uuid (users_update s uid patch) = next_uuid s.
Proof.
  unfold users_update. destruct (forallb _ _); simpl; auto.
Qed.

(** What a successful [handleAcceptInvitation] has checked and done. *)
Lemma handleAcceptInvitation_success
    (s : Store) (userId : uuid) (inviteToken : string) (now : timestamp)
    (r : Response) (s' : Store) :
  TeamManagement.handleAcceptInvitation s userId inviteToken now = (r, s') ->
  status r = 200%Z ->
  exists invitation team,
    filter (fun tm => opt_string_is (tm_invitation_token tm) inviteToken
                      && member_status_beq (tm_status tm) Status_pending)
           (team_members s) = [invitation]
    /\ (tm_user_id invitation = None \/ tm_user_id invitation = Some userId)
    /\ TeamManagement.team_of s (tm_team_id invitation) = Some team
    /\ (TeamManagement.current_members s (tm_team_id invitation) < t_member_limit team)%Z
    /\ TeamManagement.accept_allowed s invitation userId = true
    /\ team_members s'
       = map (fun tm => if N.eqb (tm_id tm) (tm_id invitation)
                        then TeamManagement.accept_row userId now tm else tm)
             (team_members s)
    /\ teams s' = teams s.
Proof.
  unfold TeamManagement.handleAcceptInvitation, TeamManagement.find_invitation.
  destruct (filter _ (team_members s)) as [|inv [|inv' rest]] eqn:Hf; simpl;
    try (intros [= <- <-]; discriminate).
  destruct (match tm_user_id inv with Some target => negb (target =? userId)%N | None => false end)
    eqn:Htarget; [intros [= <- <-]; discriminate|].
  destruct (TeamManagement.team_of s (tm_team_id inv)) as [team|] eqn:Hteam;
    [|intros [= <- <-]; discriminate].
  destruct (t_member_limit team <=? TeamManagement.current_members s (tm_team_id inv))%Z
    eqn:Hlimit; [intros [= <- <-]; discriminate|].
  destruct (TeamManagement.accept_allowed s inv userId) eqn:Hallowed; simpl;
    [|intros [= <- <-]; discriminate].
  intros [= <- <-] _.
  exists inv, team.
  split; [reflexivity|]. split.
  { destruct (tm_user_id inv) as [target|]; [|left; reflexivity].
    right. apply negb_false_iff, N.eqb_eq in Htarget. congruence. }
  split; [assumption|]. split; [apply Z.leb_gt; assumption|].
  split; [assumption|].
  match goal with
  | |- context [log_activity ?x _] => set (s2 := x)
  end.
  assert (H2 : team_members s2 = map (fun tm => if N.eqb (tm_id tm) (tm_id inv)
                                               then TeamManagement.accept_row userId now tm
                                               else tm) (team_members s)
               /\ teams s2 = teams s).
  { subst s2.
    destruct (data (single _)) as [u|];
      [destruct (u_current_team_id u)|];
      rewrite ?(proj1 (team_members_users_update _ _ _)),
              ?(proj1 (proj2 (team_members_users_update _ _ _)));
      simpl; auto. }
  simpl. exact H2.
Qed.

(** Every failure of [handleAcceptInvitation] leaves the store as it was. *)
Lemma handleAcceptInvitation_failure
    (s : Store) (userId : uuid) (inviteToken : string) (now : timestamp) :
  status (fst (TeamManagement.handleAcceptInvitation s userId inviteToken now)) <> 200%Z ->
  snd (TeamManagement.handleAcceptInvitation s userId inviteToken now) = s.
Proof.
  unfold TeamManagement.handleAcceptInvitation.
  destruct (data (TeamManagement.find_invitation s inviteToken)) as [inv|]; [|reflexivity].
  destruct (error _); [reflexivity|].
  destruct (match tm_user_id inv with Some _ => _ | None => _ end); [reflexivity|].
  destruct (TeamManagement.team_of s (tm_team_id inv)) as [team|]; [|reflexivity].
  destruct (_ <=? _)%Z; [reflexivity|].
  destruct (negb _); [reflexivity|].
  simpl. intros H. exfalso. apply H. reflexivity.
Qed.

Lemma active_members_le_current (s : Store) (tid : uuid) :
  (TeamManagement.active_members s tid <= TeamManagement.current_members s tid)%Z.
Proof.
  unfold TeamManagement.active_members, TeamManagement.current_members.
  apply Nat2Z.inj_le.
  induction (team_members s) as [|tm rest IH]; simpl; [lia|].
  destruct (tm_team_id tm =? tid)%N; simpl; [|assumption].
  destruct (member_status_beq (tm_status tm) Status_active); simpl; lia.
Qed.

Lemma filter_nothing (A : Type) (f : A -> bool) (l : list A) :
  (forall x, In x l -> f x = false) -> filter f l = [].
Proof.
  induction l as [|x rest IH]; intros H; [reflexivity|].
  simpl. rewrite (H x (or_introl eq_refl)).
  apply IH. intros y Hy. apply H. right; assumption.
Qed.

(** C6.  [handleAcceptInvitation] turns a pending membership into an
    active one only if the token selects exactly one pending row, the
    row's target user (when it has one) is the caller, and the number of
    active rows of the team is below the team's [member_limit]; a call
    that does not succeed leaves the store, and so the pending row, as it
    was.  (The handler's own count takes every row of the team, which is
    at least the number of active ones.) *)
Theorem accept_invitation_guards
    (s : Store) (userId : uuid) (inviteToken : string) (now : timestamp)
    (r : Response) (s' : Store) :
  TeamManagement.handleAcceptInvitation s userId inviteToken now = (r, s') ->
  (status r = 200%Z ->
   exists invitation team,
     filter (fun tm => opt_string_is (tm_invitation_token tm) inviteToken
                       && member_status_beq (tm_status tm) Status_pending)
            (team_members s) = [invitation]
     /\ (forall target, tm_user_id invitation = Some target -> target = userId)
     /\ TeamManagement.team_of s (tm_team_id invitation) = Some team
     /\ (TeamManagement.active_members s (tm_team_id invitation) < t_member_limit team)%Z
     /\ In (TeamManagement.accept_row userId now invitation) (team_members s'))
  /\ (status r <> 200%Z -> s' = s).
Proof.
  intros Hcall. split.
  - intros Hok.
    destruct (handleAcceptInvitation_success _ _ _ _ Hcall Hok)
      as [inv [team [Hf [Htarget [Hteam [Hcount [_ [Hrows _]]]]]]]].
    exists inv, team. split; [assumption|]. split.
    { intros target Ht. destruct Htarget as [Hn | Hs]; congruence. }
    split; [assumption|]. split.
    { pose proof (active_members_le_current s (tm_team_id inv)). lia. }
    rewrite Hrows. apply in_map_iff. exists inv. split.
    + rewrite N.eqb_refl. reflexivity.
    + assert (Hin : In inv [inv]) by (left; reflexivity).
      rewrite <- Hf in Hin. apply filter_In in Hin. tauto.
  - intros Hfail.
    pose proof (handleAcceptInvitation_failure s userId inviteToken now) as H.
    rewrite Hcall in H. simpl in H. apply H; assumption.
Qed.

Lemma accept_invitation_guards_witness :
  exists invitation team,
    filter (fun tm => opt_string_is (tm_invitation_token tm) "tok-bob"
                      && member_status_beq (tm_status tm) Status_pending)
           (team_members TeamScenario.acme_invited) = [invitation]
    /\ (forall target, tm_user_id invitation = Some target -> target = Scenario.bob)
    /\ TeamManagement.team_of TeamScenario.acme_invited (tm_team_id invitation) = Some team
    /\ (TeamManagement.active_members TeamScenario.acme_invited (tm_team_id invitation)
        < t_member_limit team)%Z
    /\ In (TeamManagement.accept_row Scenario.bob 2000%Z invitation)
          (team_members
             (snd (TeamManagement.handleAcceptInvitation TeamScenario.acme_invited
                     Scenario.bob "tok-bob" 2000%Z))).
Proof.
  apply (@accept_invitation_guards TeamScenario.acme_invited Scenario.bob "tok-bob" 2000%Z
           (fst (TeamManagement.handleAcceptInvitation TeamScenario.acme_invited
                   Scenario.bob "tok-bob" 2000%Z))
           (snd (TeamManagement.handleAcceptInvitation TeamScenario.acme_invited
                   Scenario.bob "tok-bob" 2000%Z))).
  - vm_compute. reflexivity.
  - vm_compute. reflexivity.
Defined.

(** C5.  Once [handleAcceptInvitation] has succeeded with a token, no
    pending row carries that token any more, and a second call with the
    same token, by any user, is answered 404 "Invalid or expired
    invitation" and changes nothing. *)
Theorem accept_invitation_single_use
    (s : Store) (userId : uuid) (inviteToken : string) (now : timestamp)
    (r : Response) (s' : Store) :
  TeamManagement.handleAcceptInvitation s userId inviteToken now = (r, s') ->
  status r = 200%Z ->
  (forall tm, In tm (team_members s') -> tm_status tm = Status_pending ->
              tm_invitation_token tm <> Some inviteToken)
  /\ (forall userId2 now2,
        TeamManagement.handleAcceptInvitation s' userId2 inviteToken now2
        = (fail 404 "Invalid or expired invitation", s')).
Proof.
  intros Hcall Hok.
  destruct (handleAcceptInvitation_success _ _ _ _ Hcall Hok)
    as [inv [team [Hf [_ [_ [_ [_ [Hrows _]]]]]]]].
  assert (Hnone : forall tm, In tm (team_members s') ->
                    opt_string_is (tm_invitation_token tm) inviteToken
                    && member_status_beq (tm_status tm) Status_pending = false).
  { intros tm Hin. rewrite Hrows in Hin. apply in_map_iff in Hin.
    destruct Hin as [old [Hnew Hold]].
    destruct (tm_id old =? tm_id inv)%N eqn:Hid.
    - subst tm. reflexivity.
    - subst tm.
      destruct (opt_string_is (tm_invitation_token old) inviteToken
                && member_status_beq (tm_status old) Status_pending) eqn:Hp; [|reflexivity].
      assert (Hin : In old [inv]).
      { rewrite <- Hf. apply filter_In. split; assumption. }
      destruct Hin as [<- | []]. rewrite N.eqb_refl in Hid. discriminate. }
  split.
  - intros tm Hin Hpending Htoken.
    specialize (Hnone tm Hin). rewrite Htoken, Hpending in Hnone.
    simpl in Hnone. rewrite String.eqb_refl in Hnone. discriminate.
  - intros userId2 now2.
    unfold TeamManagement.handleAcceptInvitation, TeamManagement.find_invitation.
    assert (Hempty : filter (fun tm => opt_string_is (tm_invitation_token tm) inviteToken
                                       && member_status_beq (tm_status tm) Status_pending)
                            (team_members s') = []).
    { apply filter_nothing. exact Hnone. }
    rewrite Hempty. reflexivity.
Qed.

Lemma accept_invitation_single_use_witness :
  (forall tm,
      In tm (team_members (snd (TeamManagement.handleAcceptInvitation
                                  TeamScenario.acme_invited Scenario.bob "tok-bob" 2000%Z))) ->
      tm_status tm = Status_pending -> tm_invitation_token tm <> Some "tok-bob"%string)
  /\ (forall userId2 now2,
        TeamManagement.handleAcceptInvitation
          (snd (TeamManagement.handleAcceptInvitation
                  TeamScenario.acme_invited Scenario.bob "tok-bob" 2000%Z))
          userId2 "tok-bob" now2
        = (fail 404 "Invalid or expired invitation",
           snd (TeamManagement.handleAcceptInvitation
                  TeamScenario.acme_invited Scenario.bob "tok-bob" 2000%Z))).
Proof.
  apply (@accept_invitation_single_use TeamScenario.acme_invited Scenario.bob "tok-bob" 2000%Z
           (fst (TeamManagement.handleAcceptInvitation TeamScenario.acme_invited
                   Scenario.bob "tok-bob" 2000%Z))).
  - vm_compute. reflexivity.
  - vm_compute. reflexivity.
Defined.

(** ** The generation quota *)

Lemma serve_at_the_limit
    (openAIApiKey : option string)
    (build_prompt : GenerateScaffold.GenerateScaffoldRequest -> option templates_row -> string)
    (openai_chat_completions : string -> option string)
    (JSON_parse : string -> option json)
    (w : GenerateScaffold.World) (req : GenerateScaffold.Request)
    (uid : uuid) (userData : users_row) (limit : Z) :
  GenerateScaffold.authorization req = Some (Some uid) ->
  filter (fun u => N.eqb (u_id u) uid) (users (GenerateScaffold.db w)) = [userData] ->
  GenerateScaffold.limits (u_subscription_tier userData) = Some limit ->
  limit <> (-1)%Z ->
  (limit <= u_monthly_generations userData)%Z ->
  GenerateScaffold.serve openAIApiKey build_prompt openai_chat_completions JSON_parse w req
  = ({| status := 429;
        body := Body_quota "Monthly generation limit reached" limit
                           (u_monthly_generations userData) |}, w).
Proof.
  intros Hauth Hrow Hlimit Hsentinel Hreached.
  unfold GenerateScaffold.serve, GenerateScaffold.load_user.
  rewrite Hauth, Hrow. simpl.
  unfold GenerateScaffold.finish. rewrite Hlimit.
  unfold GenerateScaffold.limit_reached.
  apply Z.eqb_neq in Hsentinel. rewrite Hsentinel.
  apply Z.leb_le in Hreached. rewrite Hreached.
  reflexivity.
Qed.

(** C3.  When the user's monthly generation count has reached the limit
    that [limits] gives for the user's tier (and that limit is not the
    sentinel -1), [serve] answers 429 with that limit and the current
    count, and the world is unchanged: no request went to the generator,
    no project row was inserted, no counter was written. *)
Theorem quota_reached_is_refused
    (openAIApiKey : option string)
    (build_prompt : GenerateScaffold.GenerateScaffoldRequest -> option templates_row -> string)
    (openai_chat_completions : string -> option string)
    (JSON_parse : string -> option json)
    (w : GenerateScaffold.World) (req : GenerateScaffold.Request)
    (uid : uuid) (userData : users_row) (limit : Z) :
  GenerateScaffold.authorization req = Some (Some uid) ->
  filter (fun u => N.eqb (u_id u) uid) (users (GenerateScaffold.db w)) = [userData] ->
  GenerateScaffold.limits (u_subscription_tier userData) = Some limit ->
  limit <> (-1)%Z ->
  (limit <= u_monthly_generations userData)%Z ->
  let answer := GenerateScaffold.serve openAIApiKey build_prompt openai_chat_completions
                  JSON_parse w req in
  fst answer = {| status := 429;
                  body := Body_quota "Monthly generation limit reached" limit
                                     (u_monthly_generations userData) |}
  /\ GenerateScaffold.openai_calls (snd answer) = GenerateScaffold.openai_calls w
  /\ projects (GenerateScaffold.db (snd answer)) = projects (GenerateScaffold.db w)
  /\ users (GenerateScaffold.db (snd answer)) = users (GenerateScaffold.db w)
  /\ snd answer = w.
Proof.
  intros Hauth Hrow Hlimit Hsentinel Hreached. cbv zeta.
  rewrite (serve_at_the_limit openAIApiKey build_prompt openai_chat_completions JSON_parse
             w req Hauth Hrow Hlimit Hsentinel Hreached).
  simpl. repeat split; reflexivity.
Qed.

Lemma quota_reached_is_refused_witness :
  let answer := GenerateScaffold.serve GenScenario.api_key GenScenario.prompt_of
                  GenScenario.generator GenScenario.parse (GenScenario.world_with 3%Z)
                  (GenScenario.request_of Scenario.bob) in
  fst answer = {| status := 429;
                  body := Body_quota "Monthly generation limit reached" 3%Z 3%Z |}
  /\ GenerateScaffold.openai_calls (snd answer) = []
  /\ projects (GenerateScaffold.db (snd answer)) = []
  /\ users (GenerateScaffold.db (snd answer))
     = [Scenario.user Scenario.bob "bob@x.com" Tier_free 3%Z]
  /\ snd answer = GenScenario.world_with 3%Z.
Proof.
  apply (@quota_reached_is_refused GenScenario.api_key GenScenario.prompt_of
           GenScenario.generator GenScenario.parse (GenScenario.world_with 3%Z)
           (GenScenario.request_of Scenario.bob) Scenario.bob
           (Scenario.user Scenario.bob "bob@x.com" Tier_free 3%Z) 3%Z).
  - reflexivity.
  - reflexivity.
  - reflexivity.
  - discriminate.
  - vm_compute. discriminate.
Defined.

(** ** Requests one after the other, and requests in flight together *)








(** Two scheduling steps of one request, with nothing in between, are
    [serve]. *)
Lemma step_twice_is_serve
    (openAIApiKey : option string)
    (build_prompt : GenerateScaffold.GenerateScaffoldRequest -> option templates_row -> string)
    (openai_chat_completions : string -> option string)
    (JSON_parse : string -> option json)
    (w : GenerateScaffold.World) (req : GenerateScaffold.Request) :
  let first := GenerateScaffold.step openAIApiKey build_prompt openai_chat_completions
                 JSON_parse w (GenerateScaffold.Waiting req) in
  GenerateScaffold.step openAIApiKey build_prompt openai_chat_completions JSON_parse
    (snd first) (fst first)
  = (GenerateScaffold.Replied
       (fst (GenerateScaffold.serve openAIApiKey build_prompt openai_chat_completions
               JSON_parse w req)),
     snd (GenerateScaffold.serve openAIApiKey build_prompt openai_chat_completions
            JSON_parse w req)).
Proof.
  cbv zeta. unfold GenerateScaffold.serve. simpl.
  destruct (GenerateScaffold.load_user w req) as [r | uid userData]; simpl.
  - reflexivity.
  - destruct (GenerateScaffold.finish _ _ _ _ w req uid userData). reflexivity.
Qed.




(** The hypothesis on the trigger is needed.  Bob has one generation
    left, and his current team is one in which his membership is
    suspended: the trigger rejects every update of his row, the handler
    does not look at the error, and four requests served one after the
    other are all answered 200 while his counter stays at 2. *)
Example suspended_member_is_never_refused :
  let served := GenerateScaffold.serve_all GenScenario.api_key GenScenario.prompt_of
                  GenScenario.generator GenScenario.parse
                  GenScenario.world_with_suspended_member
                  (repeat (GenScenario.request_of Scenario.bob) 4) in
  map status (fst served) = [200%Z; 200%Z; 200%Z; 200%Z]
  /\ map u_monthly_generations (users (GenerateScaffold.db (snd served))) = [2%Z]
  /\ List.length (projects (GenerateScaffold.db (snd served))) = 4%nat.
Proof. cbv zeta. repeat split; vm_compute; reflexivity. Qed.

(** ** One active owner per team *)

Lemma role_is_true (r : option member_role) (x : member_role) :
  role_is r x = true <-> r = Some x.
Proof.
  destruct r as [a|]; simpl; [rewrite member_role_beq_eq|]; split; congruence.
Qed.

Lemma store_ok_invariant (s : Store) : store_ok s = true <-> team_invariant s.
Proof.
  unfold store_ok. rewrite !andb_true_iff, !forallb_forall. split.
  - intros [[[H1 H2] H3] H4]. constructor.
    + intros t Ht. apply N.ltb_lt. apply H1; assumption.
    + intros tm Htm. specialize (H2 tm Htm).
      unfold TeamManagement.team_exists in H2. apply existsb_exists in H2.
      destruct H2 as [t [Ht Hid]]. apply N.eqb_eq in Hid. exists t. split; assumption.
    + intros tm Htm Hrole. specialize (H3 tm Htm). rewrite Hrole in H3. simpl in H3.
      apply member_status_beq_eq; assumption.
    + intros t Ht. apply Nat.eqb_eq. apply H4; assumption.
  - intros [H1 H2 H3 H4]. repeat split.
    + intros t Ht. apply N.ltb_lt. apply H1; assumption.
    + intros tm Htm. destruct (H2 tm Htm) as [t [Ht Hid]].
      unfold TeamManagement.team_exists. apply existsb_exists.
      exists t. split; [assumption | apply N.eqb_eq; assumption].
    + intros tm Htm. destruct (role_is (tm_role tm) Role_owner) eqn:Hrole; [|reflexivity].
      simpl. apply member_status_beq_eq. apply H3; [assumption|].
      apply role_is_true; assumption.
    + intros t Ht. apply Nat.eqb_eq. apply H4; assumption.
Qed.

Lemma active_owners_app (s s' : Store) (row : team_members_row) (tid : uuid) :
  team_members s' = team_members s ++ [row] ->
  TeamManagement.active_owners s' tid
  = (TeamManagement.active_owners s tid
     + if N.eqb (tm_team_id row) tid
          && role_is (tm_role row) Role_owner
          && member_status_beq (tm_status row) Status_active
       then 1 else 0)%nat.
Proof.
  intros H. unfold TeamManagement.active_owners. rewrite H, filter_app, length_app.
  simpl. destruct (_ && _ && _); reflexivity.
Qed.

Lemma active_owners_same (s s' : Store) (tid : uuid) :
  team_members s' = team_members s ->
  TeamManagement.active_owners s' tid = TeamManagement.active_owners s tid.
Proof. intros H. unfold TeamManagement.active_owners. rewrite H. reflexivity. Qed.

Lemma length_filter_map (A : Type) (P : A -> bool) (f : A -> A) (l : list A) :
  (forall x, In x l -> P (f x) = P x) ->
  List.length (filter P (map f l)) = List.length (filter P l).
Proof.
  induction l as [|x rest IH]; intros H; [reflexivity|].
  simpl. rewrite (H x (or_introl eq_refl)).
  destruct (P x); simpl; rewrite IH; auto; intros y Hy; apply H; right; assumption.
Qed.

(** Each effect keeps the invariant. *)
Lemma team_effect_keeps_invariant (s s' : Store) :
  team_invariant s -> team_effect s s' -> team_invariant s'.
Proof.
  intros [Hids Hteam Hactive Hone] [Ht Hm Hn | team owner Hid Hoteam Hrole Hstatus Ht Hm Hn
                                    | row Hrole [t0 [Ht0 Hid0]] Ht Hm Hn | f Hf Ht Hm Hn].
  - constructor; rewrite ?Ht, ?Hm, ?Hn; try assumption.
    intros t Hin. rewrite (active_owners_same s s' _ Hm). apply Hone; assumption.
  - assert (Hnone : TeamManagement.active_owners s (next_uuid s) = 0%nat).
    { unfold TeamManagement.active_owners.
      rewrite (@filter_nothing _ _ (team_members s)); [reflexivity|].
      intros tm Htm. destruct (Hteam tm Htm) as [t [Hin Heq]].
      specialize (Hids t Hin).
      replace (tm_team_id tm =? next_uuid s)%N with false; [reflexivity|].
      symmetry. apply N.eqb_neq. lia. }
    constructor.
    + intros t Hin. rewrite Ht in Hin. rewrite Hn. apply in_app_or in Hin.
      destruct Hin as [Hin | [<- | []]]; [specialize (Hids t Hin)|]; lia.
    + intros tm Hin. rewrite Hm in Hin. rewrite Ht. apply in_app_or in Hin.
      destruct Hin as [Hin | [<- | []]].
      * destruct (Hteam tm Hin) as [t [Hin' Heq]]. exists t. split; [|assumption].
        apply in_or_app; left; assumption.
      * exists team. split; [apply in_or_app; right; left; reflexivity | congruence].
    + intros tm Hin. rewrite Hm in Hin. apply in_app_or in Hin.
      destruct Hin as [Hin | [<- | []]]; [apply Hactive; assumption | intros _; assumption].
    + intros t Hin. rewrite Ht in Hin. rewrite (active_owners_app s s' owner _ Hm).
      rewrite Hoteam, Hrole, Hstatus. simpl. apply in_app_or in Hin.
      destruct Hin as [Hin | [<- | []]].
      * specialize (Hids t Hin).
        replace (next_uuid s =? t_id t)%N with false by (symmetry; apply N.eqb_neq; lia).
        simpl. rewrite (Hone t Hin). reflexivity.
      * rewrite Hid, N.eqb_refl, Hnone. reflexivity.
  - constructor.
    + intros t Hin. rewrite Ht in Hin. rewrite Hn. specialize (Hids t Hin). lia.
    + intros tm Hin. rewrite Hm in Hin. rewrite Ht. apply in_app_or in Hin.
      destruct Hin as [Hin | [<- | []]]; [apply Hteam; assumption|].
      exists t0. split; assumption.
    + intros tm Hin. rewrite Hm in Hin. apply in_app_or in Hin.
      destruct Hin as [Hin | [<- | []]]; [apply Hactive; assumption|].
      intros Hr. contradiction.
    + intros t Hin. rewrite Ht in Hin. rewrite (active_owners_app s s' row _ Hm).
      replace (role_is (tm_role row) Role_owner) with false.
      * rewrite andb_false_r. simpl. rewrite (Hone t Hin). reflexivity.
      * symmetry. destruct (role_is (tm_role row) Role_owner) eqn:Hb; [|reflexivity].
        apply role_is_true in Hb. contradiction.
  - constructor.
    + intros t Hin. rewrite Ht in Hin. rewrite Hn. apply Hids; assumption.
    + intros tm Hin. rewrite Hm in Hin. rewrite Ht. apply in_map_iff in Hin.
      destruct Hin as [old [<- Hold]]. destruct (Hf old) as [Hteam' _].
      rewrite Hteam'. apply Hteam; assumption.
    + intros tm Hin. rewrite Hm in Hin. apply in_map_iff in Hin.
      destruct Hin as [old [<- Hold]]. destruct (Hf old) as [_ [Hrole' [Hsame | Hact]]].
      * rewrite Hsame. apply Hactive; assumption.
      * intros _. assumption.
    + intros t Hin. rewrite Ht in Hin. unfold TeamManagement.active_owners.
      rewrite Hm, length_filter_map; [apply Hone; assumption|].
      intros old Hold. destruct (Hf old) as [Hteam' [Hrole' [Hsame | Hact]]].
      * rewrite Hsame. reflexivity.
      * rewrite Hteam', Hrole', Hact.
        destruct (role_is (tm_role old) Role_owner) eqn:Hb.
        -- apply role_is_true in Hb. rewrite (Hactive old Hold Hb). reflexivity.
        -- rewrite !andb_false_r. reflexivity.
Qed.

Lemma update_then_log
    (s : Store) (uid : uuid) (patch : users_row -> users_row) (row : activity_logs_row) :
  team_members (log_activity (users_update s uid patch) row) = team_members s
  /\ teams (log_activity (users_update s uid patch) row) = teams s
  /\ next_uuid (log_activity (users_update s uid patch) row) = next_uuid s.
Proof.
  unfold log_activity. cbn [team_members teams next_uuid].
  apply team_members_users_update.
Qed.

Lemma teams_insert_spec
    (s : Store) (name slug : string) (description : option string)
    (tier_label : string) (created_by : uuid) (team : teams_row) (s1 : Store) :
  TeamManagement.teams_insert s name slug description tier_label created_by = Some (team, s1) ->
  t_id team = next_uuid s /\ teams s1 = teams s ++ [team]
  /\ team_members s1 = team_members s /\ users s1 = users s
  /\ next_uuid s1 = N.succ (next_uuid s)
  /\ TeamManagement.user_exists s created_by = true.
Proof.
  unfold TeamManagement.teams_insert.
  destruct (TeamManagement.tier_of_string tier_label); [|discriminate].
  destruct (TeamManagement.valid_slug slug); [|discriminate].
  destruct (negb _); [|discriminate].
  destruct (TeamManagement.user_exists s created_by) eqn:Hu; [|discriminate].
  simpl. intros [= <- <-]. simpl. repeat split; reflexivity.
Qed.

Lemma team_members_insert_spec
    (s : Store) (team_id : uuid) (user_id : option uuid) (role : option member_role)
    (st : member_status) (token : option string) (invited_by : option uuid)
    (accepted_at : option timestamp) (row : team_members_row) (s1 : Store) :
  TeamManagement.team_members_insert s team_id user_id role st token invited_by accepted_at
  = Some (row, s1) ->
  tm_team_id row = team_id /\ tm_role row = role /\ tm_status row = st
  /\ teams s1 = teams s /\ team_members s1 = team_members s ++ [row]
  /\ next_uuid s1 = N.succ (next_uuid s)
  /\ TeamManagement.team_exists s team_id = true.
Proof.
  unfold TeamManagement.team_members_insert.
  destruct user_id as [uid|]; [|discriminate].
  destruct (TeamManagement.team_exists s team_id) eqn:Ht; [|discriminate].
  destruct (_ && _ && _ && _ && _); [|discriminate].
  intros [= <- <-]. simpl. repeat split; reflexivity.
Qed.

(** The owner row of a team that has just been inserted is accepted. *)
Lemma owner_insert_succeeds
    (s s1 : Store) (team : teams_row) (userId : uuid) (now : timestamp) :
  team_invariant s ->
  t_id team = next_uuid s -> teams s1 = teams s ++ [team] ->
  team_members s1 = team_members s -> users s1 = users s ->
  TeamManagement.user_exists s userId = true ->
  TeamManagement.team_members_insert s1 (t_id team) (Some userId) (Some Role_owner)
    Status_active None None (Some now) <> None.
Proof.
  intros Hinv Hid Hteams Hmembers Husers Huser.
  unfold TeamManagement.team_members_insert.
  assert (H1 : TeamManagement.team_exists s1 (t_id team) = true).
  { unfold TeamManagement.team_exists. rewrite Hteams, existsb_app. simpl.
    rewrite N.eqb_refl. apply orb_true_iff. right. reflexivity. }
  assert (H2 : TeamManagement.user_exists s1 userId = true).
  { unfold TeamManagement.user_exists in *. rewrite Husers. assumption. }
  assert (H3 : existsb (fun tm => N.eqb (tm_team_id tm) (t_id team)
                                  && opt_uuid_is (tm_user_id tm) userId)
                       (team_members s1) = false).
  { rewrite Hmembers. apply not_true_is_false. intros Hex.
    apply existsb_exists in Hex. destruct Hex as [tm [Htm Hm]].
    apply andb_true_iff in Hm. destruct Hm as [Hm _]. apply N.eqb_eq in Hm.
    destruct (inv_team Hinv tm Htm) as [t [Hin Heq]].
    pose proof (inv_ids Hinv t Hin). lia. }
  rewrite H1, H2, H3. simpl. discriminate.
Qed.

Lemma handleCreateTeam_effect
    (s : Store) (userId : uuid) (teamData : TeamManagement.TeamCreateRequest)
    (userTier : option subscription_tier) (now : timestamp) :
  team_invariant s ->
  team_effect s (snd (TeamManagement.handleCreateTeam s userId teamData userTier now)).
Proof.
  intros Hinv. unfold TeamManagement.handleCreateTeam.
  destruct (negb (match userTier with Some _ => _ | None => _ end));
    [apply Effect_none; reflexivity|].
  destruct (negb _ || _); [apply Effect_none; reflexivity|].
  destruct (TeamManagement.slug_loop _ _ _ _) as [slug|];
    [|apply Effect_none; reflexivity].
  destruct (TeamManagement.teams_insert _ _ _ _ _ _) as [[team s1]|] eqn:Hteam;
    [|apply Effect_none; reflexivity].
  apply teams_insert_spec in Hteam.
  destruct Hteam as [Hid [Hteams [Hmembers [Husers [Hnext Huser]]]]].
  destruct (TeamManagement.team_members_insert s1 (t_id team) (Some userId)
              (Some Role_owner) Status_active None None (Some now))
    as [[owner s2]|] eqn:Hown.
  - apply team_members_insert_spec in Hown.
    destruct Hown as [Hoteam [Hrole [Hstatus [Hteams2 [Hmembers2 [Hnext2 _]]]]]].
    cbn [snd].
    destruct (update_then_log s2 userId
                (TeamManagement.set_current_team (t_id team) true)
                {| al_user_id := Some userId; al_team_id := Some (t_id team);
                   al_action := "team_created"; al_resource_type := "team";
                   al_resource_id := Some (t_id team) |}) as [Hm4 [Ht4 Hn4]].
    apply (@Effect_created s _ team owner); try assumption; congruence.
  - exfalso. revert Hown.
    apply (@owner_insert_succeeds s s1 team userId now); assumption.
Qed.

Lemma handleInviteMember_effect
    (s : Store) (userId teamId : uuid) (inviteData : TeamManagement.TeamInviteRequest)
    (inviteToken : string) :
  TeamManagement.role_column (TeamManagement.ti_role inviteData) <> Some (Some Role_owner) ->
  team_effect s (snd (TeamManagement.handleInviteMember s userId teamId inviteData inviteToken)).
Proof.
  intros Hnot. unfold TeamManagement.handleInviteMember.
  destruct (negb (TeamManagement.is_team_admin _)); [apply Effect_none; reflexivity|].
  destruct (negb (Js.emailRegex_test _)); [apply Effect_none; reflexivity|].
  destruct (match data (single _) with Some u => _ | None => None end);
    [apply Effect_none; reflexivity|].
  destruct (TeamManagement.role_column (TeamManagement.ti_role inviteData))
    as [role|] eqn:Hcol; [|apply Effect_none; reflexivity].
  destruct (TeamManagement.team_members_insert _ _ _ _ _ _ _ _) as [[row s1]|] eqn:Hins;
    [|apply Effect_none; reflexivity].
  apply team_members_insert_spec in Hins.
  destruct Hins as [Hteam [Hrole [Hstatus [Hteams [Hmembers [Hnext Hexists]]]]]].
  simpl. apply (@Effect_invited s _ row); try assumption.
  - rewrite Hrole. intros Howner. apply Hnot. rewrite Howner. reflexivity.
  - unfold TeamManagement.team_exists in Hexists. apply existsb_exists in Hexists.
    destruct Hexists as [t [Hin Hid]]. apply N.eqb_eq in Hid.
    exists t. split; [assumption | congruence].
Qed.

Lemma handleAcceptInvitation_effect
    (s : Store) (userId : uuid) (inviteToken : string) (now : timestamp) :
  team_effect s (snd (TeamManagement.handleAcceptInvitation s userId inviteToken now)).
Proof.
  unfold TeamManagement.handleAcceptInvitation.
  destruct (data (TeamManagement.find_invitation s inviteToken)) as [inv|];
    [|apply Effect_none; reflexivity].
  destruct (error _); [apply Effect_none; reflexivity|].
  destruct (match tm_user_id inv with Some _ => _ | None => _ end);
    [apply Effect_none; reflexivity|].
  destruct (TeamManagement.team_of s (tm_team_id inv)) as [team|];
    [|apply Effect_none; reflexivity].
  destruct (_ <=? _)%Z; [apply Effect_none; reflexivity|].
  destruct (negb _); [apply Effect_none; reflexivity|].
  simpl.
  apply (@Effect_accepted s _
           (fun tm => if N.eqb (tm_id tm) (tm_id inv)
                      then TeamManagement.accept_row userId now tm else tm)).
  - intros r. destruct (tm_id r =? tm_id inv)%N; simpl; auto.
  - destruct (data (single _)) as [u|]; [destruct (u_current_team_id u)|];
      unfold log_activity; cbn [teams];
      rewrite ?(proj1 (proj2 (team_members_users_update _ _ _))); reflexivity.
  - destruct (data (single _)) as [u|]; [destruct (u_current_team_id u)|];
      unfold log_activity; cbn [team_members];
      rewrite ?(proj1 (team_members_users_update _ _ _)); reflexivity.
  - destruct (data (single _)) as [u|]; [destruct (u_current_team_id u)|];
      unfold log_activity; cbn [next_uuid];
      rewrite ?(proj2 (proj2 (team_members_users_update _ _ _))); reflexivity.
Qed.

Lemma serve_effect
    (UpdateData : Type)
    (team_members_update : Store -> uuid -> UpdateData -> option (team_members_row * Store))
    (s : Store) (req : TeamManagement.Request UpdateData) :
  team_invariant s -> no_owner_grant req = true ->
  team_effect s (snd (TeamManagement.serve team_members_update s req)).
Proof.
  intros Hinv Hroute. unfold TeamManagement.serve.
  destruct (TeamManagement.authorization req) as [[uid|]|];
    [|apply Effect_none; reflexivity|apply Effect_none; reflexivity].
  destruct (data (single _)) as [u|]; [|apply Effect_none; reflexivity].
  destruct (negb (u_is_active u)); [apply Effect_none; reflexivity|].
  unfold no_owner_grant in Hroute.
  destruct (TeamManagement.req_route req) as [teamData | teamId inviteData inviteToken
                                              | inviteToken | teamId memberId updateData
                                              | teamId memberId].
  - apply handleCreateTeam_effect; assumption.
  - apply handleInviteMember_effect. intros Hcol. rewrite Hcol in Hroute. discriminate.
  - destruct (negb (Js.truthy inviteToken)); [apply Effect_none; reflexivity|].
    apply handleAcceptInvitation_effect.
  - discriminate.
  - apply Effect_none; reflexivity.
Qed.

Lemma serve_all_keeps_invariant
    (UpdateData : Type)
    (team_members_update : Store -> uuid -> UpdateData -> option (team_members_row * Store))
    (reqs : list (TeamManagement.Request UpdateData)) (s : Store) :
  team_invariant s -> forallb no_owner_grant reqs = true ->
  team_invariant (TeamManagement.serve_all team_members_update s reqs).
Proof.
  revert s. induction reqs as [|req rest IH]; intros s Hinv Hreqs; [assumption|].
  simpl in Hreqs. apply andb_true_iff in Hreqs. destruct Hreqs as [Hreq Hrest].
  simpl. apply IH; [|assumption].
  apply (team_effect_keeps_invariant Hinv). apply serve_effect; assumption.
Qed.

(** C4 (counterexample).  Alice creates team Acme and invites Bob with
    the role owner, which the handler writes as sent; once Bob accepts,
    the team has two active owners, and no member was updated.  With an
    ordinary invitation the team has one active owner after the
    acceptance; a member update in which Alice sets the role of her own
    membership to member then leaves it with none, and one in which she
    sets Bob's role to owner leaves it with two. *)
Lemma single_owner_is_not_kept :
  let serve_all := TeamManagement.serve_all TeamScenario.update_role in
  let serve := TeamManagement.serve TeamScenario.update_role in
  let granted := serve_all TeamScenario.no_team
                   [OwnerScenario.create_acme; OwnerScenario.invite_bob_as_owner;
                    OwnerScenario.bob_accepts] in
  let created := serve_all TeamScenario.no_team
                   [OwnerScenario.create_acme; OwnerScenario.invite_bob;
                    OwnerScenario.bob_accepts] in
  map t_id (teams granted) = [50%N]
  /\ TeamManagement.active_owners granted 50%N = 2%nat
  /\ map t_id (teams created) = [50%N]
  /\ TeamManagement.active_owners created 50%N = 1%nat
  /\ TeamManagement.active_owners (snd (serve created OwnerScenario.alice_steps_down)) 50%N
     = 0%nat
  /\ TeamManagement.active_owners (snd (serve created OwnerScenario.alice_promotes_bob)) 50%N
     = 2%nat.
Proof. cbv zeta. repeat split; vm_compute; reflexivity. Qed.

(** C4 (amended).  Starting from a store in which every team has exactly
    one active owner, after any sequence of requests that contains no
    member update and no invitation whose role is owner (team creations,
    invitations with another role or none, acceptances, and member
    removals, for which the module has no handler), every team has
    exactly one membership row with role owner and status active.  This
    holds whatever a member update would write. *)
Theorem one_active_owner_without_owner_grant
    (UpdateData : Type)
    (team_members_update : Store -> uuid -> UpdateData -> option (team_members_row * Store))
    (s : Store) (reqs : list (TeamManagement.Request UpdateData)) (t : teams_row) :
  store_ok s = true ->
  forallb no_owner_grant reqs = true ->
  In t (teams (TeamManagement.serve_all team_members_update s reqs)) ->
  TeamManagement.active_owners (TeamManagement.serve_all team_members_update s reqs) (t_id t)
  = 1%nat.
Proof.
  intros Hok Hreqs Hin.
  apply store_ok_invariant in Hok.
  apply (inv_one_owner (serve_all_keeps_invariant team_members_update reqs Hok Hreqs)).
  assumption.
Qed.

Lemma one_active_owner_without_owner_grant_witness :
  TeamManagement.active_owners
    (TeamManagement.serve_all TeamScenario.update_role TeamScenario.no_team
       [OwnerScenario.create_acme; OwnerScenario.invite_bob; OwnerScenario.bob_accepts])
    50%N = 1%nat.
Proof.
  apply (@one_active_owner_without_owner_grant _ TeamScenario.update_role
           TeamScenario.no_team
           [OwnerScenario.create_acme; OwnerScenario.invite_bob; OwnerScenario.bob_accepts]
           {| t_id := 50%N; t_name := "Acme"; t_slug := "acme"; t_description := None;
              t_subscription_tier := Tier_team_monthly; t_member_limit := 5%Z;
              t_is_active := true; t_created_by := Some Scenario.alice |}).
  - reflexivity.
  - reflexivity.
  - vm_compute. left. reflexivity.
Defined.

(** ** The slug loop terminates *)

Lemma string_append_inj (a b c : string) : (a ++ b)%string = (a ++ c)%string -> b = c.
Proof.
  induction a as [|ch a IH]; simpl; intros H; [assumption|].
  injection H as H. apply IH; assumption.
Qed.

Lemma string_length_append (a b : string) :
  String.length (a ++ b) = (String.length a + String.length b)%nat.
Proof. induction a as [|ch a IH]; simpl; [reflexivity | rewrite IH; reflexivity]. Qed.

Lemma decimal_inj (i j : nat) : Js.decimal i = Js.decimal j -> i = j.
Proof.
  unfold Js.decimal. intros H.
  apply Unsigned.to_uint_inj.
  assert (Hs : Some (Nat.to_uint i) = Some (Nat.to_uint j)).
  { rewrite <- (NilEmpty.usu (Nat.to_uint i)), <- (NilEmpty.usu (Nat.to_uint j)), H.
    reflexivity. }
  injection Hs as Hs. assumption.
Qed.

Lemma testSlug_inj (slug : string) : Injective (TeamManagement.testSlug slug).
Proof.
  intros i j. unfold TeamManagement.testSlug.
  assert (Hpos : forall n, (0 <? S n)%nat = true) by reflexivity.
  destruct i as [|i], j as [|j]; rewrite ?Hpos;
    change (0 <? 0)%nat with false; cbv iota; intros H.
  - reflexivity.
  - exfalso. apply (f_equal String.length) in H.
    rewrite !string_length_append in H. simpl in H. lia.
  - exfalso. apply (f_equal String.length) in H.
    rewrite !string_length_append in H. simpl in H. lia.
  - apply string_append_inj in H. apply (string_append_inj "-") in H.
    apply decimal_inj; assumption.
Qed.

(** When the loop runs out of lookups, every candidate it tried is the
    slug of a stored team. *)
Lemma slug_loop_exhausted (s : Store) (slug : string) (fuel counter : nat) :
  TeamManagement.slug_loop fuel s slug counter = None ->
  forall i, (i < fuel)%nat ->
            In (TeamManagement.testSlug slug (counter + i)) (map t_slug (teams s)).
Proof.
  revert counter. induction fuel as [|fuel IH]; intros counter Hnone i Hi; [lia|].
  simpl in Hnone.
  destruct (filter (fun t => String.eqb (t_slug t) (TeamManagement.testSlug slug counter))
                   (teams s)) as [|t [|t' rest]] eqn:Hf; simpl in Hnone; try discriminate.
  destruct i as [|i].
  - rewrite Nat.add_0_r.
    assert (Hin : In t (filter (fun t => String.eqb (t_slug t)
                                           (TeamManagement.testSlug slug counter)) (teams s)))
      by (rewrite Hf; left; reflexivity).
    apply filter_In in Hin. destruct Hin as [Hin Heq]. apply String.eqb_eq in Heq.
    rewrite <- Heq. apply in_map. assumption.
  - replace (counter + S i)%nat with (S counter + i)%nat by lia.
    apply IH; [assumption | lia].
Qed.

(** With one lookup more than there are teams the loop finds a slug. *)
Lemma slug_loop_terminates (s : Store) (slug : string) :
  TeamManagement.slug_loop (S (List.length (teams s))) s slug 0 <> None.
Proof.
  intros Hnone.
  pose proof (@slug_loop_exhausted s slug _ _ Hnone) as Hall.
  assert (Hincl : incl (map (TeamManagement.testSlug slug) (seq 0 (S (List.length (teams s)))))
                       (map t_slug (teams s))).
  { intros x Hx. apply in_map_iff in Hx. destruct Hx as [i [<- Hi]].
    apply in_seq in Hi. apply (Hall i). lia. }
  apply NoDup_incl_length in Hincl.
  - rewrite !length_map, length_seq in Hincl. lia.
  - apply Injective_map_NoDup; [apply testSlug_inj | apply seq_NoDup].
Qed.

(** ** The handlers on the specification's scenarios *)

(** Alice creates team "Acme" (slug [acme]) and invites Bob as a member;
    Bob accepts with the token: he is an active member, and his
    [current_team_id], which was null, is the team's id. *)
Example create_invite_accept :
  let s := TeamManagement.serve_all TeamScenario.update_role TeamScenario.no_team
             [OwnerScenario.create_acme; OwnerScenario.invite_bob;
              OwnerScenario.bob_accepts] in
  map t_slug (teams s) = ["acme"%string]
  /\ map (fun tm => (tm_user_id tm, tm_role tm, tm_status tm)) (team_members s)
     = [(Some Scenario.alice, Some Role_owner, Status_active);
        (Some Scenario.bob, Some Role_member, Status_active)]
  /\ map u_current_team_id (users s) = [Some 50%N; Some 50%N].
Proof. cbv zeta. repeat split; vm_compute; reflexivity. Qed.

(** A second team with the same name gets the slug with a numeric
    suffix. *)
Example second_team_slug :
  map t_slug (teams (TeamManagement.serve_all TeamScenario.update_role TeamScenario.no_team
                       [OwnerScenario.create_acme; OwnerScenario.create_acme]))
  = ["acme"; "acme-1"]%string.
Proof. vm_compute. reflexivity. Qed.

(** An admin who is not the owner may not change the owner's role; the
    owner may. *)
Example only_the_owner_changes_the_owner :
  let handleUpdateMember := TeamManagement.handleUpdateMember TeamScenario.update_role in
  fst (handleUpdateMember TeamScenario.acme_with_admin Scenario.bob 40%N 41%N Role_admin)
  = fail 403 "Only team owners can modify owner permissions"
  /\ status (fst (handleUpdateMember TeamScenario.acme_with_admin
                    Scenario.alice 40%N 41%N Role_admin)) = 200%Z.
Proof. cbv zeta. split; vm_compute; reflexivity. Qed.

(** The member limit is compared with the number of all rows of the
    team: with a limit of 2, the owner's row and Bob's own pending row
    already reach it, although one member only is active. *)
Example pending_rows_count_towards_the_limit :
  TeamManagement.active_members TeamScenario.acme_small 40%N = 1%Z
  /\ TeamManagement.current_members TeamScenario.acme_small 40%N = 2%Z
  /\ TeamManagement.handleAcceptInvitation TeamScenario.acme_small Scenario.bob
       "tok-bob" 2000%Z
     = (fail 400 "Team has reached member limit", TeamScenario.acme_small).
Proof. repeat split; vm_compute; reflexivity. Qed.

(* ================================================================= *)
(** * Further properties of the code *)

(** ** Row-level-security policies *)

Lemma holds_in3_some (A : Type) (eqb : A -> A -> bool) (x : A) (vs : list A) :
  Sql.holds (Sql.in3 eqb (Some x) vs) = existsb (eqb x) vs.
Proof. unfold Sql.in3. apply holds_of_bool. Qed.

Lemma existsb_weaken (A : Type) (f g : A -> bool) (l : list A) :
  (forall x, f x = true -> g x = true) -> existsb f l = true -> existsb g l = true.
Proof.
  intros H Hf. apply existsb_exists in Hf. destruct Hf as [x [Hin Hx]].
  apply existsb_exists. exists x. split; [assumption | apply H; assumption].
Qed.

(** X1.  For an anonymous actor the policy [projects_select_access]
    admits exactly the projects that are not soft-deleted, have
    visibility public and have [is_public] set. *)
Theorem anonymous_sees_only_public_projects (db : Store) (p : projects_row) :
  Sql.holds (Policies.projects_select_access db None p) = true <->
  p_deleted_at p = None /\ p_visibility p = PVis_public /\ p_is_public p = true.
Proof.
  rewrite projects_select_access_spec. split.
  - intros [Hlive [Hown | [[a [t [Ha _]]] | [[a [Ha _]] | Hpub]]]]; try discriminate.
    tauto.
  - intros [Hlive Hpub]. split; [assumption|]. right; right; right. assumption.
Qed.

(** The cases of [templates_select_access]. *)
Lemma templates_select_access_cases
    (db : Store) (auth_uid : option uuid) (t : templates_row) :
  Sql.holds (Policies.templates_select_access db auth_uid t) = true <->
  tpl_deleted_at t = None /\
  (tpl_visibility t = Vis_public
   \/ tpl_visibility t = Vis_unlisted
   \/ (tpl_visibility t = Vis_premium
       /\ exists a u tier, auth_uid = Some a /\ In u (users db) /\ u_id u = a
            /\ u_subscription_tier u = Some tier /\ In tier Policies.paid_tiers
            /\ u_is_active u = true)
   \/ (tpl_visibility t = Vis_team
       /\ exists a team, auth_uid = Some a /\ tpl_team_id t = Some team
            /\ active_team_member db team a)
   \/ (tpl_visibility t = Vis_private
       /\ exists a, auth_uid = Some a /\ tpl_created_by t = Some a)).
Proof.
  unfold Policies.templates_select_access.
  rewrite holds_and3, andb_true_iff, holds_is_null.
  apply and_iff_compat_l.
  rewrite !holds_or3, !orb_true_iff, !holds_and3, !andb_true_iff, !holds_of_bool,
          !holds_exists, !existsb_exists, !template_visibility_beq_eq.
  split.
  - intros [Hpub | [[Hprem [u [Hin Hu]]] | [[Hteam [Hnn [tm [Hin Htm]]]] | [[Hpriv Hc] | Hunl]]]].
    + left; assumption.
    + right; right; left. split; [assumption|].
      rewrite !holds_and3, !andb_true_iff, !holds_of_bool in Hu.
      destruct Hu as [Hid [Htier Hact]].
      apply holds_eq3_uuid in Hid. destruct Hid as [a [Ha1 Ha2]].
      rewrite Bool.eqb_true_iff in Hact.
      destruct (u_subscription_tier u) as [tier|] eqn:Ht; [|discriminate].
      rewrite holds_in3_some in Htier. apply existsb_exists in Htier.
      destruct Htier as [x [Hx Heq]].
      assert (tier = x) by (destruct tier, x; simpl in Heq; congruence). subst x.
      exists a, u, tier. repeat split; first [assumption | congruence].
    + right; right; right; left. split; [assumption|].
      rewrite !holds_and3, !andb_true_iff, !holds_of_bool in Htm.
      destruct Htm as [H1 [H2 H3]].
      apply holds_eq3_uuid in H1. destruct H1 as [team [Ht1 Ht2]].
      apply holds_eq3_uuid in H2. destruct H2 as [a [Ha1 Ha2]].
      apply member_status_beq_eq in H3.
      exists a, team. split; [assumption|]. split; [assumption|].
      exists tm. repeat split; first [assumption | congruence].
    + right; right; right; right. split; [assumption|].
      apply holds_eq3_uuid in Hc. destruct Hc as [a [Ha1 Ha2]]. exists a. tauto.
    + right; left; assumption.
  - intros [Hpub | [Hunl | [[Hprem [a [u [tier [Ha [Hin [Hid [Ht [Hpaid Hact]]]]]]]]]
                            | [[Hteam [a [team [Ha [Htm [tm [Hin [H1 [H2 H3]]]]]]]]]
                              | [Hpriv [a [Ha Hc]]]]]]].
    + left; assumption.
    + right; right; right; right; assumption.
    + right; left. split; [assumption|]. exists u. split; [assumption|].
      rewrite !holds_and3, !andb_true_iff, !holds_of_bool. repeat split.
      * apply holds_eq3_uuid. exists a. split; congruence.
      * rewrite Ht, holds_in3_some. apply existsb_exists. exists tier.
        split; [assumption | destruct tier; reflexivity].
      * apply Bool.eqb_true_iff; assumption.
    + right; right; left. split; [assumption|]. split.
      * rewrite Htm. reflexivity.
      * exists tm. split; [assumption|].
        rewrite !holds_and3, !andb_true_iff, !holds_of_bool. repeat split.
        -- apply holds_eq3_uuid. exists team. split; congruence.
        -- apply holds_eq3_uuid. exists a. split; congruence.
        -- apply member_status_beq_eq; assumption.
    + right; right; right; left. split; [assumption|].
      apply holds_eq3_uuid. exists a. split; congruence.
Qed.

(** X2.  The policy [templates_select_access] admits a template exactly
    when it is not soft-deleted and it is public or unlisted, or premium
    and the actor is an active user on a paid tier, or a team template
    and the actor is an active member of its team, or private and the
    actor is its creator.  The moderation flag plays no part. *)
Theorem templates_select_access_spec
    (db : Store) (auth_uid : option uuid) (t : templates_row) :
  Sql.holds (Policies.templates_select_access db auth_uid t) = true <->
  tpl_deleted_at t = None /\
  (tpl_visibility t = Vis_public
   \/ tpl_visibility t = Vis_unlisted
   \/ (tpl_visibility t = Vis_premium
       /\ exists a u tier, auth_uid = Some a /\ In u (users db) /\ u_id u = a
            /\ u_subscription_tier u = Some tier /\ In tier Policies.paid_tiers
            /\ u_is_active u = true)
   \/ (tpl_visibility t = Vis_team
       /\ exists a team, auth_uid = Some a /\ tpl_team_id t = Some team
            /\ active_team_member db team a)
   \/ (tpl_visibility t = Vis_private
       /\ exists a, auth_uid = Some a /\ tpl_created_by t = Some a)).
Proof.
  apply templates_select_access_cases.
Qed.

(** X3.  Whoever the update policy [projects_modify_authorized] admits
    for a project is also admitted by [projects_select_access]: a project
    that an actor may update is one the actor may read. *)
Theorem projects_modify_implies_select
    (db : Store) (auth_uid : option uuid) (p : projects_row) :
  Sql.holds (Policies.projects_modify_authorized db auth_uid p) = true ->
  Sql.holds (Policies.projects_select_access db auth_uid p) = true.
Proof.
  unfold Policies.projects_modify_authorized, Policies.projects_select_access.
  rewrite !holds_and3, !holds_or3, !holds_and3, !holds_exists.
  rewrite !andb_true_iff, !orb_true_iff, !andb_true_iff.
  intros [Hlive [Hown | [[Hteam Hadmin] | Hcollab]]]; (split; [assumption|]).
  - left; assumption.
  - right; left. split; [assumption|].
    revert Hadmin. apply existsb_weaken. intros tm.
    rewrite !holds_and3, !andb_true_iff. tauto.
  - right; right; left.
    revert Hcollab. apply existsb_weaken. intros pc.
    rewrite !holds_and3, !andb_true_iff. tauto.
Qed.

Lemma projects_modify_implies_select_witness :
  Sql.holds (Policies.projects_select_access Scenario.shared_project
               (Some Scenario.alice) (Scenario.project 10%N Scenario.alice 100%Z)) = true.
Proof.
  apply (@projects_modify_implies_select Scenario.shared_project (Some Scenario.alice)
           (Scenario.project 10%N Scenario.alice 100%Z)).
  reflexivity.
Defined.

(** X4.  The insert policy [projects_insert_authenticated] accepts a new
    project row exactly when the actor is signed in and is the row's
    [user_id], and the row names no team or names a team of which the
    actor is an active member. *)
Theorem projects_insert_authenticated_spec
    (db : Store) (auth_uid : option uuid) (p : projects_row) :
  Sql.holds (Policies.projects_insert_authenticated db auth_uid p) = true <->
  auth_uid = Some (p_user_id p)
  /\ (p_team_id p = None
      \/ exists t, p_team_id p = Some t /\ active_team_member db t (p_user_id p)).
Proof.
  unfold Policies.projects_insert_authenticated.
  rewrite holds_and3, andb_true_iff, holds_or3, orb_true_iff, holds_is_null,
          holds_exists, existsb_exists, holds_eq3_uuid.
  split.
  - intros [[a [Ha1 Ha2]] Hteam].
    assert (Ha : auth_uid = Some (p_user_id p)) by congruence.
    split; [assumption|].
    destruct Hteam as [Hnone | [tm [Hin Htm]]]; [left; assumption|].
    right. rewrite !holds_and3, !andb_true_iff, holds_of_bool in Htm.
    destruct Htm as [H1 [H2 H3]].
    apply holds_eq3_uuid in H1. destruct H1 as [t [Ht1 Ht2]].
    apply holds_eq3_uuid in H2. destruct H2 as [b [Hb1 Hb2]].
    apply member_status_beq_eq in H3.
    exists t. split; [assumption|].
    exists tm. repeat split; first [assumption | congruence].
  - intros [Ha Hteam]. split.
    + exists (p_user_id p). split; [assumption | reflexivity].
    + destruct Hteam as [Hnone | [t [Ht [tm [Hin [H1 [H2 H3]]]]]]]; [left; assumption|].
      right. exists tm. split; [assumption|].
      rewrite !holds_and3, !andb_true_iff, holds_of_bool. repeat split.
      * apply holds_eq3_uuid. exists t. split; congruence.
      * apply holds_eq3_uuid. exists (p_user_id p). split; congruence.
      * apply member_status_beq_eq; assumption.
Qed.

(** X5.  The policy [teams_select_member_or_public] admits a team exactly
    when the team is active and either its tier is team_monthly or
    team_yearly (then for every actor, anonymous ones included), or the
    actor has an active membership row whose [team_id] equals that row's
    own [id]. *)
Theorem teams_select_member_or_public_spec
    (db : Store) (auth_uid : option uuid) (t : teams_row) :
  Sql.holds (Policies.teams_select_member_or_public db auth_uid t) = true <->
  t_is_active t = true
  /\ (t_subscription_tier t = Tier_team_monthly
      \/ t_subscription_tier t = Tier_team_yearly
      \/ exists a tm, auth_uid = Some a /\ In tm (team_members db)
           /\ tm_team_id tm = tm_id tm /\ tm_user_id tm = Some a
           /\ tm_status tm = Status_active).
Proof.
  unfold Policies.teams_select_member_or_public.
  rewrite holds_and3, andb_true_iff, holds_of_bool, Bool.eqb_true_iff.
  rewrite holds_or3, orb_true_iff, holds_and3, andb_true_iff, holds_in3_some,
          holds_of_bool, holds_exists, existsb_exists, Bool.eqb_true_iff.
  split; intros [Hact H]; (split; [assumption|]); revert H.
  - intros [[tm [Hin Htm]] | [Htier _]].
    + right; right.
      rewrite !holds_and3, !andb_true_iff, !holds_of_bool in Htm.
      destruct Htm as [H1 [H2 H3]].
      apply N.eqb_eq in H1.
      apply holds_eq3_uuid in H2. destruct H2 as [a [Ha1 Ha2]].
      apply member_status_beq_eq in H3.
      exists a, tm. repeat split; assumption.
    + destruct (t_subscription_tier t); simpl in Htier; try discriminate; tauto.
  - intros [Hm | [Hy | [a [tm [Ha [Hin [H1 [H2 H3]]]]]]]].
    + right. rewrite Hm. split; [reflexivity | assumption].
    + right. rewrite Hy. split; [reflexivity | assumption].
    + left. exists tm. split; [assumption|].
      rewrite !holds_and3, !andb_true_iff, !holds_of_bool. repeat split.
      * apply N.eqb_eq; assumption.
      * apply holds_eq3_uuid. exists a. split; congruence.
      * apply member_status_beq_eq; assumption.
Qed.

(** X6.  Whoever the policy [team_members_manage_by_admin] lets manage a
    membership row may also read it under
    [team_members_select_same_team]. *)
Theorem team_members_manage_implies_select
    (db : Store) (auth_uid : option uuid) (r : team_members_row) :
  Sql.holds (Policies.team_members_manage_by_admin db auth_uid r) = true ->
  Sql.holds (Policies.team_members_select_same_team db auth_uid r) = true.
Proof.
  unfold Policies.team_members_manage_by_admin, Policies.team_members_select_same_team.
  rewrite !holds_or3, !holds_and3, !holds_exists, !orb_true_iff, !andb_true_iff.
  intros [Hadmin | [Hown _]].
  - right. revert Hadmin. apply existsb_weaken. intros tm.
    rewrite !holds_and3, !andb_true_iff. tauto.
  - left; assumption.
Qed.

Lemma team_members_manage_implies_select_witness :
  Sql.holds (Policies.team_members_select_same_team TeamScenario.acme_invited
               (Some Scenario.alice) TeamScenario.bob_invited) = true.
Proof.
  apply (@team_members_manage_implies_select TeamScenario.acme_invited
           (Some Scenario.alice) TeamScenario.bob_invited).
  reflexivity.
Defined.

(* ================================================================= *)
(** ** Edge function [manage-projects] *)

Lemma insert_desc_perm (p : projects_row) (l : list projects_row) :
  Permutation (insert_desc p l) (p :: l).
Proof.
  induction l as [|q rest IH]; simpl; [reflexivity|].
  destruct (p_created_at q <=? p_created_at p)%Z; [reflexivity|].
  rewrite IH. apply perm_swap.
Qed.

Lemma order_created_at_desc_perm (l : list projects_row) :
  Permutation (order_created_at_desc l) l.
Proof.
  induction l as [|p rest IH]; simpl; [reflexivity|].
  rewrite insert_desc_perm. constructor. exact IH.
Qed.

Lemma insert_desc_sorted (p : projects_row) (l : list projects_row) :
  Sorted (fun a b => (p_created_at b <= p_created_at a)%Z) l ->
  Sorted (fun a b => (p_created_at b <= p_created_at a)%Z) (insert_desc p l).
Proof.
  induction l as [|q rest IH]; intros Hs; simpl.
  - repeat constructor.
  - destruct (p_created_at q <=? p_created_at p)%Z eqn:Hle.
    + constructor; [assumption|]. constructor. lia.
    + inversion Hs as [|? ? Hrest Hhd]; subst.
      constructor; [apply IH; assumption|].
      destruct rest as [|r rest']; simpl.
      * constructor. lia.
      * inversion Hhd; subst.
        destruct (p_created_at r <=? p_created_at p)%Z; constructor; lia.
Qed.

Lemma filter_perm (A : Type) (f : A -> bool) (l l' : list A) :
  Permutation l l' -> Permutation (filter f l) (filter f l').
Proof.
  induction 1 as [|x l l' _ IH|x y l|l l' l'' _ IH1 _ IH2]; simpl.
  - constructor.
  - destruct (f x); [constructor|]; exact IH.
  - destruct (f x), (f y); try reflexivity. apply perm_swap.
  - etransitivity; eassumption.
Qed.

Lemma filter_filter (A : Type) (f g : A -> bool) (l : list A) :
  filter f (filter g l) = filter (fun x => f x && g x) l.
Proof.
  induction l as [|x l IH]; simpl; [reflexivity|].
  destruct (g x); simpl; rewrite ?andb_true_r, ?andb_false_r;
    [destruct (f x)|]; rewrite IH; reflexivity.
Qed.

(** X7.  Without a project id, [handleGetProjects] answers 200 with the
    first [max_rows] (1000) of the caller's stored projects in the order
    of [created_at], newest first: the rows it returns are a prefix of a
    list that holds exactly the caller's projects (each as often as it is
    stored) in that order.  A caller with at most 1000 projects gets all
    of them. *)
Theorem handleGetProjects_lists_newest_first (s : Store) (userId : uuid) :
  exists own,
    Permutation own (filter (fun p => N.eqb (p_user_id p) userId) (projects s))
    /\ StronglySorted (fun a b => (p_created_at b <= p_created_at a)%Z) own
    /\ ManageProjects.handleGetProjects s userId None
       = ok (Body_projects (firstn max_rows own))
    /\ List.length (firstn max_rows own) = Nat.min max_rows (List.length own)
    /\ ((List.length own <= max_rows)%nat -> firstn max_rows own = own).
Proof.
  exists (order_created_at_desc (filter (fun p => N.eqb (p_user_id p) userId) (projects s))).
  split; [apply order_created_at_desc_perm|]. split; [|split; [reflexivity|split]].
  - apply Sorted_StronglySorted.
    + intros a b c Hab Hbc. lia.
    + unfold order_created_at_desc.
      induction (filter (fun p => N.eqb (p_user_id p) userId) (projects s))
        as [|p rest IH]; simpl.
      * constructor.
      * apply insert_desc_sorted. exact IH.
  - apply length_firstn.
  - apply firstn_all2.
Qed.

(** X8.  With a project id, [handleGetProjects] answers 200 with the
    project exactly when the store holds one single project with that id
    owned by the caller; in every other case (no such project, or a
    project of somebody else) the answer is the 500 of the [catch]. *)
Theorem handleGetProjects_by_id (s : Store) (userId projectId : uuid) :
  match filter (fun p => N.eqb (p_id p) projectId && N.eqb (p_user_id p) userId)
               (projects s) with
  | [row] => ManageProjects.handleGetProjects s userId (Some projectId)
             = ok (Body_project row)
  | _ => ManageProjects.handleGetProjects s userId (Some projectId)
         = fail 500 "Failed to fetch projects"
  end.
Proof.
  unfold ManageProjects.handleGetProjects.
  assert (Hperm :
    Permutation
      (filter (fun p => N.eqb (p_id p) projectId)
         (order_created_at_desc
            (filter (fun p => N.eqb (p_user_id p) userId) (projects s))))
      (filter (fun p => N.eqb (p_id p) projectId && N.eqb (p_user_id p) userId)
         (projects s))).
  { rewrite <- filter_filter. apply filter_perm, order_created_at_desc_perm. }
  destruct (filter (fun p => N.eqb (p_id p) projectId && N.eqb (p_user_id p) userId)
              (projects s)) as [|row [|row2 more]].
  - apply Permutation_sym, Permutation_nil in Hperm. rewrite Hperm. reflexivity.
  - apply Permutation_sym, Permutation_length_1_inv in Hperm. rewrite Hperm. reflexivity.
  - apply Permutation_length in Hperm.
    destruct (filter (fun p => N.eqb (p_id p) projectId)
                (order_created_at_desc
                   (filter (fun p => N.eqb (p_user_id p) userId) (projects s))))
      as [|a [|b rest]]; simpl in Hperm; try discriminate; reflexivity.
Qed.

Lemma filter_singleton (A : Type) (f : A -> bool) (l : list A) (x y : A) :
  filter f l = [x] -> In y l -> f y = true -> y = x.
Proof.
  intros Hf Hin Hy.
  assert (H : In y (filter f l)) by (apply filter_In; split; assumption).
  rewrite Hf in H. destruct H as [H | []]. symmetry; exact H.
Qed.

(** X9.  [handleDeleteProject] never touches what belongs to others:
    whatever the caller and the project id, the projects of every other
    user are the same after the call, and so are the users, teams,
    memberships and templates. *)
Theorem handleDeleteProject_spares_other_users (s : Store) (userId projectId : uuid) :
  let s' := snd (ManageProjects.handleDeleteProject s userId projectId) in
  filter (fun p => negb (N.eqb (p_user_id p) userId)) (projects s')
  = filter (fun p => negb (N.eqb (p_user_id p) userId)) (projects s)
  /\ users s' = users s /\ teams s' = teams s
  /\ team_members s' = team_members s /\ templates s' = templates s.
Proof.
  unfold ManageProjects.handleDeleteProject.
  destruct (filter (fun p => N.eqb (p_id p) projectId) (projects s))
    as [|row [|row2 more]] eqn:Hf; simpl; try (repeat split; reflexivity).
  destruct (N.eqb (p_user_id row) userId) eqn:Hown; simpl;
    [|repeat split; reflexivity].
  repeat split. rewrite filter_filter. apply filter_ext_in. intros p Hin.
  destruct (N.eqb (p_id p) projectId) eqn:Hid; simpl.
  - rewrite (@filter_singleton _ _ _ _ _ Hf Hin Hid), Hown. reflexivity.
  - apply andb_true_r.
Qed.

(** X10.  [handleDeleteProject] answers 200 only for the owner of the
    one stored project with that id, and then no project and no
    collaborator row of that project is left; every other call is
    answered 404 and changes nothing. *)
Theorem handleDeleteProject_guard
    (s : Store) (userId projectId : uuid) (r : Response) (s' : Store) :
  ManageProjects.handleDeleteProject s userId projectId = (r, s') ->
  (status r = 200%Z ->
   exists row,
     filter (fun p => N.eqb (p_id p) projectId) (projects s) = [row]
     /\ p_user_id row = userId
     /\ (forall p, In p (projects s') -> p_id p <> projectId)
     /\ (forall pc, In pc (project_collaborators s') -> pc_project_id pc <> projectId))
  /\ (status r <> 200%Z ->
      r = fail 404 "Project not found or access denied" /\ s' = s).
Proof.
  unfold ManageProjects.handleDeleteProject.
  destruct (filter (fun p => N.eqb (p_id p) projectId) (projects s))
    as [|row [|row2 more]] eqn:Hf; simpl;
    try (intros H; inversion H; subst; split; [discriminate | tauto]).
  destruct (N.eqb (p_user_id row) userId) eqn:Hown; simpl;
    intros H; inversion H; subst; clear H; (split; [|simpl; tauto]); try discriminate.
  intros _. exists row. split; [reflexivity|]. split; [apply N.eqb_eq; exact Hown|].
  split; simpl.
  - intros p Hin. apply filter_In in Hin. destruct Hin as [_ Hne].
    apply negb_true_iff, N.eqb_neq in Hne. exact Hne.
  - intros pc Hin. apply filter_In in Hin. destruct Hin as [_ Hne].
    apply negb_true_iff, N.eqb_neq in Hne. exact Hne.
Qed.

Lemma handleDeleteProject_guard_witness :
  exists row,
    filter (fun p => N.eqb (p_id p) 10%N) (projects Scenario.shared_project) = [row]
    /\ p_user_id row = Scenario.alice
    /\ (forall p,
          In p (projects (snd (ManageProjects.handleDeleteProject
                                 Scenario.shared_project Scenario.alice 10%N))) ->
          p_id p <> 10%N)
    /\ (forall pc,
          In pc (project_collaborators
                   (snd (ManageProjects.handleDeleteProject
                           Scenario.shared_project Scenario.alice 10%N))) ->
          pc_project_id pc <> 10%N).
Proof.
  apply (proj1 (@handleDeleteProject_guard Scenario.shared_project Scenario.alice 10%N
                  _ _ eq_refl)).
  reflexivity.
Defined.

(** X11.  [handleUpdateProject], whatever the body of the request and
    whatever the database makes of it: a 200 is answered only to the
    owner of the one stored project with that id, and carries the row the
    update returned; a caller who does not own that project is answered
    404 and nothing changes. *)
Theorem handleUpdateProject_only_owner
    (UpdateData : Type)
    (projects_update : Store -> uuid -> UpdateData -> option (projects_row * Store))
    (s : Store) (userId projectId : uuid) (updateData : UpdateData)
    (r : Response) (s' : Store) :
  ManageProjects.handleUpdateProject projects_update s userId projectId updateData
  = (r, s') ->
  (status r = 200%Z ->
   exists row updated,
     filter (fun p => N.eqb (p_id p) projectId) (projects s) = [row]
     /\ p_user_id row = userId
     /\ projects_update s projectId updateData = Some (updated, s')
     /\ r = ok (Body_project updated))
  /\ ((forall row, filter (fun p => N.eqb (p_id p) projectId) (projects s) = [row] ->
                   p_user_id row <> userId) ->
      r = fail 404 "Project not found or access denied" /\ s' = s).
Proof.
  unfold ManageProjects.handleUpdateProject.
  destruct (filter (fun p => N.eqb (p_id p) projectId) (projects s))
    as [|row [|row2 more]] eqn:Hf; simpl;
    try (intros H; inversion H; subst; split; [discriminate | tauto]).
  destruct (N.eqb (p_user_id row) userId) eqn:Hown; simpl.
  - apply N.eqb_eq in Hown.
    destruct (projects_update s projectId updateData) as [[updated s1]|] eqn:Hup;
      intros H; inversion H; subst; clear H.
    + split.
      * intros _. exists row, updated. repeat split; reflexivity.
      * intros Hno. exfalso. exact (Hno row eq_refl eq_refl).
    + split; [discriminate|].
      intros Hno. exfalso. exact (Hno row eq_refl eq_refl).
  - intros H; inversion H; subst. split; [discriminate | tauto].
Qed.

Lemma handleUpdateProject_only_owner_witness :
  (exists row updated,
     filter (fun p => N.eqb (p_id p) 10%N) (projects Scenario.shared_project) = [row]
     /\ p_user_id row = Scenario.alice
     /\ UpdateScenario.rename_project Scenario.shared_project 10%N "notes"
        = Some (updated,
                snd (ManageProjects.handleUpdateProject UpdateScenario.rename_project
                       Scenario.shared_project Scenario.alice 10%N "notes"%string))
     /\ fst (ManageProjects.handleUpdateProject UpdateScenario.rename_project
               Scenario.shared_project Scenario.alice 10%N "notes"%string)
        = ok (Body_project updated))
  /\ ManageProjects.handleUpdateProject UpdateScenario.rename_project
       Scenario.shared_project Scenario.bob 10%N "notes"%string
     = (fail 404 "Project not found or access denied", Scenario.shared_project).
Proof.
  split.
  - apply (proj1 (@handleUpdateProject_only_owner string UpdateScenario.rename_project
                    Scenario.shared_project Scenario.alice 10%N "notes"%string
                    _ _ eq_refl)).
    reflexivity.
  - destruct (proj2 (@handleUpdateProject_only_owner string UpdateScenario.rename_project
                       Scenario.shared_project Scenario.bob 10%N "notes"%string
                       _ _ eq_refl)) as [Hr Hs].
    + intros row Hrow. inversion Hrow; subst. discriminate.
    + reflexivity.
Defined.

(* ================================================================= *)
(** ** Edge function: template marketplace *)

Lemma filter_at_most_one (A : Type) (f : A -> bool) (l : list A) (x : A) :
  (List.length (filter f l) <= 1)%nat -> In x l -> f x = true -> filter f l = [x].
Proof.
  intros Hlen Hin Hx.
  assert (H : In x (filter f l)) by (apply filter_In; split; assumption).
  destruct (filter f l) as [|a [|b rest]]; simpl in *.
  - contradiction.
  - destruct H as [H | []]. rewrite H. reflexivity.
  - lia.
Qed.

(** X12.  [checkTemplateAccess] lets an anonymous request through
    exactly for the visibilities public and unlisted, whatever the
    template's [created_by] holds. *)
Theorem checkTemplateAccess_anonymous
    (s : Store) (t : templates_row) (created_by : TemplateMarketplace.created_by_value) :
  TemplateMarketplace.checkTemplateAccess s t created_by None = true <->
  tpl_visibility t = Vis_public \/ tpl_visibility t = Vis_unlisted.
Proof.
  unfold TemplateMarketplace.checkTemplateAccess.
  destruct (tpl_visibility t); simpl; split; intros H;
    try reflexivity; try discriminate; try tauto;
    destruct H as [H | H]; discriminate.
Qed.

(** X13.  A template whose visibility is private, deprecated or
    under_review passes [checkTemplateAccess] exactly when the
    [created_by] of the template object is the id of the authenticated
    caller, whatever the caller's tier or teams.  With the object that
    [handleGetTemplate] selects, whose [created_by] is the embedded users
    row, it passes for nobody, its creator included. *)
Theorem checkTemplateAccess_creator_only
    (s : Store) (t : templates_row) (created_by : TemplateMarketplace.created_by_value)
    (user : option uuid) :
  tpl_visibility t = Vis_private \/ tpl_visibility t = Vis_deprecated
  \/ tpl_visibility t = Vis_under_review ->
  (TemplateMarketplace.checkTemplateAccess s t created_by user = true <->
   exists uid, user = Some uid /\ created_by = TemplateMarketplace.Created_by_id uid)
  /\ TemplateMarketplace.checkTemplateAccess s t
       (TemplateMarketplace.embedded_creator s t) user = false.
Proof.
  unfold TemplateMarketplace.checkTemplateAccess.
  intros Hvis. split; [split|].
  - destruct user as [uid|].
    + destruct (TemplateMarketplace.strict_equal_id created_by uid) eqn:Hc.
      * intros _. exists uid. split; [reflexivity|].
        destruct created_by as [|id|row]; simpl in Hc; try discriminate.
        apply N.eqb_eq in Hc. rewrite Hc. reflexivity.
      * destruct Hvis as [Hv | [Hv | Hv]]; rewrite Hv; simpl; discriminate.
    + destruct Hvis as [Hv | [Hv | Hv]]; rewrite Hv; simpl; discriminate.
  - intros [uid [Hu Hc]]. subst user created_by. simpl. rewrite N.eqb_refl.
    destruct Hvis as [Hv | [Hv | Hv]]; rewrite Hv; reflexivity.
  - destruct user as [uid|].
    + rewrite embedded_creator_is_no_id.
      destruct Hvis as [Hv | [Hv | Hv]]; rewrite Hv; reflexivity.
    + destruct Hvis as [Hv | [Hv | Hv]]; rewrite Hv; reflexivity.
Qed.

Lemma checkTemplateAccess_creator_only_witness :
  TemplateMarketplace.checkTemplateAccess Scenario.private_template
    (Scenario.template 31%N Scenario.alice Vis_private true)
    (TemplateMarketplace.Created_by_id Scenario.alice) (Some Scenario.alice) = true
  /\ TemplateMarketplace.checkTemplateAccess Scenario.private_template
       (Scenario.template 31%N Scenario.alice Vis_private true)
       (TemplateMarketplace.embedded_creator Scenario.private_template
          (Scenario.template 31%N Scenario.alice Vis_private true))
       (Some Scenario.alice) = false.
Proof.
  destruct (@checkTemplateAccess_creator_only Scenario.private_template
              (Scenario.template 31%N Scenario.alice Vis_private true)
              (TemplateMarketplace.Created_by_id Scenario.alice) (Some Scenario.alice))
    as [Hiff Hembedded].
  - left; reflexivity.
  - split; [|exact Hembedded].
    apply Hiff. exists Scenario.alice. split; reflexivity.
Defined.

Lemma paid_tiers_agree (tier : subscription_tier) :
  In tier Policies.paid_tiers ->
  existsb (subscription_tier_beq tier) TemplateMarketplace.paid_tiers = true.
Proof.
  unfold Policies.paid_tiers. simpl.
  intros [H | [H | [H | [H | [H | []]]]]]; subst tier; reflexivity.
Qed.

(** X14.  In a store where [users.id] and [team_members(team_id,
    user_id)] are unique, a template that [templates_select_access]
    admits for an actor passes [checkTemplateAccess] for that actor,
    whatever the template's [created_by] holds, unless its visibility is
    private; a private template, which the policy admits for its creator
    only, is refused with the [created_by] of the object that
    [handleGetTemplate] selects. *)
Theorem policy_access_implies_handler_access
    (s : Store) (user : option uuid) (t : templates_row) :
  users_pkey s -> team_members_unique s ->
  Sql.holds (Policies.templates_select_access s user t) = true ->
  (tpl_visibility t <> Vis_private ->
   forall created_by, TemplateMarketplace.checkTemplateAccess s t created_by user = true)
  /\ (tpl_visibility t = Vis_private ->
      tpl_created_by t = user
      /\ TemplateMarketplace.checkTemplateAccess s t
           (TemplateMarketplace.embedded_creator s t) user = false).
Proof.
  intros Hu Hm Hp. apply templates_select_access_cases in Hp.
  destruct Hp as [_ Hp]. unfold TemplateMarketplace.checkTemplateAccess.
  destruct Hp as [Hv | [Hv | [[Hv Hp] | [[Hv Hp] | [Hv Hp]]]]]; rewrite Hv;
    (split; [intros Hnot created_by | intros Hpriv; try discriminate]); simpl;
    try reflexivity.
  - destruct Hp as (a & u & tier & Ha & Hin & Hid & Htier & Hpaid & _). subst user.
    destruct (TemplateMarketplace.strict_equal_id created_by a); [reflexivity|].
    rewrite (@filter_at_most_one _ _ _ u (Hu a) Hin) by (apply N.eqb_eq; exact Hid).
    simpl. rewrite Htier. apply paid_tiers_agree; exact Hpaid.
  - destruct Hp as (a & team & Ha & Hteam & tm & Hin & H1 & H2 & H3). subst user.
    destruct (TemplateMarketplace.strict_equal_id created_by a); [reflexivity|].
    rewrite Hteam.
    rewrite (@filter_at_most_one _ _ _ tm (Hm team a) Hin).
    + simpl. apply member_status_beq_eq; exact H3.
    + apply andb_true_iff. split; [apply N.eqb_eq; exact H1|].
      apply opt_uuid_is_true; exact H2.
  - contradiction.
  - destruct Hp as (a & Ha & Hc). subst user. split; [exact Hc|].
    rewrite embedded_creator_is_no_id. reflexivity.
Qed.

Lemma policy_access_implies_handler_access_witness :
  (tpl_visibility TemplateScenario.acme_template <> Vis_private ->
   forall created_by,
     TemplateMarketplace.checkTemplateAccess TemplateScenario.acme_with_template
       TemplateScenario.acme_template created_by (Some Scenario.bob) = true)
  /\ (tpl_visibility TemplateScenario.acme_template = Vis_private ->
      tpl_created_by TemplateScenario.acme_template = Some Scenario.bob
      /\ TemplateMarketplace.checkTemplateAccess TemplateScenario.acme_with_template
           TemplateScenario.acme_template
           (TemplateMarketplace.embedded_creator TemplateScenario.acme_with_template
              TemplateScenario.acme_template)
           (Some Scenario.bob) = false).
Proof.
  apply (@policy_access_implies_handler_access TemplateScenario.acme_with_template
           (Some Scenario.bob) TemplateScenario.acme_template).
  - intros uid. cbn -[N.eqb].
    repeat match goal with
           | |- context [N.eqb ?a uid] => destruct (N.eqb_spec a uid); cbn -[N.eqb]
           end; try lia; subst; discriminate.
  - intros team uid. cbn -[N.eqb].
    destruct (N.eqb 40 team); cbn -[N.eqb]; try lia.
    repeat match goal with
           | |- context [N.eqb ?a uid] => destruct (N.eqb_spec a uid); cbn -[N.eqb]
           end; try lia; subst; discriminate.
  - reflexivity.
Defined.

Lemma filter_map_commute (A : Type) (f : A -> bool) (g : A -> A) (l : list A) :
  (forall x, f (g x) = f x) -> filter f (map g l) = map g (filter f l).
Proof.
  intros H. induction l as [|x l IH]; simpl; [reflexivity|].
  rewrite H. destruct (f x); simpl; rewrite IH; reflexivity.
Qed.

Lemma map_unchanged (A : Type) (g : A -> A) (l : list A) :
  (forall x, In x l -> g x = x) -> map g l = l.
Proof.
  intros H. induction l as [|x l IH]; simpl; [reflexivity|].
  rewrite H by (left; reflexivity). rewrite IH; [reflexivity|].
  intros y Hy. apply H. right; exact Hy.
Qed.

Lemma set_templates_same (s : Store) : set_templates s (templates s) = s.
Proof. destruct s; reflexivity. Qed.

(** X16.  [handleDeleteTemplate] called by the creator of the one
    stored template with that id is a soft delete: the answer is 200,
    the row stays in the table with [deleted_at] set to the time of the
    call and its other columns as they were, every other template is
    kept, and the policy [templates_select_access] admits the row for
    nobody from then on. *)
Theorem handleDeleteTemplate_soft_deletes
    (s : Store) (userId templateId : uuid) (now : timestamp) (t : templates_row) :
  filter (fun x => N.eqb (tpl_id x) templateId) (templates s) = [t] ->
  tpl_created_by t = Some userId ->
  existsb (fun u => N.eqb (u_id u) userId) (users s) = true ->
  let result := TemplateMarketplace.handleDeleteTemplate s userId templateId now in
  fst result = ok (Body_message "Template deleted successfully")
  /\ filter (fun x => N.eqb (tpl_id x) templateId) (templates (snd result))
     = [TemplateMarketplace.set_deleted_at now t]
  /\ (forall x, In x (templates s) -> tpl_id x <> templateId ->
                In x (templates (snd result)))
  /\ (forall user,
        Sql.holds (Policies.templates_select_access (snd result) user
                     (TemplateMarketplace.set_deleted_at now t)) = false).
Proof.
  intros Hf Hc Hu result.
  assert (Hid : N.eqb (tpl_id t) templateId = true).
  { assert (H : In t (filter (fun x => N.eqb (tpl_id x) templateId) (templates s)))
      by (rewrite Hf; left; reflexivity).
    apply filter_In in H. tauto. }
  assert (Hres : result
                 = (ok (Body_message "Template deleted successfully"),
                    set_templates s
                      (map (fun x => if N.eqb (tpl_id x) templateId
                                        && opt_uuid_is (tpl_created_by x) userId
                                     then TemplateMarketplace.set_deleted_at now x else x)
                           (templates s)))).
  { unfold result, TemplateMarketplace.handleDeleteTemplate.
    rewrite Hu. rewrite andb_false_r. reflexivity. }
  rewrite Hres. simpl fst. simpl snd.
  set (h := fun x => if N.eqb (tpl_id x) templateId
                        && opt_uuid_is (tpl_created_by x) userId
                     then TemplateMarketplace.set_deleted_at now x else x).
  assert (Hh : forall x, tpl_id (h x) = tpl_id x).
  { intros x. unfold h. destruct (_ && _); reflexivity. }
  assert (Hht : h t = TemplateMarketplace.set_deleted_at now t).
  { unfold h. rewrite Hid, Hc. simpl. rewrite N.eqb_refl. reflexivity. }
  assert (Hfilter : filter (fun x => N.eqb (tpl_id x) templateId) (map h (templates s))
                    = [TemplateMarketplace.set_deleted_at now t]).
  { rewrite filter_map_commute by (intros x; rewrite Hh; reflexivity).
    rewrite Hf. simpl. rewrite Hht. reflexivity. }
  split; [reflexivity|]. split; [exact Hfilter|]. split.
  - intros x Hin Hne. simpl. apply in_map_iff. exists x. split; [|exact Hin].
    unfold h. apply N.eqb_neq in Hne. rewrite Hne. reflexivity.
  - intros user. apply not_true_is_false. intros Hp.
    apply templates_select_access_cases in Hp. destruct Hp as [Hlive _].
    discriminate.
Qed.

Lemma handleDeleteTemplate_soft_deletes_witness :
  let result := TemplateMarketplace.handleDeleteTemplate Scenario.private_template
                  Scenario.alice 31%N 9000%Z in
  fst result = ok (Body_message "Template deleted successfully")
  /\ filter (fun x => N.eqb (tpl_id x) 31%N) (templates (snd result))
     = [TemplateMarketplace.set_deleted_at 9000%Z
          (Scenario.template 31%N Scenario.alice Vis_private true)]
  /\ (forall x, In x (templates Scenario.private_template) -> tpl_id x <> 31%N ->
                In x (templates (snd result)))
  /\ (forall user,
        Sql.holds (Policies.templates_select_access (snd result) user
                     (TemplateMarketplace.set_deleted_at 9000%Z
                        (Scenario.template 31%N Scenario.alice Vis_private true))) = false).
Proof.
  apply (@handleDeleteTemplate_soft_deletes Scenario.private_template Scenario.alice
           31%N 9000%Z (Scenario.template 31%N Scenario.alice Vis_private true));
    reflexivity.
Defined.

(** X17.  [handleDeleteTemplate] called for an id of which the caller
    created no template (a template of somebody else, or none at all)
    still answers 200 'Template deleted successfully', and changes
    nothing. *)
Theorem handleDeleteTemplate_not_creator
    (s : Store) (userId templateId : uuid) (now : timestamp) :
  (forall t, In t (templates s) -> tpl_id t = templateId ->
             tpl_created_by t <> Some userId) ->
  TemplateMarketplace.handleDeleteTemplate s userId templateId now
  = (ok (Body_message "Template deleted successfully"), s).
Proof.
  intros Hno.
  assert (Hhit : forall t, In t (templates s) ->
                           N.eqb (tpl_id t) templateId
                           && opt_uuid_is (tpl_created_by t) userId = false).
  { intros t Hin. destruct (N.eqb (tpl_id t) templateId) eqn:Hid; [|reflexivity].
    destruct (opt_uuid_is (tpl_created_by t) userId) eqn:Hc; [|reflexivity].
    exfalso. apply (Hno t Hin); [apply N.eqb_eq; exact Hid|].
    apply opt_uuid_is_true; exact Hc. }
  unfold TemplateMarketplace.handleDeleteTemplate.
  replace (existsb (fun t => N.eqb (tpl_id t) templateId
                             && opt_uuid_is (tpl_created_by t) userId) (templates s))
    with false.
  - simpl. rewrite map_unchanged.
    + rewrite set_templates_same. reflexivity.
    + intros t Hin. rewrite (Hhit t Hin). reflexivity.
  - symmetry. apply not_true_is_false. intros H.
    apply existsb_exists in H. destruct H as [t [Hin Ht]].
    rewrite (Hhit t Hin) in Ht. discriminate.
Qed.

Lemma handleDeleteTemplate_not_creator_witness :
  TemplateMarketplace.handleDeleteTemplate Scenario.private_template Scenario.bob
    31%N 9000%Z
  = (ok (Body_message "Template deleted successfully"), Scenario.private_template).
Proof.
  apply (@handleDeleteTemplate_not_creator Scenario.private_template Scenario.bob
           31%N 9000%Z).
  intros t [Ht | []] _. subst t. discriminate.
Defined.

(** X18.  [handleUpdateTemplate], whatever the body of the request and
    whatever the database makes of it: a 200 is answered only when the
    store holds one single template with that id and the caller is its
    creator or an active owner or admin of its team; every other answer
    leaves the store as it was. *)
Theorem handleUpdateTemplate_guard
    (UpdateData : Type)
    (templates_update : Store -> uuid -> UpdateData -> option (templates_row * Store))
    (s : Store) (userId templateId : uuid) (updateData : UpdateData)
    (r : Response) (s' : Store) :
  TemplateMarketplace.handleUpdateTemplate templates_update s userId templateId updateData
  = (r, s') ->
  (status r = 200%Z ->
   exists template,
     filter (fun t => N.eqb (tpl_id t) templateId) (templates s) = [template]
     /\ (tpl_created_by template = Some userId
         \/ exists team m,
              tpl_team_id template = Some team /\ In m (team_members s)
              /\ tm_team_id m = team /\ tm_user_id m = Some userId
              /\ tm_status m = Status_active
              /\ (tm_role m = Some Role_owner \/ tm_role m = Some Role_admin)))
  /\ (status r <> 200%Z -> s' = s).
Proof.
  unfold TemplateMarketplace.handleUpdateTemplate.
  destruct (filter (fun t => N.eqb (tpl_id t) templateId) (templates s))
    as [|template [|t2 more]] eqn:Hf; simpl;
    try (intros H; inversion H; subst; split; [discriminate | reflexivity]).
  destruct (opt_uuid_is (tpl_created_by template) userId
            || TemplateMarketplace.checkTeamAdminAccess s (tpl_team_id template) userId)
    eqn:Hperm; simpl;
    [|intros H; inversion H; subst; split; [discriminate | reflexivity]].
  destruct (templates_update s templateId updateData) as [[updated s1]|];
    intros H; inversion H; subst; clear H;
    [|split; [discriminate | reflexivity]].
  split; [|intros Hne; exfalso; apply Hne; reflexivity].
  intros _. exists template. split; [reflexivity|].
  apply orb_true_iff in Hperm. destruct Hperm as [Hc | Hadmin].
  - left. apply opt_uuid_is_true; exact Hc.
  - right. unfold TemplateMarketplace.checkTeamAdminAccess in Hadmin.
    destruct (tpl_team_id template) as [team|]; [|discriminate].
    destruct (filter (fun tm => N.eqb (tm_team_id tm) team
                                && opt_uuid_is (tm_user_id tm) userId)
                (team_members s)) as [|m [|m2 rest]] eqn:Hm; simpl in Hadmin;
      try discriminate.
    assert (Hin : In m (filter (fun tm => N.eqb (tm_team_id tm) team
                                          && opt_uuid_is (tm_user_id tm) userId)
                          (team_members s))) by (rewrite Hm; left; reflexivity).
    apply filter_In in Hin. destruct Hin as [Hin Hkey].
    apply andb_true_iff in Hkey. destruct Hkey as [Hteam Huser].
    apply andb_true_iff in Hadmin. destruct Hadmin as [Hactive Hrole].
    exists team, m. repeat split.
    + exact Hin.
    + apply N.eqb_eq; exact Hteam.
    + apply opt_uuid_is_true; exact Huser.
    + apply member_status_beq_eq; exact Hactive.
    + destruct (tm_role m) as [[]|]; simpl in Hrole; try discriminate; tauto.
Qed.

Lemma handleUpdateTemplate_guard_witness :
  exists template,
    filter (fun t => N.eqb (tpl_id t) 32%N)
           (templates TemplateScenario.acme_with_template) = [template]
    /\ (tpl_created_by template = Some Scenario.bob
        \/ exists team m,
             tpl_team_id template = Some team
             /\ In m (team_members TemplateScenario.acme_with_template)
             /\ tm_team_id m = team /\ tm_user_id m = Some Scenario.bob
             /\ tm_status m = Status_active
             /\ (tm_role m = Some Role_owner \/ tm_role m = Some Role_admin)).
Proof.
  apply (proj1 (@handleUpdateTemplate_guard string UpdateScenario.rename_template
                  TemplateScenario.acme_with_template Scenario.bob 32%N
                  "acme kit"%string _ _ eq_refl)).
  reflexivity.
Defined.

(* ================================================================= *)
(** ** Edge function [team-management] *)

Lemma slug_loop_first_free (s : Store) (slug : string) (fuel counter : nat) (found : string) :
  TeamManagement.slug_loop fuel s slug counter = Some found ->
  exists k,
    (k < fuel)%nat
    /\ found = TeamManagement.testSlug slug (counter + k)
    /\ data (single (filter (fun t => String.eqb (t_slug t) found) (teams s))) = None
    /\ forall j, (j < k)%nat ->
         data (single (filter (fun t => String.eqb (t_slug t)
                                          (TeamManagement.testSlug slug (counter + j)))
                              (teams s))) <> None.
Proof.
  revert counter. induction fuel as [|fuel IH]; intros counter H; [discriminate|].
  simpl in H.
  destruct (data (single (filter (fun t => String.eqb (t_slug t)
                                             (TeamManagement.testSlug slug counter))
                                 (teams s)))) eqn:Hd.
  - apply IH in H. destruct H as [k [Hk [Hfound [Hfree Hused]]]].
    exists (S k). split; [lia|]. split.
    + rewrite Hfound. f_equal. lia.
    + split; [exact Hfree|].
      intros j Hj. destruct j as [|j].
      * rewrite Nat.add_0_r, Hd. discriminate.
      * replace (counter + S j)%nat with (S counter + j)%nat by lia.
        apply Hused. lia.
  - injection H as <-. exists 0%nat. rewrite Nat.add_0_r.
    split; [lia|]. split; [reflexivity|]. split; [exact Hd|]. intros j Hj; lia.
Qed.

Lemma single_none_unique (A : Type) (f : A -> bool) (l : list A) :
  (List.length (filter f l) <= 1)%nat ->
  data (single (filter f l)) = None -> forall x, In x l -> f x = false.
Proof.
  intros Hlen Hnone x Hin. destruct (f x) eqn:Hx; [|reflexivity].
  rewrite (@filter_at_most_one _ _ _ _ Hlen Hin Hx) in Hnone. discriminate.
Qed.

(** X19.  The slug loop of [handleCreateTeam] ends, and in a store
    where team slugs are unique it ends with the first of [slug],
    [slug-1], [slug-2], ... that no team uses, after at most as many
    collisions as there are teams. *)
Theorem slug_loop_finds_first_free (s : Store) (slug : string) :
  teams_slug_unique s ->
  exists k,
    (k <= List.length (teams s))%nat
    /\ TeamManagement.slug_loop (S (List.length (teams s))) s slug 0
       = Some (TeamManagement.testSlug slug k)
    /\ ~ In (TeamManagement.testSlug slug k) (map t_slug (teams s))
    /\ forall j, (j < k)%nat ->
                 In (TeamManagement.testSlug slug j) (map t_slug (teams s)).
Proof.
  intros Huniq.
  destruct (TeamManagement.slug_loop (S (List.length (teams s))) s slug 0)
    as [found|] eqn:Hloop.
  - destruct (@slug_loop_first_free _ _ _ _ _ Hloop) as [k [Hk [Hfound [Hfree Hused]]]].
    simpl in Hfound. subst found.
    exists k. split; [lia|]. split; [reflexivity|]. split.
    + intros Hin. apply in_map_iff in Hin. destruct Hin as [t [Hslug Hin]].
      pose proof (@single_none_unique _ _ _ (Huniq _) Hfree t Hin) as Hfalse.
      simpl in Hfalse. rewrite Hslug, String.eqb_refl in Hfalse. discriminate.
    + intros j Hj. specialize (Hused j Hj). simpl in Hused.
      destruct (filter (fun t => String.eqb (t_slug t) (TeamManagement.testSlug slug j))
                  (teams s)) as [|t rest] eqn:Hf; [exfalso; apply Hused; reflexivity|].
      assert (Hin : In t (filter (fun t => String.eqb (t_slug t)
                                             (TeamManagement.testSlug slug j)) (teams s)))
        by (rewrite Hf; left; reflexivity).
      apply filter_In in Hin. destruct Hin as [Hin Heq]. apply String.eqb_eq in Heq.
      rewrite <- Heq. apply in_map. exact Hin.
  - exfalso. exact (@slug_loop_terminates _ _ Hloop).
Qed.

Lemma slug_loop_finds_first_free_witness :
  exists k,
    (k <= List.length (teams TeamScenario.acme_invited))%nat
    /\ TeamManagement.slug_loop (S (List.length (teams TeamScenario.acme_invited)))
         TeamScenario.acme_invited "acme" 0
       = Some (TeamManagement.testSlug "acme" k)
    /\ ~ In (TeamManagement.testSlug "acme" k) (map t_slug (teams TeamScenario.acme_invited))
    /\ forall j, (j < k)%nat ->
                 In (TeamManagement.testSlug "acme" j)
                    (map t_slug (teams TeamScenario.acme_invited)).
Proof.
  apply (@slug_loop_finds_first_free TeamScenario.acme_invited "acme").
  intros slug. cbn -[String.eqb]. destruct (String.eqb "acme" slug); simpl; lia.
Defined.

Lemma chars_text (cs : list ascii) : Js.chars (Js.text cs) = cs.
Proof. apply list_ascii_of_string_of_list_ascii. Qed.

Lemma hyphenate_chars (in_run : bool) (cs : list ascii) :
  Forall (fun c => Js.is_lower c || Js.is_digit c || Ascii.eqb c "-" = true)
         (Js.hyphenate in_run cs).
Proof.
  revert in_run. induction cs as [|c rest IH]; intros in_run; simpl; [constructor|].
  destruct (Js.is_lower c || Js.is_digit c) eqn:Hc.
  - constructor; [rewrite Hc; reflexivity | apply IH].
  - destruct in_run; [apply IH|].
    constructor; [apply orb_true_r | apply IH].
Qed.

Lemma hyphenate_run_head (cs : list ascii) :
  forall rest, Js.hyphenate true cs <> "-"%char :: rest.
Proof.
  induction cs as [|c cs IH]; intros rest; simpl; [discriminate|].
  destruct (Js.is_lower c || Js.is_digit c) eqn:Hc; [|apply IH].
  intros H. injection H as Hc' _. subst c. discriminate.
Qed.

Lemma hyphenate_no_double (in_run : bool) (cs : list ascii) :
  forall l1 l2, Js.hyphenate in_run cs <> l1 ++ "-"%char :: "-"%char :: l2.
Proof.
  revert in_run. induction cs as [|c cs IH]; intros in_run l1 l2; simpl.
  - destruct l1; discriminate.
  - destruct (Js.is_lower c || Js.is_digit c) eqn:Hc.
    + destruct l1 as [|a l1]; simpl.
      * intros H. injection H as Hc' _. subst c. discriminate.
      * intros H. injection H as _ H. exact (IH _ _ _ H).
    + destruct in_run; [apply IH|].
      destruct l1 as [|a l1]; simpl.
      * intros H. injection H as H. exact (hyphenate_run_head _ H).
      * intros H. injection H as _ H. exact (IH _ _ _ H).
Qed.

Lemma strip_edge_hyphens_spec (cs : list ascii) :
  (forall l1 l2, cs <> l1 ++ "-"%char :: "-"%char :: l2) ->
  (forall rest, Js.strip_edge_hyphens cs <> "-"%char :: rest)
  /\ (forall front, Js.strip_edge_hyphens cs <> front ++ ["-"%char])
  /\ incl (Js.strip_edge_hyphens cs) cs.
Proof.
  intros Hno. unfold Js.strip_edge_hyphens.
  set (cs1 := match cs with
              | c :: rest => if Ascii.eqb c "-" then rest else cs
              | [] => []
              end).
  assert (H1 : (forall rest, cs1 <> "-"%char :: rest)
               /\ (forall l1 l2, cs1 <> l1 ++ "-"%char :: "-"%char :: l2)
               /\ incl cs1 cs).
  { unfold cs1. destruct cs as [|c rest]; [repeat split; try discriminate|].
    - intros l1 l2. destruct l1; discriminate.
    - apply incl_refl.
    - destruct (Ascii.eqb c "-") eqn:Hc.
      + apply Ascii.eqb_eq in Hc. subst c. repeat split.
        * intros r H. subst rest. exact (Hno [] r eq_refl).
        * intros l1 l2 H. subst rest. exact (Hno ("-"%char :: l1) l2 eq_refl).
        * apply incl_tl, incl_refl.
      + repeat split.
        * intros r H. injection H as H _. subst c. discriminate.
        * exact Hno.
        * apply incl_refl. }
  clearbody cs1. destruct H1 as [Hhead [Hno1 Hincl]].
  destruct (rev cs1) as [|c rest] eqn:Hrev.
  - assert (cs1 = []) by (rewrite <- (rev_involutive cs1), Hrev; reflexivity).
    subst cs1. repeat split; try discriminate.
    + intros front. destruct front; discriminate.
    + exact Hincl.
  - assert (Hcs1 : cs1 = rev rest ++ [c])
      by (rewrite <- (rev_involutive cs1), Hrev; reflexivity).
    destruct (Ascii.eqb c "-") eqn:Hc.
    + apply Ascii.eqb_eq in Hc. subst c. repeat split.
      * intros r H. apply (Hhead (r ++ ["-"%char])). rewrite Hcs1, H. reflexivity.
      * intros front H. apply (Hno1 front []). rewrite Hcs1, H, <- app_assoc. reflexivity.
      * intros x Hx. apply Hincl. rewrite Hcs1. apply in_or_app. left; exact Hx.
    + repeat split.
      * exact Hhead.
      * intros front H. rewrite Hcs1 in H. apply app_inj_tail in H.
        destruct H as [_ H]. subst c. discriminate.
      * exact Hincl.
Qed.

(** X20.  The slug that [handleCreateTeam] derives from a name is empty
    or passes the table's [valid_slug] check; it consists of lower-case
    letters, digits and hyphens, and neither starts nor ends with a
    hyphen. *)
Theorem slugify_is_a_slug (name : string) :
  (Js.slugify name = ""%string
   \/ TeamManagement.valid_slug (Js.slugify name) = true)
  /\ Forall (fun c => Js.is_lower c || Js.is_digit c || Ascii.eqb c "-" = true)
            (Js.chars (Js.slugify name))
  /\ (forall rest, Js.chars (Js.slugify name) <> "-"%char :: rest)
  /\ (forall front, Js.chars (Js.slugify name) <> front ++ ["-"%char]).
Proof.
  unfold Js.slugify.
  set (cs := Js.hyphenate false (Js.chars (Js.toLowerCase name))).
  destruct (@strip_edge_hyphens_spec cs (hyphenate_no_double false _))
    as [Hhead [Hlast Hincl]].
  assert (Hall : Forall (fun c => Js.is_lower c || Js.is_digit c || Ascii.eqb c "-" = true)
                        (Js.strip_edge_hyphens cs)).
  { apply Forall_forall. intros c Hc.
    pose proof (hyphenate_chars false (Js.chars (Js.toLowerCase name))) as H.
    rewrite Forall_forall in H. apply H, Hincl, Hc. }
  unfold TeamManagement.valid_slug. rewrite !chars_text.
  split; [|split; [exact Hall | split; assumption]].
  unfold Js.truthy.
  destruct (String.eqb (Js.text (Js.strip_edge_hyphens cs)) "") eqn:He.
  - left. apply String.eqb_eq; exact He.
  - right. simpl. apply forallb_forall. intros c Hc.
    rewrite Forall_forall in Hall. specialize (Hall c Hc).
    destruct (Js.is_lower c), (Js.is_digit c), (Ascii.eqb c "-"), (Js.is_upper c);
      simpl in *; try reflexivity; discriminate.
Qed.

Lemma teams_insert_row
    (s : Store) (name slug : string) (description : option string)
    (tier_label : string) (created_by : uuid) (team : teams_row) (s1 : Store) :
  TeamManagement.teams_insert s name slug description tier_label created_by = Some (team, s1) ->
  t_name team = name /\ t_slug team = slug /\ t_created_by team = Some created_by
  /\ t_is_active team = true
  /\ TeamManagement.valid_slug slug = true
  /\ ~ In slug (map t_slug (teams s))
  /\ project_collaborators s1 = project_collaborators s /\ projects s1 = projects s
  /\ templates s1 = templates s.
Proof.
  unfold TeamManagement.teams_insert.
  destruct (TeamManagement.tier_of_string tier_label); [|discriminate].
  destruct (TeamManagement.valid_slug slug); [|discriminate].
  destruct (existsb (fun t => String.eqb (t_slug t) slug) (teams s)) eqn:Hex;
    [discriminate|].
  destruct (TeamManagement.user_exists s created_by); [|discriminate].
  simpl. intros [= <- <-]. simpl. repeat split; try reflexivity.
  intros Hin. apply in_map_iff in Hin. destruct Hin as [t [Hslug Hin]].
  assert (existsb (fun t => String.eqb (t_slug t) slug) (teams s) = true).
  { apply existsb_exists. exists t. split; [exact Hin|]. apply String.eqb_eq; exact Hslug. }
  congruence.
Qed.

Lemma team_members_insert_row
    (s : Store) (team_id : uuid) (user_id : option uuid) (role : option member_role)
    (st : member_status) (token : option string) (invited_by : option uuid)
    (accepted_at : option timestamp) (row : team_members_row) (s1 : Store) :
  TeamManagement.team_members_insert s team_id user_id role st token invited_by accepted_at
  = Some (row, s1) ->
  tm_user_id row = user_id /\ tm_invitation_token row = token
  /\ tm_invited_by row = invited_by /\ tm_id row = next_uuid s
  /\ users s1 = users s /\ projects s1 = projects s /\ templates s1 = templates s
  /\ (exists uid, user_id = Some uid /\ TeamManagement.user_exists s uid = true
                  /\ forall tm, In tm (team_members s) -> tm_team_id tm = team_id ->
                                tm_user_id tm <> Some uid).
Proof.
  unfold TeamManagement.team_members_insert.
  destruct user_id as [uid|]; [|discriminate].
  destruct (TeamManagement.team_exists s team_id); [|discriminate].
  destruct (TeamManagement.user_exists s uid) eqn:Hu; [|discriminate].
  destruct (existsb (fun tm => N.eqb (tm_team_id tm) team_id
                               && opt_uuid_is (tm_user_id tm) uid) (team_members s))
    eqn:Hex; [discriminate|].
  simpl. destruct (_ && _); [|discriminate].
  intros [= <- <-]. simpl. do 7 (split; [reflexivity|]).
  exists uid. split; [reflexivity|]. split; [exact Hu|].
  intros tm Hin Hteam Huser.
  assert (existsb (fun tm => N.eqb (tm_team_id tm) team_id
                             && opt_uuid_is (tm_user_id tm) uid) (team_members s) = true).
  { apply existsb_exists. exists tm. split; [exact Hin|].
    apply andb_true_iff. split; [apply N.eqb_eq; exact Hteam|].
    apply opt_uuid_is_true; exact Huser. }
  congruence.
Qed.

(** X21.  A successful [handleCreateTeam]: the caller is on a tier
    that allows teams, the trimmed name has two characters or more; the
    new team carries the trimmed name, a valid slug that no earlier team
    uses, and the caller as creator; the caller gets the one new
    membership row, as active owner; and the caller's user row has the
    new team as current team and [is_team_owner] set. *)
Theorem handleCreateTeam_makes_caller_owner
    (s : Store) (userId : uuid) (teamData : TeamManagement.TeamCreateRequest)
    (userTier : option subscription_tier) (now : timestamp)
    (r : Response) (s' : Store) :
  TeamManagement.handleCreateTeam s userId teamData userTier now = (r, s') ->
  status r = 200%Z ->
  exists team owner,
    r = ok (Body_team team)
    /\ (exists tier, userTier = Some tier /\ In tier TeamManagement.team_tiers)
    /\ (2 <= String.length (Js.trim (TeamManagement.tc_name teamData)))%nat
    /\ t_name team = Js.trim (TeamManagement.tc_name teamData)
    /\ t_created_by team = Some userId
    /\ TeamManagement.valid_slug (t_slug team) = true
    /\ ~ In (t_slug team) (map t_slug (teams s))
    /\ teams s' = teams s ++ [team]
    /\ team_members s' = team_members s ++ [owner]
    /\ tm_team_id owner = t_id team /\ tm_user_id owner = Some userId
    /\ tm_role owner = Some Role_owner /\ tm_status owner = Status_active
    /\ (forall u, In u (users s') -> u_id u = userId ->
                  u_current_team_id u = Some (t_id team) /\ u_is_team_owner u = true).
Proof.
  unfold TeamManagement.handleCreateTeam.
  destruct userTier as [tier|]; cbn [negb];
    [|intros H; injection H as <- <-; simpl; discriminate].
  destruct (existsb (subscription_tier_beq tier) TeamManagement.team_tiers) eqn:Htier;
    cbn [negb]; [|intros H; injection H as <- <-; simpl; discriminate].
  destruct (negb (Js.truthy (TeamManagement.tc_name teamData))
            || (String.length (Js.trim (TeamManagement.tc_name teamData)) <? 2)) eqn:Hname;
    [intros H; injection H as <- <-; simpl; discriminate|].
  destruct (TeamManagement.slug_loop _ _ _ _) as [slug|];
    [|intros H; injection H as <- <-; simpl; discriminate].
  destruct (TeamManagement.teams_insert _ _ _ _ _ _) as [[team s1]|] eqn:Hteam;
    [|intros H; injection H as <- <-; simpl; discriminate].
  destruct (TeamManagement.team_members_insert s1 (t_id team) (Some userId)
              (Some Role_owner) Status_active None None (Some now))
    as [[owner s2]|] eqn:Hown;
    [|intros H; injection H as <- <-; simpl; discriminate].
  intros H _. injection H as Hr Hs'.
  pose proof (teams_insert_spec _ _ _ _ _ _ Hteam) as [Hid [Hteams [Hmembers [Husers _]]]].
  pose proof (teams_insert_row _ _ _ _ _ _ Hteam)
    as [Hn [Hslug [Hcb [_ [Hvalid [Hfree _]]]]]].
  pose proof (team_members_insert_spec _ _ _ _ _ _ _ _ Hown)
    as [Hoteam [Hrole [Hstatus [Hteams2 [Hmembers2 _]]]]].
  pose proof (team_members_insert_row _ _ _ _ _ _ _ _ Hown)
    as [Houser [_ [_ [_ [Husers2 _]]]]].
  destruct (update_then_log s2 userId
              (TeamManagement.set_current_team (t_id team) true)
              {| al_user_id := Some userId; al_team_id := Some (t_id team);
                 al_action := "team_created"; al_resource_type := "team";
                 al_resource_id := Some (t_id team) |}) as [Hm4 [Ht4 _]].
  exists team, owner. subst r.
  split; [reflexivity|]. split.
  { exists tier. split; [reflexivity|].
    apply existsb_exists in Htier. destruct Htier as [x [Hx Hbeq]].
    apply internal_subscription_tier_dec_bl in Hbeq. subst x. exact Hx. }
  apply orb_false_iff in Hname. destruct Hname as [_ Hlen].
  apply Nat.ltb_ge in Hlen.
  split; [exact Hlen|]. split; [exact Hn|]. split; [exact Hcb|].
  split; [rewrite Hslug; exact Hvalid|]. split; [rewrite Hslug; exact Hfree|].
  subst s'.
  split; [rewrite Ht4; congruence|]. split; [rewrite Hm4; congruence|].
  split; [exact Hoteam|]. split; [exact Houser|]. split; [exact Hrole|].
  split; [exact Hstatus|].
  intros u Hin Hu. unfold log_activity in Hin. cbn [users] in Hin.
  unfold users_update in Hin.
  assert (Hvalidate :
    forallb (fun x => validate_team_ownership s2
                        (TeamManagement.set_current_team (t_id team) true x))
            (filter (fun x => N.eqb (u_id x) userId) (users s2)) = true).
  { apply forallb_forall. intros x Hx. apply filter_In in Hx. destruct Hx as [_ Hx].
    apply N.eqb_eq in Hx. unfold validate_team_ownership. simpl.
    apply existsb_exists. exists owner. split.
    - rewrite Hmembers2. apply in_or_app. right. left. reflexivity.
    - rewrite Hoteam, N.eqb_refl, Houser, Hx, Hstatus. simpl.
      rewrite N.eqb_refl. reflexivity. }
  rewrite Hvalidate in Hin. simpl in Hin. apply in_map_iff in Hin.
  destruct Hin as [x [Hx _]]. destruct (N.eqb (u_id x) userId) eqn:Hxid.
  - subst u. simpl. split; reflexivity.
  - subst u. apply N.eqb_neq in Hxid. contradiction.
Qed.

Lemma handleCreateTeam_makes_caller_owner_witness :
  exists team owner,
    fst (TeamManagement.handleCreateTeam TeamScenario.no_team Scenario.alice
           {| TeamManagement.tc_name := "Acme"; TeamManagement.tc_slug := None;
              TeamManagement.tc_description := None;
              TeamManagement.tc_subscription_tier := None |}
           (Some Tier_pro_monthly) 1000%Z)
    = ok (Body_team team)
    /\ (exists tier, Some Tier_pro_monthly = Some tier /\ In tier TeamManagement.team_tiers)
    /\ (2 <= String.length (Js.trim "Acme"))%nat
    /\ t_name team = Js.trim "Acme"
    /\ t_created_by team = Some Scenario.alice
    /\ TeamManagement.valid_slug (t_slug team) = true
    /\ ~ In (t_slug team) (map t_slug (teams TeamScenario.no_team))
    /\ teams (snd (TeamManagement.handleCreateTeam TeamScenario.no_team Scenario.alice
           {| TeamManagement.tc_name := "Acme"; TeamManagement.tc_slug := None;
              TeamManagement.tc_description := None;
              TeamManagement.tc_subscription_tier := None |}
           (Some Tier_pro_monthly) 1000%Z))
       = teams TeamScenario.no_team ++ [team]
    /\ team_members (snd (TeamManagement.handleCreateTeam TeamScenario.no_team Scenario.alice
           {| TeamManagement.tc_name := "Acme"; TeamManagement.tc_slug := None;
              TeamManagement.tc_description := None;
              TeamManagement.tc_subscription_tier := None |}
           (Some Tier_pro_monthly) 1000%Z))
       = team_members TeamScenario.no_team ++ [owner]
    /\ tm_team_id owner = t_id team /\ tm_user_id owner = Some Scenario.alice
    /\ tm_role owner = Some Role_owner /\ tm_status owner = Status_active
    /\ (forall u,
          In u (users (snd (TeamManagement.handleCreateTeam TeamScenario.no_team Scenario.alice
           {| TeamManagement.tc_name := "Acme"; TeamManagement.tc_slug := None;
              TeamManagement.tc_description := None;
              TeamManagement.tc_subscription_tier := None |}
           (Some Tier_pro_monthly) 1000%Z))) ->
          u_id u = Scenario.alice ->
          u_current_team_id u = Some (t_id team) /\ u_is_team_owner u = true).
Proof.
  apply (@handleCreateTeam_makes_caller_owner TeamScenario.no_team Scenario.alice
           {| TeamManagement.tc_name := "Acme"; TeamManagement.tc_slug := None;
              TeamManagement.tc_description := None;
              TeamManagement.tc_subscription_tier := None |}
           (Some Tier_pro_monthly) 1000%Z _ _ eq_refl).
  reflexivity.
Defined.

(** X22.  [handleCreateTeam] leaves no half-made team behind: from a
    store that satisfies the team invariant, every answer other than 200
    comes with an unchanged store. *)
Theorem handleCreateTeam_failure_changes_nothing
    (s : Store) (userId : uuid) (teamData : TeamManagement.TeamCreateRequest)
    (userTier : option subscription_tier) (now : timestamp) :
  team_invariant s ->
  status (fst (TeamManagement.handleCreateTeam s userId teamData userTier now)) <> 200%Z ->
  snd (TeamManagement.handleCreateTeam s userId teamData userTier now) = s.
Proof.
  intros Hinv. unfold TeamManagement.handleCreateTeam.
  destruct (negb (match userTier with Some _ => _ | None => _ end)); [reflexivity|].
  destruct (negb _ || _); [reflexivity|].
  destruct (TeamManagement.slug_loop _ _ _ _) as [slug|]; [|reflexivity].
  destruct (TeamManagement.teams_insert _ _ _ _ _ _) as [[team s1]|] eqn:Hteam;
    [|reflexivity].
  apply teams_insert_spec in Hteam.
  destruct Hteam as [Hid [Hteams [Hmembers [Husers [Hnext Huser]]]]].
  destruct (TeamManagement.team_members_insert s1 (t_id team) (Some userId)
              (Some Role_owner) Status_active None None (Some now))
    as [[owner s2]|] eqn:Hown.
  - simpl. intros Hne. exfalso. apply Hne. reflexivity.
  - exfalso. revert Hown.
    apply (@owner_insert_succeeds s s1 team userId now); assumption.
Qed.

Lemma handleCreateTeam_failure_changes_nothing_witness :
  snd (TeamManagement.handleCreateTeam TeamScenario.acme_invited Scenario.bob
         {| TeamManagement.tc_name := "Bobs"; TeamManagement.tc_slug := None;
            TeamManagement.tc_description := None;
            TeamManagement.tc_subscription_tier := None |}
         (Some Tier_free) 1000%Z)
  = TeamScenario.acme_invited.
Proof.
  apply (@handleCreateTeam_failure_changes_nothing TeamScenario.acme_invited Scenario.bob
           {| TeamManagement.tc_name := "Bobs"; TeamManagement.tc_slug := None;
              TeamManagement.tc_description := None;
              TeamManagement.tc_subscription_tier := None |}
           (Some Tier_free) 1000%Z).
  - apply store_ok_invariant. reflexivity.
  - simpl. discriminate.
Defined.

Lemma membership_of_admin (s : Store) (teamId userId : uuid) :
  TeamManagement.is_team_admin (TeamManagement.membership_of s teamId userId) = true ->
  exists admin,
    TeamManagement.membership_of s teamId userId = Some admin
    /\ In admin (team_members s) /\ tm_team_id admin = teamId
    /\ tm_user_id admin = Some userId /\ tm_status admin = Status_active
    /\ (tm_role admin = Some Role_owner \/ tm_role admin = Some Role_admin).
Proof.
  unfold TeamManagement.membership_of.
  destruct (filter (fun tm => N.eqb (tm_team_id tm) teamId
                              && opt_uuid_is (tm_user_id tm) userId) (team_members s))
    as [|admin [|m2 rest]] eqn:Hf; simpl; try discriminate.
  intros Hadmin. exists admin. split; [reflexivity|].
  assert (Hin : In admin (filter (fun tm => N.eqb (tm_team_id tm) teamId
                                            && opt_uuid_is (tm_user_id tm) userId)
                            (team_members s))) by (rewrite Hf; left; reflexivity).
  apply filter_In in Hin. destruct Hin as [Hin Hkey].
  apply andb_true_iff in Hkey. destruct Hkey as [Hteam Huser].
  apply andb_true_iff in Hadmin. destruct Hadmin as [Hactive Hrole].
  split; [exact Hin|]. split; [apply N.eqb_eq; exact Hteam|].
  split; [apply opt_uuid_is_true; exact Huser|].
  split; [apply member_status_beq_eq; exact Hactive|].
  apply orb_true_iff in Hrole. destruct Hrole as [H | H];
    apply role_is_true in H; tauto.
Qed.

(** X23.  [handleInviteMember] answers 200 only when the caller is an
    active owner or admin of the team, the address has the shape of an
    e-mail address and belongs to exactly one user, who has no row in the
    team yet; it then adds one pending row for that user with the token,
    the caller as inviter, and as role what the request carries: one of
    owner, admin, member and guest as sent, member when the request has
    no role, NULL for a JSON null.  Every other answer leaves the store
    as it was. *)
Theorem handleInviteMember_guards
    (s : Store) (userId teamId : uuid) (inviteData : TeamManagement.TeamInviteRequest)
    (inviteToken : string) (r : Response) (s' : Store) :
  TeamManagement.handleInviteMember s userId teamId inviteData inviteToken = (r, s') ->
  (status r = 200%Z ->
   exists admin invitee invitation,
     TeamManagement.membership_of s teamId userId = Some admin
     /\ tm_status admin = Status_active
     /\ (tm_role admin = Some Role_owner \/ tm_role admin = Some Role_admin)
     /\ Js.emailRegex_test (TeamManagement.ti_email inviteData) = true
     /\ filter (fun u => String.eqb (u_email u) (TeamManagement.ti_email inviteData))
               (users s) = [invitee]
     /\ (forall tm, In tm (team_members s) -> tm_team_id tm = teamId ->
                    tm_user_id tm <> Some (u_id invitee))
     /\ team_members s' = team_members s ++ [invitation]
     /\ tm_team_id invitation = teamId
     /\ tm_user_id invitation = Some (u_id invitee)
     /\ tm_status invitation = Status_pending
     /\ TeamManagement.role_column (TeamManagement.ti_role inviteData)
        = Some (tm_role invitation)
     /\ tm_invitation_token invitation = Some inviteToken
     /\ tm_invited_by invitation = Some userId)
  /\ (status r <> 200%Z -> s' = s).
Proof.
  unfold TeamManagement.handleInviteMember.
  destruct (TeamManagement.is_team_admin (TeamManagement.membership_of s teamId userId))
    eqn:Hadmin; cbn [negb];
    [|intros H; injection H as <- <-; split; [simpl; discriminate | reflexivity]].
  destruct (Js.emailRegex_test (TeamManagement.ti_email inviteData)) eqn:Hmail; cbn [negb];
    [|intros H; injection H as <- <-; split; [simpl; discriminate | reflexivity]].
  destruct (match data (single (filter (fun u => String.eqb (u_email u)
                                                   (TeamManagement.ti_email inviteData))
                                       (users s))) with
            | Some u => TeamManagement.membership_of s teamId (u_id u)
            | None => None
            end) as [m|] eqn:Hm;
    [intros H; injection H as <- <-; split; [simpl; discriminate | reflexivity]|].
  destruct (TeamManagement.role_column (TeamManagement.ti_role inviteData))
    as [role|] eqn:Hcol;
    [|intros H; injection H as <- <-; split; [simpl; discriminate | reflexivity]].
  destruct (TeamManagement.team_members_insert _ _ _ _ _ _ _ _)
    as [[invitation s1]|] eqn:Hins;
    [|intros H; injection H as <- <-; split; [simpl; discriminate | reflexivity]].
  intros H; injection H as <- <-. split; [|simpl; intros Hne; exfalso; apply Hne; reflexivity].
  intros _.
  destruct (membership_of_admin _ _ _ Hadmin)
    as [admin [Hadm [_ [_ [_ [Hactive Hrole]]]]]].
  pose proof (team_members_insert_spec _ _ _ _ _ _ _ _ Hins)
    as [Hteam [Hr [Hst [_ [Hmembers _]]]]].
  pose proof (team_members_insert_row _ _ _ _ _ _ _ _ Hins)
    as [Huser [Htok [Hby [_ [_ [_ [_ [uid [Huid [_ Hfresh]]]]]]]]]].
  destruct (filter (fun u => String.eqb (u_email u) (TeamManagement.ti_email inviteData))
              (users s)) as [|invitee [|u2 rest]] eqn:Hf; simpl in Huid; try discriminate.
  injection Huid as Huid. subst uid.
  exists admin, invitee, invitation.
  split; [exact Hadm|]. split; [exact Hactive|]. split; [exact Hrole|].
  split; [reflexivity|]. split; [reflexivity|]. split; [exact Hfresh|].
  split; [exact Hmembers|]. split; [exact Hteam|]. split; [exact Huser|].
  split; [exact Hst|]. split; [rewrite Hr; reflexivity|].
  split; [exact Htok | exact Hby].
Qed.

Lemma handleInviteMember_guards_witness :
  exists admin invitee invitation,
    TeamManagement.membership_of InviteScenario.acme_and_carol 40%N Scenario.bob = Some admin
    /\ tm_status admin = Status_active
    /\ (tm_role admin = Some Role_owner \/ tm_role admin = Some Role_admin)
    /\ Js.emailRegex_test "carol@x.com" = true
    /\ filter (fun u => String.eqb (u_email u) "carol@x.com")
              (users InviteScenario.acme_and_carol) = [invitee]
    /\ (forall tm, In tm (team_members InviteScenario.acme_and_carol) ->
                   tm_team_id tm = 40%N -> tm_user_id tm <> Some (u_id invitee))
    /\ team_members
         (snd (TeamManagement.handleInviteMember InviteScenario.acme_and_carol
                 Scenario.bob 40%N InviteScenario.invite_carol "tok-carol"))
       = team_members InviteScenario.acme_and_carol ++ [invitation]
    /\ tm_team_id invitation = 40%N
    /\ tm_user_id invitation = Some (u_id invitee)
    /\ tm_status invitation = Status_pending
    /\ Some (Some Role_guest) = Some (tm_role invitation)
    /\ tm_invitation_token invitation = Some "tok-carol"%string
    /\ tm_invited_by invitation = Some Scenario.bob.
Proof.
  apply (proj1 (@handleInviteMember_guards InviteScenario.acme_and_carol Scenario.bob 40%N
                  InviteScenario.invite_carol "tok-carol" _ _ eq_refl)).
  reflexivity.
Defined.

(** X24.  [handleUpdateMember], whatever the body of the request and
    whatever the database makes of it: a 200 is answered only when the
    caller is an active owner or admin of the team, the member row
    belongs to that team, and a row with role owner only when the caller
    is an owner; the answer then carries the row that the update
    statement returned and the store is the one that statement left.
    Every other answer leaves the store as it was. *)
Theorem handleUpdateMember_guards
    (UpdateData : Type)
    (team_members_update : Store -> uuid -> UpdateData -> option (team_members_row * Store))
    (s : Store) (userId teamId memberId : uuid) (updateData : UpdateData)
    (r : Response) (s' : Store) :
  TeamManagement.handleUpdateMember team_members_update s userId teamId memberId updateData
  = (r, s') ->
  (status r = 200%Z ->
   exists admin target updated,
     TeamManagement.membership_of s teamId userId = Some admin
     /\ tm_status admin = Status_active
     /\ (tm_role admin = Some Role_owner \/ tm_role admin = Some Role_admin)
     /\ filter (fun tm => N.eqb (tm_id tm) memberId && N.eqb (tm_team_id tm) teamId)
               (team_members s) = [target]
     /\ In target (team_members s)
     /\ tm_id target = memberId /\ tm_team_id target = teamId
     /\ (tm_role target = Some Role_owner -> tm_role admin = Some Role_owner)
     /\ team_members_update s memberId updateData = Some (updated, s')
     /\ r = ok (Body_member updated))
  /\ (status r <> 200%Z -> s' = s).
Proof.
  unfold TeamManagement.handleUpdateMember.
  destruct (TeamManagement.membership_of s teamId userId) as [admin|] eqn:Hadm;
    [|intros H; injection H as <- <-; split; [simpl; discriminate | reflexivity]].
  destruct (TeamManagement.is_team_admin (Some admin)) eqn:Hadmin; cbn [negb];
    [|intros H; injection H as <- <-; split; [simpl; discriminate | reflexivity]].
  destruct (filter (fun tm => N.eqb (tm_id tm) memberId && N.eqb (tm_team_id tm) teamId)
              (team_members s)) as [|target [|t2 rest]] eqn:Hf; simpl;
    try (intros H; injection H as <- <-; split; [simpl; discriminate | reflexivity]).
  destruct (role_is (tm_role target) Role_owner
            && negb (role_is (tm_role admin) Role_owner)) eqn:Howner;
    [intros H; injection H as <- <-; split; [simpl; discriminate | reflexivity]|].
  destruct (team_members_update s memberId updateData) as [[updated s1]|] eqn:Hup;
    [|intros H; injection H as <- <-; split; [simpl; discriminate | reflexivity]].
  intros H; injection H as <- <-.
  split; [|simpl; intros Hne; exfalso; apply Hne; reflexivity].
  intros _.
  assert (Hin : In target (filter (fun tm => N.eqb (tm_id tm) memberId
                                             && N.eqb (tm_team_id tm) teamId)
                             (team_members s))) by (rewrite Hf; left; reflexivity).
  apply filter_In in Hin. destruct Hin as [Hin Hkey].
  apply andb_true_iff in Hkey. destruct Hkey as [Hid Hteam].
  unfold TeamManagement.is_team_admin in Hadmin.
  apply andb_true_iff in Hadmin. destruct Hadmin as [Hactive Hrole].
  exists admin, target, updated.
  split; [reflexivity|]. split; [apply member_status_beq_eq; exact Hactive|].
  split.
  { apply orb_true_iff in Hrole. destruct Hrole as [H | H];
      apply role_is_true in H; tauto. }
  split; [reflexivity|].
  split; [exact Hin|]. split; [apply N.eqb_eq; exact Hid|].
  split; [apply N.eqb_eq; exact Hteam|].
  split.
  { intros Ht. rewrite Ht in Howner. simpl in Howner.
    apply negb_false_iff in Howner. apply role_is_true; exact Howner. }
  split; reflexivity.
Qed.

Lemma handleUpdateMember_guards_witness :
  exists admin target updated,
    TeamManagement.membership_of TeamScenario.acme_with_admin 40%N Scenario.alice
    = Some admin
    /\ tm_status admin = Status_active
    /\ (tm_role admin = Some Role_owner \/ tm_role admin = Some Role_admin)
    /\ filter (fun tm => N.eqb (tm_id tm) 42%N && N.eqb (tm_team_id tm) 40%N)
              (team_members TeamScenario.acme_with_admin) = [target]
    /\ In target (team_members TeamScenario.acme_with_admin)
    /\ tm_id target = 42%N /\ tm_team_id target = 40%N
    /\ (tm_role target = Some Role_owner -> tm_role admin = Some Role_owner)
    /\ TeamScenario.update_role TeamScenario.acme_with_admin 42%N Role_member
       = Some (updated,
               snd (TeamManagement.handleUpdateMember TeamScenario.update_role
                      TeamScenario.acme_with_admin Scenario.alice 40%N 42%N Role_member))
    /\ fst (TeamManagement.handleUpdateMember TeamScenario.update_role
              TeamScenario.acme_with_admin Scenario.alice 40%N 42%N Role_member)
       = ok (Body_member updated).
Proof.
  apply (proj1 (@handleUpdateMember_guards member_role TeamScenario.update_role
                  TeamScenario.acme_with_admin Scenario.alice 40%N 42%N Role_member
                  _ _ eq_refl)).
  reflexivity.
Defined.

(** X25.  A successful [handleAcceptInvitation] makes the joined team
    the caller's current team only if the caller had none: a caller with
    a current team keeps it (the users table is unchanged); a caller
    without one gets the invitation's team, and the trigger
    [validate_team_ownership] lets that update through. *)
Theorem accept_sets_current_team_if_unset
    (s : Store) (userId : uuid) (inviteToken : string) (now : timestamp)
    (r : Response) (s' : Store) (u : users_row) :
  TeamManagement.handleAcceptInvitation s userId inviteToken now = (r, s') ->
  status r = 200%Z ->
  filter (fun x => N.eqb (u_id x) userId) (users s) = [u] ->
  exists invitation,
    data (TeamManagement.find_invitation s inviteToken) = Some invitation
    /\ (forall current, u_current_team_id u = Some current -> users s' = users s)
    /\ (u_current_team_id u = None ->
        users s'
        = map (fun x => if N.eqb (u_id x) userId
                        then TeamManagement.set_current_team (tm_team_id invitation)
                               (u_is_team_owner x) x
                        else x)
              (users s)).
Proof.
  unfold TeamManagement.handleAcceptInvitation.
  destruct (data (TeamManagement.find_invitation s inviteToken)) as [inv|] eqn:Hfind;
    [|intros H; injection H as <- <-; simpl; discriminate].
  destruct (error _); [intros H; injection H as <- <-; simpl; discriminate|].
  destruct (match tm_user_id inv with Some _ => _ | None => _ end);
    [intros H; injection H as <- <-; simpl; discriminate|].
  destruct (TeamManagement.team_of s (tm_team_id inv)) as [team|];
    [|intros H; injection H as <- <-; simpl; discriminate].
  destruct (_ <=? _)%Z; [intros H; injection H as <- <-; simpl; discriminate|].
  destruct (TeamManagement.accept_allowed s inv userId) eqn:Hallowed; cbn [negb];
    [|intros H; injection H as <- <-; simpl; discriminate].
  intros H _ Hu. injection H as _ <-.
  exists inv. split; [reflexivity|].
  cbn [users set_team_members]. rewrite Hu. cbn [single data].
  split.
  - intros current Hcur. rewrite Hcur. reflexivity.
  - intros Hnone. rewrite Hnone. unfold log_activity. cbn [users].
    unfold users_update. cbn [users set_team_members]. rewrite Hu. cbn [forallb].
    replace (validate_team_ownership _ _) with true; [reflexivity|].
    symmetry. unfold validate_team_ownership. cbn [u_current_team_id
      TeamManagement.set_current_team team_members set_team_members u_id].
    assert (Hinv : In inv (team_members s)).
    { unfold TeamManagement.find_invitation in Hfind.
      destruct (filter (fun tm => opt_string_is (tm_invitation_token tm) inviteToken
                                  && member_status_beq (tm_status tm) Status_pending)
                  (team_members s)) as [|x [|y more]] eqn:Hf; simpl in Hfind;
        try discriminate.
      injection Hfind as ->.
      assert (H : In inv (filter (fun tm => opt_string_is (tm_invitation_token tm) inviteToken
                                            && member_status_beq (tm_status tm) Status_pending)
                            (team_members s))) by (rewrite Hf; left; reflexivity).
      apply filter_In in H. tauto. }
    assert (Hid : u_id u = userId).
    { assert (H : In u (filter (fun x => N.eqb (u_id x) userId) (users s)))
        by (rewrite Hu; left; reflexivity).
      apply filter_In in H. destruct H as [_ H]. apply N.eqb_eq; exact H. }
    apply existsb_exists. exists (TeamManagement.accept_row userId now inv). split.
    + apply in_map_iff. exists inv. rewrite N.eqb_refl. split; [reflexivity | exact Hinv].
    + simpl. rewrite N.eqb_refl, Hid, N.eqb_refl. reflexivity.
Qed.

Lemma accept_sets_current_team_if_unset_witness :
  exists invitation,
    data (TeamManagement.find_invitation TeamScenario.acme_invited "tok-bob")
    = Some invitation
    /\ (forall current,
          u_current_team_id (Scenario.user Scenario.bob "bob@x.com" Tier_free 0%Z)
          = Some current ->
          users (snd (TeamManagement.handleAcceptInvitation TeamScenario.acme_invited
                        Scenario.bob "tok-bob" 2000%Z))
          = users TeamScenario.acme_invited)
    /\ (u_current_team_id (Scenario.user Scenario.bob "bob@x.com" Tier_free 0%Z) = None ->
        users (snd (TeamManagement.handleAcceptInvitation TeamScenario.acme_invited
                      Scenario.bob "tok-bob" 2000%Z))
        = map (fun x => if N.eqb (u_id x) Scenario.bob
                        then TeamManagement.set_current_team (tm_team_id invitation)
                               (u_is_team_owner x) x
                        else x)
              (users TeamScenario.acme_invited)).
Proof.
  apply (@accept_sets_current_team_if_unset TeamScenario.acme_invited Scenario.bob
           "tok-bob" 2000%Z _ _ (Scenario.user Scenario.bob "bob@x.com" Tier_free 0%Z)
           eq_refl); reflexivity.
Defined.

(** X26.  [handleGetInvitation] and [handleAcceptInvitation] look the
    invitation up in the same way: the first answers 200 for a token
    exactly when the second does not answer 404 for it; and once an
    acceptance has succeeded the token can no longer be looked up. *)
Theorem invitation_lookup_agrees_with_accept
    (s : Store) (inviteToken : string) (userId : uuid) (now : timestamp) :
  (answer_status (TeamManagement.handleGetInvitation s inviteToken) = 200%Z <->
   status (fst (TeamManagement.handleAcceptInvitation s userId inviteToken now)) <> 404%Z)
  /\ (status (fst (TeamManagement.handleAcceptInvitation s userId inviteToken now)) = 200%Z ->
      TeamManagement.handleGetInvitation
        (snd (TeamManagement.handleAcceptInvitation s userId inviteToken now)) inviteToken
      = Answer_error 404 "Invalid or expired invitation").
Proof.
  split.
  - unfold TeamManagement.handleGetInvitation, TeamManagement.handleAcceptInvitation.
    destruct (data (TeamManagement.find_invitation s inviteToken)) as [inv|];
      [|simpl; split; [discriminate | intros H; exfalso; apply H; reflexivity]].
    destruct (error _);
      [simpl; split; [discriminate | intros H; exfalso; apply H; reflexivity]|].
    simpl answer_status. split; [intros _ | reflexivity].
    destruct (match tm_user_id inv with Some _ => _ | None => _ end); [simpl; discriminate|].
    destruct (TeamManagement.team_of s (tm_team_id inv)); [|simpl; discriminate].
    destruct (_ <=? _)%Z; [simpl; discriminate|].
    destruct (negb _); simpl; discriminate.
  - intros Hok.
    destruct (TeamManagement.handleAcceptInvitation s userId inviteToken now)
      as [r s'] eqn:Hcall.
    simpl in Hok. simpl snd.
    destruct (@handleAcceptInvitation_success _ _ _ _ _ _ Hcall Hok)
      as [inv [team [Hf [_ [_ [_ [_ [Hrows _]]]]]]]].
    unfold TeamManagement.handleGetInvitation, TeamManagement.find_invitation.
    replace (filter (fun tm => opt_string_is (tm_invitation_token tm) inviteToken
                               && member_status_beq (tm_status tm) Status_pending)
               (team_members s')) with (@nil team_members_row); [reflexivity|].
    symmetry. apply filter_nothing. intros tm Hin.
    rewrite Hrows in Hin. apply in_map_iff in Hin. destruct Hin as [old [Hnew Hold]].
    destruct (N.eqb (tm_id old) (tm_id inv)) eqn:Hid.
    + subst tm. reflexivity.
    + subst tm.
      destruct (opt_string_is (tm_invitation_token old) inviteToken
                && member_status_beq (tm_status old) Status_pending) eqn:Hp; [|reflexivity].
      rewrite (@filter_singleton _ _ _ _ _ Hf Hold Hp), N.eqb_refl in Hid. discriminate.
Qed.

Lemma invitation_lookup_agrees_with_accept_witness :
  TeamManagement.handleGetInvitation
    (snd (TeamManagement.handleAcceptInvitation TeamScenario.acme_invited Scenario.bob
            "tok-bob" 2000%Z)) "tok-bob"
  = Answer_error 404 "Invalid or expired invitation".
Proof.
  apply (proj2 (@invitation_lookup_agrees_with_accept TeamScenario.acme_invited "tok-bob"
                  Scenario.bob 2000%Z)).
  reflexivity.
Defined.

(* ================================================================= *)
(** ** Edge function [generate-scaffold] *)

Lemma generate_status
    (openAIApiKey : option string)
    (build_prompt : GenerateScaffold.GenerateScaffoldRequest -> option templates_row -> string)
    (openai_chat_completions : string -> option string)
    (JSON_parse : string -> option json)
    (w : GenerateScaffold.World) (req : GenerateScaffold.Request)
    (uid : uuid) (userData : users_row) :
  let answer := GenerateScaffold.generate openAIApiKey build_prompt openai_chat_completions JSON_parse
                  w req uid userData in
  status (fst answer) <> 429%Z
  /\ (status (fst answer) <> 200%Z -> GenerateScaffold.db (snd answer) = GenerateScaffold.db w)
  /\ (status (fst answer) = 400%Z ->
      GenerateScaffold.openai_calls (snd answer) = GenerateScaffold.openai_calls w)
  /\ (exists sent, GenerateScaffold.openai_calls (snd answer)
                   = GenerateScaffold.openai_calls w ++ sent
                   /\ (List.length sent <= 1)%nat)
  /\ (status (fst answer) = 200%Z ->
      exists body project,
        GenerateScaffold.req_body req = Some body
        /\ projects (GenerateScaffold.db (snd answer))
           = projects (GenerateScaffold.db w) ++ [project]
        /\ p_user_id project = uid
        /\ p_id project = next_uuid (GenerateScaffold.db w)
        /\ p_name project = GenerateScaffold.generateProjectName (GenerateScaffold.appIdea body)
        /\ p_status project = PS_generated
        /\ List.length (GenerateScaffold.openai_calls (snd answer))
           = S (List.length (GenerateScaffold.openai_calls w))).
Proof.
  unfold GenerateScaffold.generate.
  destruct (GenerateScaffold.req_body req) as [body|].
  2:{ simpl. repeat split; try discriminate.
      exists []. rewrite app_nil_r. split; [reflexivity | simpl; lia]. }
  destruct (negb (Js.truthy (GenerateScaffold.appIdea body))
            || negb (Js.truthy (GenerateScaffold.frontendStack body))).
  { simpl. repeat split; try discriminate.
    exists []. rewrite app_nil_r. split; [reflexivity | simpl; lia]. }
  unfold GenerateScaffold.generateScaffoldWithAI.
  destruct openAIApiKey as [key|].
  2:{ simpl. repeat split; try discriminate.
      exists []. rewrite app_nil_r. split; [reflexivity | simpl; lia]. }
  destruct (negb (Js.truthy key)).
  { simpl. repeat split; try discriminate.
    exists []. rewrite app_nil_r. split; [reflexivity | simpl; lia]. }
  destruct (openai_chat_completions _) as [aiResponse|].
  2:{ simpl. repeat split; try discriminate.
      eexists [_]. split; [reflexivity | simpl; lia]. }
  cbn [GenerateScaffold.db GenerateScaffold.openai_calls].
  destruct (GenerateScaffold.projects_insert _ _ _ _ _ _) as [[project s1]|] eqn:Hins.
  2:{ simpl. repeat split; try discriminate.
      eexists [_]. split; [reflexivity | simpl; lia]. }
  cbn [fst snd status ok GenerateScaffold.db GenerateScaffold.openai_calls].
  split; [discriminate|]. split; [intros H; exfalso; apply H; reflexivity|].
  split; [discriminate|].
  split; [eexists [_]; split; [reflexivity | simpl; lia]|].
  intros _. exists body, project. split; [reflexivity|].
  unfold GenerateScaffold.projects_insert in Hins.
  destruct (GenerateScaffold.tech_stack_of_string _); [|discriminate].
  destruct (match GenerateScaffold.backendStack body with Some _ => _ | None => _ end);
    [|discriminate].
  destruct (match GenerateScaffold.authType body with Some _ => _ | None => _ end);
    [|discriminate].
  destruct (_ && _ && _); [|discriminate].
  injection Hins as <- <-.
  unfold log_usage. cbn [projects].
  assert (Hp : forall s0 uid0 patch, projects (users_update s0 uid0 patch) = projects s0).
  { intros s0 uid0 patch. unfold users_update. destruct (forallb _ _); reflexivity. }
  destruct (GenerateScaffold.counter_ok _ && GenerateScaffold.counter_ok _);
    rewrite ?Hp; cbn [projects p_user_id p_id p_name p_status];
    (repeat split; try reflexivity); rewrite length_app; simpl; lia.
Qed.

(** X27.  [serve] answers 429 only at the limit: the caller is
    authenticated and has a user row, the tier has an entry in [limits]
    other than -1, and the monthly count has reached it.  Users on a tier
    without entry, or with the entry -1, are never refused for quota. *)
Theorem quota_refusal_only_at_the_limit
    (openAIApiKey : option string)
    (build_prompt : GenerateScaffold.GenerateScaffoldRequest -> option templates_row -> string)
    (openai_chat_completions : string -> option string)
    (JSON_parse : string -> option json)
    (w : GenerateScaffold.World) (req : GenerateScaffold.Request) :
  status (fst (GenerateScaffold.serve openAIApiKey build_prompt openai_chat_completions JSON_parse
                 w req)) = 429%Z ->
  exists uid userData limit,
    GenerateScaffold.authorization req = Some (Some uid)
    /\ filter (fun u => N.eqb (u_id u) uid) (users (GenerateScaffold.db w)) = [userData]
    /\ GenerateScaffold.limits (u_subscription_tier userData) = Some limit
    /\ limit <> (-1)%Z
    /\ (limit <= u_monthly_generations userData)%Z
    /\ GenerateScaffold.serve openAIApiKey build_prompt openai_chat_completions JSON_parse w req
       = ({| status := 429;
             body := Body_quota "Monthly generation limit reached" limit
                                (u_monthly_generations userData) |}, w).
Proof.
  unfold GenerateScaffold.serve, GenerateScaffold.load_user.
  destruct (GenerateScaffold.authorization req) as [[uid|]|]; try (simpl; discriminate).
  destruct (filter (fun u => N.eqb (u_id u) uid) (users (GenerateScaffold.db w)))
    as [|userData [|u2 rest]] eqn:Hf; simpl; try discriminate.
  unfold GenerateScaffold.finish.
  destruct (GenerateScaffold.limits (u_subscription_tier userData)) as [limit|] eqn:Hl.
  - destruct (GenerateScaffold.limit_reached (Some limit) (u_monthly_generations userData))
      eqn:Hr.
    + intros _. exists uid, userData, limit.
      unfold GenerateScaffold.limit_reached in Hr.
      apply andb_true_iff in Hr. destruct Hr as [Hne Hle].
      apply negb_true_iff, Z.eqb_neq in Hne. apply Z.leb_le in Hle.
      repeat split; assumption || reflexivity.
    + intros H. exfalso. revert H. apply (generate_status openAIApiKey build_prompt openai_chat_completions JSON_parse
                                        w req uid userData).
  - intros H. exfalso. revert H. apply (generate_status openAIApiKey build_prompt openai_chat_completions JSON_parse
                                        w req uid userData).
Qed.

(** X28.  What one request does to the world: an answer other than 200
    leaves the database as it was; a 200 adds exactly one project, owned
    by the caller, named by [generateProjectName] and in status
    generated, after exactly one call of the external generator; no
    request calls the generator more than once. *)
Theorem serve_effect_on_the_world
    (openAIApiKey : option string)
    (build_prompt : GenerateScaffold.GenerateScaffoldRequest -> option templates_row -> string)
    (openai_chat_completions : string -> option string)
    (JSON_parse : string -> option json)
    (w : GenerateScaffold.World) (req : GenerateScaffold.Request) :
  let answer := GenerateScaffold.serve openAIApiKey build_prompt openai_chat_completions JSON_parse
                  w req in
  (status (fst answer) <> 200%Z -> GenerateScaffold.db (snd answer) = GenerateScaffold.db w)
  /\ (exists sent, GenerateScaffold.openai_calls (snd answer)
                   = GenerateScaffold.openai_calls w ++ sent
                   /\ (List.length sent <= 1)%nat)
  /\ (status (fst answer) = 200%Z ->
      exists uid body project,
        GenerateScaffold.authorization req = Some (Some uid)
        /\ GenerateScaffold.req_body req = Some body
        /\ projects (GenerateScaffold.db (snd answer))
           = projects (GenerateScaffold.db w) ++ [project]
        /\ p_user_id project = uid
        /\ p_id project = next_uuid (GenerateScaffold.db w)
        /\ p_name project = GenerateScaffold.generateProjectName (GenerateScaffold.appIdea body)
        /\ p_status project = PS_generated
        /\ List.length (GenerateScaffold.openai_calls (snd answer))
           = S (List.length (GenerateScaffold.openai_calls w))).
Proof.
  assert (Hnone : forall r,
            status r <> 200%Z ->
            (status r <> 200%Z -> GenerateScaffold.db w = GenerateScaffold.db w)
            /\ (exists sent, GenerateScaffold.openai_calls w
                             = GenerateScaffold.openai_calls w ++ sent
                             /\ (List.length sent <= 1)%nat)
            /\ (status r = 200%Z ->
                exists (uid : uuid) (body : GenerateScaffold.GenerateScaffoldRequest)
                       (project : projects_row),
                  GenerateScaffold.authorization req = Some (Some uid)
                  /\ GenerateScaffold.req_body req = Some body
                  /\ projects (GenerateScaffold.db w)
                     = projects (GenerateScaffold.db w) ++ [project]
                  /\ p_user_id project = uid
                  /\ p_id project = next_uuid (GenerateScaffold.db w)
                  /\ p_name project
                     = GenerateScaffold.generateProjectName (GenerateScaffold.appIdea body)
                  /\ p_status project = PS_generated
                  /\ List.length (GenerateScaffold.openai_calls w)
                     = S (List.length (GenerateScaffold.openai_calls w)))).
  { intros r Hr. split; [reflexivity|]. split.
    - exists []. rewrite app_nil_r. split; [reflexivity | simpl; lia].
    - intros H. contradiction. }
  unfold GenerateScaffold.serve, GenerateScaffold.load_user.
  destruct (GenerateScaffold.authorization req) as [[uid|]|];
    try (apply Hnone; simpl; discriminate).
  destruct (data (single (filter (fun u => N.eqb (u_id u) uid)
                                 (users (GenerateScaffold.db w))))) as [userData|];
    [|apply Hnone; simpl; discriminate].
  assert (Hgen :
    let answer := GenerateScaffold.generate openAIApiKey build_prompt openai_chat_completions JSON_parse
                  w req uid userData in
    (status (fst answer) <> 200%Z -> GenerateScaffold.db (snd answer) = GenerateScaffold.db w)
    /\ (exists sent, GenerateScaffold.openai_calls (snd answer)
                     = GenerateScaffold.openai_calls w ++ sent
                     /\ (List.length sent <= 1)%nat)
    /\ (status (fst answer) = 200%Z ->
        exists uid0 body project,
          Some (Some uid) = Some (Some uid0)
          /\ GenerateScaffold.req_body req = Some body
          /\ projects (GenerateScaffold.db (snd answer))
             = projects (GenerateScaffold.db w) ++ [project]
          /\ p_user_id project = uid0
          /\ p_id project = next_uuid (GenerateScaffold.db w)
          /\ p_name project
             = GenerateScaffold.generateProjectName (GenerateScaffold.appIdea body)
          /\ p_status project = PS_generated
          /\ List.length (GenerateScaffold.openai_calls (snd answer))
             = S (List.length (GenerateScaffold.openai_calls w)))).
  { destruct (generate_status openAIApiKey build_prompt openai_chat_completions JSON_parse
                w req uid userData) as [_ [H1 [_ [H2 H3]]]].
    split; [exact H1|]. split; [exact H2|].
    intros Hok. destruct (H3 Hok) as [body [project Hp]].
    exists uid, body, project. split; [reflexivity | exact Hp]. }
  unfold GenerateScaffold.finish.
  destruct (GenerateScaffold.limits (u_subscription_tier userData)) as [limit|];
    [|exact Hgen].
  destruct (GenerateScaffold.limit_reached _ _); [|exact Hgen].
  apply Hnone. simpl. discriminate.
Qed.


Lemma quota_refusal_only_at_the_limit_witness :
  exists uid userData limit,
    GenerateScaffold.authorization (GenScenario.request_of Scenario.bob) = Some (Some uid)
    /\ filter (fun u => N.eqb (u_id u) uid)
              (users (GenerateScaffold.db (GenScenario.world_with 3%Z))) = [userData]
    /\ GenerateScaffold.limits (u_subscription_tier userData) = Some limit
    /\ limit <> (-1)%Z
    /\ (limit <= u_monthly_generations userData)%Z
    /\ GenerateScaffold.serve GenScenario.api_key GenScenario.prompt_of
         GenScenario.generator GenScenario.parse (GenScenario.world_with 3%Z)
         (GenScenario.request_of Scenario.bob)
       = ({| status := 429;
             body := Body_quota "Monthly generation limit reached" limit
                                (u_monthly_generations userData) |},
          GenScenario.world_with 3%Z).
Proof.
  apply (@quota_refusal_only_at_the_limit GenScenario.api_key GenScenario.prompt_of
           GenScenario.generator GenScenario.parse (GenScenario.world_with 3%Z)
           (GenScenario.request_of Scenario.bob)).
  reflexivity.
Defined.



Lemma split_spaces_words (Q : ascii -> Prop) (cs cur : list ascii) :
  Forall Q cur ->
  Forall (fun c => Ascii.eqb c " " = false -> Q c) cs ->
  Forall (Forall Q) (GenerateScaffold.split_spaces cur cs).
Proof.
  revert cur. induction cs as [|c rest IH]; intros cur Hcur Hcs; simpl.
  - constructor; [apply Forall_rev; exact Hcur | constructor].
  - inversion Hcs as [|? ? Hc Hrest]; subst.
    destruct (Ascii.eqb c " ") eqn:Hsp.
    + constructor; [apply Forall_rev; exact Hcur|]. apply IH; [constructor | exact Hrest].
    + apply IH; [|exact Hrest]. constructor; [apply Hc; reflexivity | exact Hcur].
Qed.

Lemma join_hyphen_chars (Q : ascii -> Prop) (words : list (list ascii)) :
  Forall (Forall Q) words -> Q "-"%char -> Forall Q (GenerateScaffold.join_hyphen words).
Proof.
  intros Hw Hh. destruct words as [|w rest]; simpl; [constructor|].
  inversion Hw as [|? ? H1 H2]; subst.
  apply Forall_app. split; [exact H1|].
  clear Hw. induction H2 as [|v more Hv _ IH]; simpl; [constructor|].
  constructor; [exact Hh|]. apply Forall_app. split; [exact Hv | exact IH].
Qed.

Lemma count_hyphens_word (w : list ascii) :
  Forall (fun c => Ascii.eqb c "-" = false) w -> count_occ ascii_dec w "-"%char = 0%nat.
Proof.
  induction 1 as [|c w Hc _ IH]; simpl; [reflexivity|].
  destruct (ascii_dec c "-") as [->|_]; [discriminate | exact IH].
Qed.

Lemma join_hyphen_count (words : list (list ascii)) :
  Forall (Forall (fun c => Ascii.eqb c "-" = false)) words ->
  count_occ ascii_dec (GenerateScaffold.join_hyphen words) "-"%char
  = Nat.pred (List.length words).
Proof.
  intros Hw. destruct words as [|w rest]; simpl; [reflexivity|].
  inversion Hw as [|? ? H1 H2]; subst.
  rewrite count_occ_app, (count_hyphens_word H1). simpl.
  clear Hw. induction H2 as [|v more Hv _ IH]; simpl; [reflexivity|].
  rewrite count_occ_app, (count_hyphens_word Hv), IH. reflexivity.
Qed.

(** X30.  The name [generateProjectName] derives from an idea is never
    empty, holds at most two hyphens (three words), and consists of
    lower-case letters, digits, hyphens and white space other than the
    space character; in particular it has no space and no upper-case
    letter. *)
Theorem generateProjectName_shape (idea : string) :
  GenerateScaffold.generateProjectName idea <> ""%string
  /\ (count_occ ascii_dec (Js.chars (GenerateScaffold.generateProjectName idea)) "-"%char
      <= 2)%nat
  /\ forallb (fun c => Js.is_lower c || Js.is_digit c || Ascii.eqb c "-"
                       || (Js.is_space c && negb (Ascii.eqb c " ")))
             (Js.chars (GenerateScaffold.generateProjectName idea)) = true.
Proof.
  unfold GenerateScaffold.generateProjectName.
  set (kept := filter (fun c => Js.is_lower c || Js.is_digit c || Js.is_space c)
                      (Js.chars (Js.toLowerCase idea))).
  set (words := firstn 3 (filter (fun w => 3 <? List.length w)
                                 (GenerateScaffold.split_spaces [] kept))).
  set (Q := fun c => (Js.is_lower c || Js.is_digit c || Js.is_space c) = true
                     /\ Ascii.eqb c " " = false).
  assert (Hwords : Forall (Forall Q) words).
  { assert (Hsplit : Forall (Forall Q) (GenerateScaffold.split_spaces [] kept)).
    { apply split_spaces_words; [constructor|].
      apply Forall_forall. intros c Hc Hsp. split; [|exact Hsp].
      unfold kept in Hc. apply filter_In in Hc. tauto. }
    rewrite Forall_forall in *. intros w Hw. apply Hsplit.
    unfold words in Hw. apply In_firstn in Hw. apply filter_In in Hw. tauto. }
  assert (Hlen : (List.length words <= 3)%nat) by apply firstn_le_length.
  assert (HQ : forall c, Q c -> Ascii.eqb c "-" = false
                                /\ (Js.is_lower c || Js.is_digit c || Ascii.eqb c "-"
                                    || (Js.is_space c && negb (Ascii.eqb c " "))) = true).
  { intros c [Hok Hsp]. split.
    - destruct (Ascii.eqb c "-") eqn:Hh; [|reflexivity].
      apply Ascii.eqb_eq in Hh. subst c. discriminate.
    - rewrite Hsp. simpl. rewrite andb_true_r.
      destruct (Js.is_lower c), (Js.is_digit c), (Js.is_space c), (Ascii.eqb c "-");
        simpl in *; try reflexivity; discriminate. }
  destruct (Js.truthy (Js.text (GenerateScaffold.join_hyphen words))) eqn:Ht.
  - rewrite chars_text. split.
    + unfold Js.truthy in Ht. apply negb_true_iff, String.eqb_neq in Ht. exact Ht.
    + split.
      * rewrite join_hyphen_count.
        -- lia.
        -- eapply Forall_impl; [|exact Hwords]. intros w Hw.
           eapply Forall_impl; [|exact Hw]. intros c Hc. apply HQ; exact Hc.
      * apply forallb_forall. apply Forall_forall.
        apply (@join_hyphen_chars
                 (fun c => (Js.is_lower c || Js.is_digit c || Ascii.eqb c "-"
                            || (Js.is_space c && negb (Ascii.eqb c " "))) = true)).
        -- eapply Forall_impl; [|exact Hwords]. intros w Hw.
           eapply Forall_impl; [|exact Hw]. intros c Hc. apply HQ; exact Hc.
        -- reflexivity.
  - split; [discriminate|]. split; [simpl; lia | reflexivity].
Qed.
